(** * LoRa host-side transport: reassembly, chunked transfer, statistics

    A shallow embedding of the host-side Python programs of the LoRa
    full-stack repository, and the properties of its specification that can
    be settled on that embedding.

    - [Py]: the Python built-ins the programs rely on (text slicing,
      [str.split] with a bound, [int()], UTF-8, exceptions).
    - [Float]: the arithmetic of Python's [float], an IEEE 754 double.
    - [Base64]: [base64.b64encode] and [base64.b64decode] (CPython's
      [binascii] in its default, non-strict mode).
    - [PathLib]: [Path.name], [Path.stem], [Path.suffix].
    - [LoraTransceiver]: [lora_transceiver.py].
    - [RxReceiveFile]: [rx_receive_file.py].
    - [TxSendFile]: [tx_send_file.py].
    - [MeshReceiver]: [mesh_receiver.py].
    - [MeshInterface]: [mesh_network_interface.py].

    Python [int] is [Z], [str] is [string] (characters with code points
    below 256), [bytes] is [list byte], a [dict] is a [gmap].  A clock
    reading is kept as the rational [Q] it stands for; what the
    statistics and the cleanup compute from readings and counters in
    [float] arithmetic is a double ([Float.float]), rounded as IEEE 754
    rounds.  A file write that the code does not guard is taken to
    succeed. *)

From Stdlib Require Import ZArith List String Ascii QArith Lia.
From Stdlib Require Floats.SpecFloat.
From Stdlib.Strings Require Import Byte.
From stdpp Require Import gmap strings list fin_maps pretty.

Local Open Scope Z_scope.

(* ===================================================================== *)
(** ** Python built-ins *)
(* ===================================================================== *)

Module Py.

(** Exceptions the modelled code can raise. *)
Inductive exn : Type :=
| KeyError (k : Z)
| ValueError
| ZeroDivisionError
| OverflowError
| OSError.

(** The result of a call: a returned value or a raised exception. *)
Inductive result (A : Type) : Type :=
| Ret (a : A)
| Raise (e : exn).
Global Arguments Ret {A} a.
Global Arguments Raise {A} e.

(** [len(s)] *)
Definition len (s : string) : Z := Z.of_nat (String.length s).

(** [s[:n]] and [s[n:]] for [0 <= n]. *)
Fixpoint take (n : nat) (s : string) : string :=
  match n, s with
  | S n', String c s' => String c (take n' s')
  | _, _ => ""
  end.

Fixpoint drop (n : nat) (s : string) : string :=
  match n, s with
  | S n', String _ s' => drop n' s'
  | _, _ => s
  end.

(** [s[i:j]] for [0 <= i <= j]. *)
Definition slice (s : string) (i j : nat) : string :=
  take (j - i) (drop i s).

(** [s.startswith(p)] *)
Fixpoint startswith (s p : string) : bool :=
  match p with
  | "" => true
  | String a p' =>
      match s with
      | "" => false
      | String b s' => Ascii.eqb a b && startswith s' p'
      end
  end.

(** [sub in s] *)
Fixpoint contains (sub s : string) : bool :=
  startswith s sub ||
  match s with
  | "" => false
  | String _ s' => contains sub s'
  end.

(** The first occurrence of [sep] cuts [s] in two. *)
Fixpoint cut (sep : ascii) (s : string) : option (string * string) :=
  match s with
  | "" => None
  | String c s' =>
      if Ascii.eqb c sep then Some ("", s')
      else match cut sep s' with
           | Some (a, b) => Some (String c a, b)
           | None => None
           end
  end.

(** [s.split(sep, maxsplit)] for a one-character separator. *)
Fixpoint split (sep : ascii) (maxsplit : nat) (s : string) : list string :=
  match maxsplit with
  | O => [s]
  | S n =>
      match cut sep s with
      | Some (a, b) => a :: split sep n b
      | None => [s]
      end
  end.

(** ["".join(l)] *)
Definition join (l : list string) : string :=
  fold_right String.append "" l.

(** [range(0, stop, step)] for [step > 0]: [0, step, 2*step, ...] below
    [stop]. *)
Definition range_step (stop step : nat) : list nat :=
  (λ k, k * step)%nat <$> seq 0 ((stop + step - 1) / step)%nat.

(** [range(n)] for a Python int [n]: empty when [n <= 0]. *)
Definition range (n : Z) : list Z := seqZ 0 n.

(** White space in the sense of [str.isspace], among code points below
    256: tab to carriage return, the separators U+001C to U+001F, space,
    next line and no-break space. *)
Definition is_space (c : ascii) : bool :=
  let n := Z.of_N (N_of_ascii c) in
  ((9 <=? n) && (n <=? 13)) || ((28 <=? n) && (n <=? 31)) || (n =? 32)
  || (n =? 133) || (n =? 160).

Fixpoint lstrip (s : string) : string :=
  match s with
  | String c s' => if is_space c then lstrip s' else s
  | "" => ""
  end.

(** [s.strip()] *)
Definition strip (s : string) : string :=
  String.rev (lstrip (String.rev (lstrip s))).

(** White space that [int()] skips at both ends of its argument: that of
    [str.isspace] without the separators U+001C to U+001F. *)
Definition is_int_space (c : ascii) : bool :=
  let n := Z.of_N (N_of_ascii c) in
  ((9 <=? n) && (n <=? 13)) || (n =? 32) || (n =? 133) || (n =? 160).

Fixpoint int_lstrip (s : string) : string :=
  match s with
  | String c s' => if is_int_space c then int_lstrip s' else s
  | "" => ""
  end.

Definition int_strip (s : string) : string :=
  String.rev (int_lstrip (String.rev (int_lstrip s))).

Definition digit_val (c : ascii) : option Z :=
  let n := Z.of_N (N_of_ascii c) in
  if (48 <=? n) && (n <=? 57) then Some (n - 48) else None.

(** Digits with single underscores between them; [acc] is the value so
    far and [prev_digit] tells whether the last character was a digit. *)
Fixpoint digits (s : string) (acc : Z) (prev_digit : bool) : option Z :=
  match s with
  | "" => if prev_digit then Some acc else None
  | String c s' =>
      match digit_val c with
      | Some d => digits s' (10 * acc + d) true
      | None =>
          if Ascii.eqb c "_" && prev_digit then digits s' acc false
          else None
      end
  end.

(** [int(s)]: [None] stands for [ValueError]. *)
Definition int (s : string) : option Z :=
  match int_strip s with
  | String "+" s' => digits s' 0 false
  | String "-" s' => Z.opp <$> digits s' 0 false
  | s' => digits s' 0 false
  end.

(** [s.lower()] for text within ASCII: the letters [A] to [Z] are
    replaced. *)
Definition lower_char (c : ascii) : ascii :=
  let n := N_of_ascii c in
  if ((65 <=? n) && (n <=? 90))%N then ascii_of_N (n + 32) else c.

Fixpoint lower (s : string) : string :=
  match s with
  | "" => ""
  | String c s' => String (lower_char c) (lower s')
  end.

(** [s.index(sub)]: the position of the first occurrence; [None] stands
    for [ValueError]. *)
Fixpoint index (sub s : string) : option nat :=
  if startswith s sub then Some O
  else
    match s with
    | "" => None
    | String _ s' => S <$> index sub s'
    end.

(** [str(n)] *)
Definition str (n : Z) : string := pretty n.

(** The text ["\n"]. *)
Definition nl : string := String "010" "".

(** [s.encode("utf-8")]: a code point below 128 gives one byte, a code
    point from 128 to 255 the two bytes [110000xx 10xxxxxx]. *)
Definition encode_char (c : ascii) : list byte :=
  let n := N_of_ascii c in
  if (n <? 128)%N then [byte_of_ascii c]
  else [byte_of_ascii (ascii_of_N (192 + n / 64));
        byte_of_ascii (ascii_of_N (128 + n mod 64))].

Fixpoint encode (s : string) : list byte :=
  match s with
  | "" => []
  | String c s' => encode_char c ++ encode s'
  end.

(** A continuation byte of UTF-8: [10xxxxxx]. *)
Definition is_cont (b : byte) : bool :=
  let n := Byte.to_N b in ((128 <=? n) && (n <? 192))%N.

(** The six low bits of a continuation byte. *)
Definition low6 (b : byte) : N := (Byte.to_N b mod 64)%N.

(** The range of the second byte after the lead byte [n0] of a sequence of
    three or four bytes: the lead bytes E0 and F0 exclude the overlong
    forms, ED the surrogates and F4 the code points above U+10FFFF. *)
Definition second_ok (n0 : N) (b1 : byte) : bool :=
  let n1 := Byte.to_N b1 in
  is_cont b1
  && negb ((n0 =? 224) && (n1 <? 160))%N
  && negb ((n0 =? 237) && (160 <=? n1))%N
  && negb ((n0 =? 240) && (n1 <? 144))%N
  && negb ((n0 =? 244) && (144 <=? n1))%N.

(** [b.decode("utf-8", errors="ignore")] as the list of the code points of
    the text.  A byte that cannot start a sequence is skipped; of a
    sequence that breaks off, the bytes that were in order are skipped,
    and all of them when the input ends inside a sequence. *)
Fixpoint decode (b : list byte) : list N :=
  match b with
  | [] => []
  | b0 :: r0 =>
      let n0 := Byte.to_N b0 in
      if (n0 <? 128)%N then n0 :: decode r0
      else if (n0 <? 194)%N then decode r0
      else if (n0 <? 224)%N then
        match r0 with
        | [] => []
        | b1 :: r1 =>
            if is_cont b1 then ((n0 - 192) * 64 + low6 b1)%N :: decode r1
            else decode r0
        end
      else if (n0 <? 240)%N then
        match r0 with
        | [] => []
        | b1 :: r1 =>
            if second_ok n0 b1 then
              match r1 with
              | [] => []
              | b2 :: r2 =>
                  if is_cont b2
                  then ((n0 - 224) * 4096 + low6 b1 * 64 + low6 b2)%N :: decode r2
                  else decode r1
              end
            else decode r0
        end
      else if (n0 <? 245)%N then
        match r0 with
        | [] => []
        | b1 :: r1 =>
            if second_ok n0 b1 then
              match r1 with
              | [] => []
              | b2 :: r2 =>
                  if is_cont b2 then
                    match r2 with
                    | [] => []
                    | b3 :: r3 =>
                        if is_cont b3
                        then ((n0 - 240) * 262144 + low6 b1 * 4096
                              + low6 b2 * 64 + low6 b3)%N :: decode r3
                        else decode r2
                    end
                  else decode r1
              end
            else decode r0
        end
      else decode r0
  end.

(** The code points of a text, and the text of a list of code points as
    far as the strings used here hold it: a code point above 255 is left
    out. *)
Definition points (s : string) : list N := N_of_ascii <$> list_ascii_of_string s.

Fixpoint text (l : list N) : string :=
  match l with
  | [] => ""
  | n :: l' => if (n <? 256)%N then String (ascii_of_N n) (text l') else text l'
  end.

End Py.

(* ===================================================================== *)
(** ** float *)
(* ===================================================================== *)

Module Float.
Import Py.

(** A Python [float] is an IEEE 754 double: 53 bits of precision and
    exponents below 1024. *)
Definition prec : Z := 53.
Definition emax : Z := 1024.
Definition float : Type := SpecFloat.spec_float.

(** [0.0] *)
Definition zero : float := SpecFloat.S754_zero false.

(** The double nearest to [n / d], ties to even, for [d] other than 0.
    The quotient is taken with 64 bits or more, and a last bit tells
    whether the division left a remainder, so that rounding it rounds the
    ratio; a ratio of 0 has the sign of the divisor. *)
Definition of_ratio (n d : Z) : float :=
  let neg := xorb (n <? 0) (d <? 0) in
  let a := Z.abs n in
  let b := Z.abs d in
  if a =? 0 then SpecFloat.S754_zero neg
  else
    let k := Z.max 0 (64 + Z.log2 b - Z.log2 a) in
    let q := (a * 2 ^ k) / b in
    let rest := if (a * 2 ^ k) mod b =? 0 then 0 else 1 in
    let m := 2 * q + rest in
    SpecFloat.binary_normalize prec emax (if neg then - m else m) (- k - 1) neg.

(** The double nearest to a rational; a clock reading is a double, which
    this gives back. *)
Definition of_Q (q : Q) : float := of_ratio (Qnum q) (Z.pos (Qden q)).


Definition is_inf (x : float) : bool :=
  match x with
  | SpecFloat.S754_infinity _ => true
  | _ => false
  end.

(** The conversion of an [int] operand of a [float] operation:
    [OverflowError] when the int is too large for a double. *)
Definition of_int (n : Z) : result float :=
  let x := of_ratio n 1 in
  if is_inf x then Raise OverflowError else Ret x.


(** [x == y], [x < y], [x - y] and [x * y] on floats. *)
Definition eqb (x y : float) : bool := SpecFloat.SFeqb x y.
Definition ltb (x y : float) : bool := SpecFloat.SFltb x y.
Definition sub (x y : float) : float := SpecFloat.SFsub prec emax x y.

(** [x / y] on floats: a divisor equal to zero raises. *)
Definition div (x y : float) : result float :=
  if eqb y zero then Raise ZeroDivisionError
  else Ret (SpecFloat.SFdiv prec emax x y).

(** [n / y] for an int [n] and a float [y]: the int is converted first. *)
Definition int_div (n : Z) (y : float) : result float :=
  match of_int n with
  | Raise e => Raise e
  | Ret x => div x y
  end.

End Float.


(* ===================================================================== *)
(** ** base64 *)
(* ===================================================================== *)

Module Base64.

Definition Z_of_byte (b : byte) : Z := Z.of_N (Byte.to_N b).

(** A value stored into an [unsigned char]. *)
Definition byte_of_Z (z : Z) : byte :=
  match Byte.of_N (Z.to_N (Z.land z 255)) with
  | Some b => b
  | None => x00
  end.

Definition alphabet : string :=
  "ABCDEFGHIJKLMNOPQRSTUVWXYZabcdefghijklmnopqrstuvwxyz0123456789+/".

Definition PAD : ascii := "="%char.

(** [table_b2a_base64[n]] *)
Definition table_b2a (n : Z) : ascii :=
  match String.get (Z.to_nat n) alphabet with
  | Some c => c
  | None => PAD
  end.

Fixpoint index_of (c : ascii) (s : string) (i : Z) : option Z :=
  match s with
  | "" => None
  | String d s' => if Ascii.eqb c d then Some i else index_of c s' (i + 1)
  end.

(** [table_a2b_base64[c]]: [None] for a character outside the alphabet. *)
Definition table_a2b (c : ascii) : option Z := index_of c alphabet 0.

(** [base64.b64encode(bs).decode("ascii")]: three bytes give four
    characters, a last group of one or two bytes is padded with [=]. *)
Fixpoint b64encode (bs : list byte) : string :=
  match bs with
  | [] => ""
  | [b1] =>
      let n1 := Z_of_byte b1 in
      String (table_b2a (Z.shiftr n1 2))
        (String (table_b2a (Z.shiftl (Z.land n1 3) 4))
           (String PAD (String PAD "")))
  | [b1; b2] =>
      let n1 := Z_of_byte b1 in
      let n2 := Z_of_byte b2 in
      String (table_b2a (Z.shiftr n1 2))
        (String (table_b2a (Z.lor (Z.shiftl (Z.land n1 3) 4) (Z.shiftr n2 4)))
           (String (table_b2a (Z.shiftl (Z.land n2 15) 2))
              (String PAD "")))
  | b1 :: b2 :: b3 :: rest =>
      let n1 := Z_of_byte b1 in
      let n2 := Z_of_byte b2 in
      let n3 := Z_of_byte b3 in
      String (table_b2a (Z.shiftr n1 2))
        (String (table_b2a (Z.lor (Z.shiftl (Z.land n1 3) 4) (Z.shiftr n2 4)))
           (String (table_b2a (Z.lor (Z.shiftl (Z.land n2 15) 2) (Z.shiftr n3 6)))
              (String (table_b2a (Z.land n3 63)) (b64encode rest))))
  end.

(** The decoding loop of [binascii.a2b_base64] in non-strict mode.
    [quad_pos] counts the data characters of the current group of four,
    [leftchar] holds the bits not yet written, [pads] counts the padding
    characters seen since the last data character.  A padding character
    that completes a group ends the decoding; characters outside the
    alphabet are skipped; input that ends inside a group is an error
    ([None] stands for [binascii.Error]). *)
Fixpoint a2b_loop (s : string) (quad_pos : nat) (leftchar : Z) (pads : Z)
  : option (list byte) :=
  match s with
  | "" => if Nat.eqb quad_pos 0 then Some [] else None
  | String c s' =>
      if Ascii.eqb c PAD then
        if Nat.leb 2 quad_pos then
          if 4 <=? Z.of_nat quad_pos + (pads + 1) then Some []
          else a2b_loop s' quad_pos leftchar (pads + 1)
        else a2b_loop s' quad_pos leftchar pads
      else
        match table_a2b c with
        | None => a2b_loop s' quad_pos leftchar pads
        | Some this_ch =>
            match quad_pos with
            | 0%nat => a2b_loop s' 1 this_ch 0
            | 1%nat =>
                cons (byte_of_Z (Z.lor (Z.shiftl leftchar 2) (Z.shiftr this_ch 4)))
                  <$> a2b_loop s' 2 (Z.land this_ch 15) 0
            | 2%nat =>
                cons (byte_of_Z (Z.lor (Z.shiftl leftchar 4) (Z.shiftr this_ch 2)))
                  <$> a2b_loop s' 3 (Z.land this_ch 3) 0
            | _ =>
                cons (byte_of_Z (Z.lor (Z.shiftl leftchar 6) this_ch))
                  <$> a2b_loop s' 0 0 0
            end
        end
  end.

Definition is_ascii (c : ascii) : bool := Z.of_N (N_of_ascii c) <? 128.

Fixpoint all_ascii (s : string) : bool :=
  match s with
  | "" => true
  | String c s' => is_ascii c && all_ascii s'
  end.

(** [base64.b64decode(s)] for a [str] argument: the text is first encoded
    as ASCII ([ValueError] otherwise), then decoded by the loop above.
    [None] stands for the exception ([ValueError] or its subclass
    [binascii.Error]). *)
Definition b64decode (s : string) : option (list byte) :=
  if all_ascii s then a2b_loop s 0 0 0 else None.

End Base64.

(* ===================================================================== *)
(** ** pathlib *)
(* ===================================================================== *)

Module PathLib.

(** The components of a POSIX path: empty components and [.] are dropped
    when the path is parsed. *)
Fixpoint components (fuel : nat) (s : string) : list string :=
  match fuel with
  | O => [s]
  | S n =>
      match Py.cut "/" s with
      | Some (a, b) => a :: components n b
      | None => [s]
      end
  end.

Definition parts (s : string) : list string :=
  filter (λ c, c ≠ "" ∧ c ≠ ".") (components (String.length s) s).

(** [Path(s).name]: the last component, or the empty string. *)
Definition name (s : string) : string := List.last (parts s) "".

(** The position of the last dot of [s], if any. *)
Fixpoint rfind_dot (s : string) (i : nat) (found : option nat) : option nat :=
  match s with
  | "" => found
  | String c s' =>
      rfind_dot s' (S i) (if Ascii.eqb c "." then Some i else found)
  end.

(** [Path(s).suffix]: the name from its last dot on, when that dot is
    neither the first nor the last character of the name. *)
Definition suffix (s : string) : string :=
  let n := name s in
  match rfind_dot n 0 None with
  | Some i =>
      if Nat.ltb 0 i && Nat.ltb i (String.length n - 1) then Py.drop i n
      else ""
  | None => ""
  end.

(** [Path(s).stem]: the name without its suffix. *)
Definition stem (s : string) : string :=
  let n := name s in
  match rfind_dot n 0 None with
  | Some i =>
      if Nat.ltb 0 i && Nat.ltb i (String.length n - 1) then Py.take i n
      else n
  | None => n
  end.

End PathLib.

(* ===================================================================== *)
(** ** lora_transceiver.py *)
(* ===================================================================== *)

Module LoraTransceiver.
Import Py.

(** One pending assembly: [{"tot": int, "chunks": {idx: str}}]. *)
Record entry : Type := Entry { tot : Z; chunks : gmap Z string }.

(** [[chunks[i] for i in indices]]: the first missing index raises
    [KeyError]. *)
Fixpoint ordered (chunks : gmap Z string) (indices : list Z)
  : result (list string) :=
  match indices with
  | [] => Ret []
  | i :: rest =>
      match chunks !! i with
      | None => Raise (KeyError i)
      | Some c =>
          match ordered chunks rest with
          | Ret l => Ret (c :: l)
          | Raise e => Raise e
          end
      end
  end.

(** [MessageReassembler.add_frag]: [messages] maps [(src, seq)] to its
    pending entry.  The dictionary is updated in place, so an exception
    leaves the updates made before it. *)
Definition add_frag (messages : gmap (string * Z) entry)
    (src : string) (seq idx tot_ : Z) (chunk : string)
  : gmap (string * Z) entry * result (option string) :=
  let key := (src, seq) in
  let messages :=
    match messages !! key with
    | None => <[key := Entry tot_ ∅]> messages
    | Some _ => messages
    end in
  let msg := default (Entry tot_ ∅) (messages !! key) in
  let msg := Entry tot_ (chunks msg) in
  let msg := Entry (tot msg) (<[idx := chunk]> (chunks msg)) in
  let messages := <[key := msg]> messages in
  if Z.of_nat (size (chunks msg)) =? tot msg then
    match ordered (chunks msg) (range (tot msg)) with
    | Ret l => (delete key messages, Ret (Some (join l)))
    | Raise e => (messages, Raise e)
    end
  else (messages, Ret None).

(** The receiving side: the two reassembly dictionaries, the files of the
    output directory (file name to content) and the lines printed. *)
Record rx_state : Type := RxState {
  messages : gmap (string * Z) entry;
  files : gmap string entry;
  disk : gmap string (list byte);
  out : list string
}.

Definition print (s : string) (st : rx_state) : rx_state :=
  RxState (messages st) (files st) (disk st) (out st ++ [s]).

Definition set_files (f : gmap string entry) (st : rx_state) : rx_state :=
  RxState (messages st) f (disk st) (out st).

Definition set_messages (m : gmap (string * Z) entry) (st : rx_state)
  : rx_state :=
  RxState m (files st) (disk st) (out st).

(** [out_path.write_bytes(raw)] for a file of the output directory: the
    file is created or replaced.  The file system is taken to accept the
    write; a write that fails (a name with a NUL, a name too long, a full
    disk) raises out of [add_chunk] and [handle_full_payload] and is not
    modelled. *)
Definition write_bytes (name : string) (raw : list byte) (st : rx_state)
  : rx_state :=
  RxState (messages st) (files st) (<[name := raw]> (disk st)) (out st).

(** [f"{p.stem}_rx{p.suffix}"] *)
Definition stamped (fname : string) : string :=
  PathLib.stem fname +:+ "_rx" +:+ PathLib.suffix fname.

(** [FileChunkAssembler.add_chunk].  The text of the caught exception and
    the resolved directory are left out of the printed lines, and so are
    the characters of a received text above U+00FF, which the strings
    used here do not hold. *)
Definition add_chunk (fname : string) (idx tot_ : Z) (b64_chunk : string)
    (st : rx_state) : rx_state * result unit :=
  let fs :=
    match files st !! fname with
    | None => <[fname := Entry tot_ ∅]> (files st)
    | Some _ => files st
    end in
  let e := default (Entry tot_ ∅) (fs !! fname) in
  let e := Entry tot_ (chunks e) in
  let e := Entry (tot e) (<[idx := b64_chunk]> (chunks e)) in
  let st := set_files (<[fname := e]> fs) st in
  let st := print ("[INFO] Got FILECHUNK " +:+ str (idx + 1) +:+ "/"
                     +:+ str tot_ +:+ " for '" +:+ fname +:+ "'") st in
  if Z.of_nat (size (chunks e)) =? tot e then
    match ordered (chunks e) (range (tot e)) with
    | Raise x => (st, Raise x)
    | Ret l =>
        let full_b64 := join l in
        let st := set_files (delete fname (files st)) st in
        match Base64.b64decode full_b64 with
        | None =>
            (print ("[ERROR] Base64 decode failed for '" +:+ fname +:+ "'") st,
             Ret ())
        | Some raw =>
            let st := write_bytes (stamped fname) raw st in
            let st := print ("[OK] Reassembled and wrote "
                               +:+ str (Z.of_nat (length raw))
                               +:+ " bytes to '" +:+ stamped fname +:+ "'") st in
            if startswith (PathLib.stem fname) "_tmp_text_to_send" then
              let txt := decode raw in
              (print ("[RX TEXT] Full received text ("
                        +:+ str (Z.of_nat (length txt))
                        +:+ " chars):" +:+ nl +:+ text txt) st, Ret ())
            else (st, Ret ())
        end
    end
  else (st, Ret ()).

(** [handle_full_payload] *)
Definition handle_full_payload (payload : string) (st : rx_state)
  : rx_state * result unit :=
  if startswith payload "FILECHUNK:" then
    match split ":" 4 payload with
    | [_; fname; s_idx; s_tot; b64_chunk] =>
        match int s_idx, int s_tot with
        | Some idx, Some tot_ => add_chunk fname idx tot_ b64_chunk st
        | _, _ =>
            (print (take 200 payload +:+ "...")
               (print "[WARN] FILECHUNK payload format invalid, printing raw:" st),
             Ret ())
        end
    | _ =>
        (print (take 200 payload +:+ "...")
           (print "[WARN] FILECHUNK payload format invalid, printing raw:" st),
         Ret ())
    end
  else if startswith payload "FILE:" then
    match split ":" 2 payload with
    | [_; fname; b64] =>
        let st := print ("[INFO] Received FILE '" +:+ fname
                           +:+ "' (base64 length " +:+ str (len b64) +:+ ")") st in
        match Base64.b64decode b64 with
        | None => (print "[ERROR] Base64 decode failed" st, Ret ())
        | Some raw =>
            let st := write_bytes (stamped fname) raw st in
            (print ("[OK] Wrote " +:+ str (Z.of_nat (length raw))
                      +:+ " bytes to '" +:+ stamped fname +:+ "'") st, Ret ())
        end
    | _ =>
        (print (take 200 payload +:+ "...")
           (print "[WARN] FILE payload format invalid, printing raw:" st),
         Ret ())
    end
  else
    (print ("[FULL PAYLOAD] " +:+ take 200 payload
              +:+ (if 200 <? len payload then "..." else "")) st,
     Ret ()).

(** The session's settings: [quiet], and whether a log callback is
    installed (a callback is taken not to raise). *)
Record config : Type := Config { quiet : bool; log_cb : bool }.

(** [LoRaSerialSession._log]: the line goes to the callback when there is
    one, to the standard output unless [quiet] otherwise; [out] records
    both. *)
Definition _log (cfg : config) (s : string) (st : rx_state) : rx_state :=
  if log_cb cfg || negb (quiet cfg) then print s st else st.

(** [LoRaSerialSession._handle_rx_line] *)
Definition _handle_rx_line (cfg : config) (line : string) (st : rx_state)
  : rx_state * result unit :=
  if startswith line "MSG," then
    match split "," 5 line with
    | [_; src; seq; rssi; d_m; text] =>
        let st := _log cfg ("[MSG] src=" +:+ src +:+ " seq=" +:+ seq
                             +:+ " rssi=" +:+ rssi +:+ " d~" +:+ d_m
                             +:+ "m text='" +:+ take 60 text +:+ "'") st in
        handle_full_payload text st
    | _ => (st, Ret ())
    end
  else if startswith line "FRAG," then
    match split "," 7 line with
    | [_; src; seq; idx; tot_; rssi; d_m; chunk] =>
        match int seq, int idx, int tot_ with
        | Some seq_i, Some idx_i, Some tot_i =>
            match add_frag (messages st) src seq_i idx_i tot_i chunk with
            | (m, Raise e) => (set_messages m st, Raise e)
            | (m, Ret None) => (set_messages m st, Ret ())
            | (m, Ret (Some full)) =>
                let st := set_messages m st in
                let st := _log cfg ("[INFO] Full payload src=" +:+ src
                                     +:+ " seq=" +:+ str seq_i
                                     +:+ " len=" +:+ str (len full)) st in
                handle_full_payload full st
            end
        | _, _, _ =>
            (_log cfg ("[WARN] Bad FRAG ints: " +:+ take 120 line) st, Ret ())
        end
    | _ => (st, Ret ())
    end
  else (st, Ret ()).

(** [TxResult] *)
Record TxResult : Type := MkTxResult { ok : bool; reason : string }.

(** The session: the receiving state and the completion slot
    ([_tx_last], [_tx_event]). *)
Record session : Type := Session {
  rx : rx_state;
  tx_last : option TxResult;
  tx_event : bool
}.

(** [LoRaSerialSession._signal_tx] *)
Definition _signal_tx (ok_ : bool) (reason_ : string) (s : session) : session :=
  Session (rx s) (Some (MkTxResult ok_ reason_)) true.

(** One turn of [LoRaSerialSession._reader_loop] on a line read from the
    port (stripped; an empty line is skipped). *)
Definition reader_step (cfg : config) (line : string) (s : session)
  : session * result unit :=
  if String.eqb line "" then (s, Ret ())
  else
    let s :=
      if negb (quiet cfg)
         && negb (startswith line "MSG," || startswith line "FRAG,")
      then Session (print ("[MCU] " +:+ line) (rx s)) (tx_last s) (tx_event s)
      else s in
    if contains "[TX DONE]" line then (_signal_tx true "TX DONE" s, Ret ())
    else if contains "[ABORT]" line || contains "TX FAILED" line
    then (_signal_tx false line s, Ret ())
    else
      match _handle_rx_line cfg line (rx s) with
      | (r, res) => (Session r (tx_last s) (tx_event s), res)
      end.

(** [LoRaSerialSession._reader_loop] over the lines the port delivers:
    the loop has no handler, so an exception ends the reader thread and
    the remaining lines are never read. *)
Fixpoint _reader_loop (cfg : config) (lines : list string) (s : session)
  : session * result unit :=
  match lines with
  | [] => (s, Ret ())
  | line :: rest =>
      match reader_step cfg line s with
      | (s', Ret _) => _reader_loop cfg rest s'
      | (s', Raise e) => (s', Raise e)
      end
  end.

(** What the wait on the completion event observes for one chunk: the
    timeout elapses, or the reader has signalled (the slot then holds the
    reader's result, if any). *)
Inductive wait_outcome : Type :=
| TimedOut
| Signalled (last : option TxResult).

(** [LoRaSerialSession._consume_tx_result] *)
Definition _consume_tx_result (w : wait_outcome) : TxResult :=
  match w with
  | TimedOut => MkTxResult false "timeout waiting for [TX DONE]"
  | Signalled (Some r) => r
  | Signalled None => MkTxResult false "unknown"
  end.

(** [[b64[i:i + n] for i in range(0, len(b64), n)]]: [range] raises
    [ValueError] for a zero step and is empty for a negative one. *)
Definition split_chunks (b64 : string) (chunk_size_chars : Z)
  : result (list string) :=
  if chunk_size_chars =? 0 then Raise ValueError
  else if chunk_size_chars <? 0 then Ret []
  else
    let n := Z.to_nat chunk_size_chars in
    Ret ((λ i, slice b64 i (i + n)) <$> range_step (String.length b64) n).

(** [f"FILECHUNK:{tx_name}:{idx}:{tot}:{chunk}\n"] *)
Definition filechunk_line (tx_name : string) (idx tot_ : Z) (chunk : string)
  : string :=
  "FILECHUNK:" +:+ tx_name +:+ ":" +:+ str idx +:+ ":" +:+ str tot_
    +:+ ":" +:+ chunk +:+ nl.

(** The sending side: the data written to the port, write by write, and
    the lines logged. *)
Record tx_state : Type := TxState { written : list string; tx_out : list string }.

Definition tx_log (cfg : config) (s : string) (t : tx_state) : tx_state :=
  if log_cb cfg || negb (quiet cfg) then TxState (written t) (tx_out t ++ [s])
  else t.

(** [LoRaSerialSession._write]; the port is taken to accept the data. *)
Definition _write (data : string) (t : tx_state) : tx_state :=
  TxState (written t ++ [data]) (tx_out t).

(** The loop of [send_file] from chunk [idx] on; [waits] gives, chunk by
    chunk, what the wait observes (a wait with no entry times out). *)
Fixpoint send_chunks (cfg : config) (tx_name : string) (tot_ : Z) (idx : Z)
    (chunks : list string) (waits : list wait_outcome) (t : tx_state)
  : tx_state * bool :=
  match chunks with
  | [] => (tx_log cfg "[OK] All FILECHUNK lines sent." t, true)
  | chunk :: rest =>
      let t := tx_log cfg (nl +:+ "=== Sending FILECHUNK " +:+ str (idx + 1)
                             +:+ "/" +:+ str tot_ +:+ " (len="
                             +:+ str (len chunk) +:+ ") ===") t in
      let t := _write (filechunk_line tx_name idx tot_ chunk) t in
      let r := _consume_tx_result (hd TimedOut waits) in
      if negb (ok r) then
        (tx_log cfg ("[ERROR] Chunk " +:+ str (idx + 1) +:+ "/" +:+ str tot_
                       +:+ " failed: " +:+ reason r) t, false)
      else send_chunks cfg tx_name tot_ (idx + 1) rest (tl waits) t
  end.

(** [LoRaSerialSession.send_file], after [prepare_file_for_lora] has given
    the bytes [raw], the name [tx_name] and the description [desc]. *)
Definition send_file (cfg : config) (raw : list byte) (tx_name desc : string)
    (chunk_size_chars : Z) (waits : list wait_outcome)
  : result (tx_state * bool) :=
  let t := tx_log cfg ("[INFO] Final transmit name: " +:+ tx_name) (TxState [] []) in
  let t := tx_log cfg ("[INFO] Mode: " +:+ desc) t in
  let b64 := Base64.b64encode raw in
  let t := tx_log cfg ("[INFO] Base64 length: " +:+ str (len b64)) t in
  match split_chunks b64 chunk_size_chars with
  | Raise e => Raise e
  | Ret chunks =>
      let tot_ := Z.of_nat (length chunks) in
      let t := tx_log cfg ("[INFO] Will send " +:+ str tot_
                             +:+ " FILECHUNK lines") t in
      Ret (send_chunks cfg tx_name tot_ 0 chunks waits t)
  end.

(** [LoRaSerialSession.send_text_as_file] with the default [tmp_name]:
    the text is written to [_tmp_text_to_send.txt], which
    [prepare_file_for_lora] reads back as raw bytes under its own name
    (the suffix [.txt] is neither an image nor an audio suffix).  The
    preview is logged before [send_file] logs. *)
Definition send_text_as_file (cfg : config) (text : string)
    (chunk_size_chars : Z) (waits : list wait_outcome)
  : result (tx_state * bool) :=
  let raw := encode text in
  let preview :=
    tx_log cfg ("[TX] Text preview (" +:+ str (len text) +:+ " chars): '"
                  +:+ take 120 text +:+ "'") (TxState [] []) in
  match send_file cfg raw "_tmp_text_to_send.txt"
          ("raw bytes (" +:+ str (Z.of_nat (length raw)) +:+ " bytes)")
          chunk_size_chars waits with
  | Raise e => Raise e
  | Ret (t, b) => Ret (TxState (written t) (tx_out preview ++ tx_out t), b)
  end.

End LoraTransceiver.

(* ===================================================================== *)
(** ** rx_receive_file.py *)
(* ===================================================================== *)

Module RxReceiveFile.
Import Py.
Export LoraTransceiver (entry, Entry, tot, chunks, ordered,
  rx_state, RxState, messages, files, disk, out,
  print, set_files, set_messages, write_bytes, stamped).

(** [MessageReassembler.add_frag]: the same text as in
    [lora_transceiver.py]. *)
Definition add_frag (messages : gmap (string * Z) entry)
    (src : string) (seq idx tot_ : Z) (chunk : string)
  : gmap (string * Z) entry * result (option string) :=
  let key := (src, seq) in
  let messages :=
    match messages !! key with
    | None => <[key := Entry tot_ ∅]> messages
    | Some _ => messages
    end in
  let msg := default (Entry tot_ ∅) (messages !! key) in
  let msg := Entry tot_ (chunks msg) in
  let msg := Entry (tot msg) (<[idx := chunk]> (chunks msg)) in
  let messages := <[key := msg]> messages in
  if Z.of_nat (size (chunks msg)) =? tot msg then
    match ordered (chunks msg) (range (tot msg)) with
    | Ret l => (delete key messages, Ret (Some (join l)))
    | Raise e => (messages, Raise e)
    end
  else (messages, Ret None).

(** [FileChunkAssembler.add_chunk] *)
Definition add_chunk (fname : string) (idx tot_ : Z) (b64_chunk : string)
    (st : rx_state) : rx_state * result unit :=
  let fs :=
    match files st !! fname with
    | None => <[fname := Entry tot_ ∅]> (files st)
    | Some _ => files st
    end in
  let e := default (Entry tot_ ∅) (fs !! fname) in
  let e := Entry tot_ (chunks e) in
  let e := Entry (tot e) (<[idx := b64_chunk]> (chunks e)) in
  let st := set_files (<[fname := e]> fs) st in
  let st := print ("[INFO] Got FILECHUNK " +:+ str (idx + 1) +:+ "/"
                     +:+ str tot_ +:+ " for '" +:+ fname +:+ "'") st in
  if Z.of_nat (size (chunks e)) =? tot e then
    match ordered (chunks e) (range (tot e)) with
    | Raise x => (st, Raise x)
    | Ret l =>
        let full_b64 := join l in
        let st := set_files (delete fname (files st)) st in
        match Base64.b64decode full_b64 with
        | None =>
            (print ("[ERROR] Base64 decode failed for '" +:+ fname +:+ "'") st,
             Ret ())
        | Some raw =>
            let st := write_bytes (stamped fname) raw st in
            (print ("[OK] Reassembled and wrote "
                      +:+ str (Z.of_nat (length raw))
                      +:+ " bytes to '" +:+ stamped fname +:+ "'") st, Ret ())
        end
    end
  else (st, Ret ()).

(** [handle_full_payload] *)
Definition handle_full_payload (payload : string) (st : rx_state)
  : rx_state * result unit :=
  if startswith payload "FILECHUNK:" then
    match split ":" 4 payload with
    | [_; fname; s_idx; s_tot; b64_chunk] =>
        match int s_idx, int s_tot with
        | Some idx, Some tot_ => add_chunk fname idx tot_ b64_chunk st
        | _, _ =>
            (print (take 120 payload +:+ "...")
               (print "[WARN] FILECHUNK payload format invalid, printing raw:" st),
             Ret ())
        end
    | _ =>
        (print (take 120 payload +:+ "...")
           (print "[WARN] FILECHUNK payload format invalid, printing raw:" st),
         Ret ())
    end
  else if startswith payload "FILE:" then
    match split ":" 2 payload with
    | [_; fname; b64] =>
        let st := print ("[INFO] Received FILE '" +:+ fname
                           +:+ "' (base64 length " +:+ str (len b64) +:+ ")") st in
        match Base64.b64decode b64 with
        | None => (print "[ERROR] Base64 decode failed" st, Ret ())
        | Some raw =>
            let st := write_bytes (stamped fname) raw st in
            (print ("[OK] Wrote " +:+ str (Z.of_nat (length raw))
                      +:+ " bytes to '" +:+ stamped fname +:+ "'") st, Ret ())
        end
    | _ =>
        (print payload
           (print "[WARN] FILE payload format invalid, printing raw:" st),
         Ret ())
    end
  else
    (print ("[FULL PAYLOAD] " +:+ take 120 payload
              +:+ (if 120 <? len payload then "..." else "")) st,
     Ret ()).

(** The body of the [try] in the loop of [main], for one line read from
    the port (stripped and not empty). *)
Definition handle_line (line : string) (st : rx_state)
  : rx_state * result unit :=
  if startswith line "MSG," then
    match split "," 5 line with
    | [_; src; seq; rssi; d_m; text] =>
        let st := print ("[MSG] src=" +:+ src +:+ " seq=" +:+ seq
                           +:+ " rssi=" +:+ rssi +:+ " d~" +:+ d_m
                           +:+ "m text='" +:+ take 50 text +:+ "'") st in
        handle_full_payload text st
    | _ => (print ("[WARN] Bad MSG line: " +:+ line) st, Ret ())
    end
  else if startswith line "FRAG," then
    match split "," 7 line with
    | [_; src; seq; idx; tot_; rssi; d_m; chunk] =>
        match int seq, int idx, int tot_ with
        | Some seq_i, Some idx_i, Some tot_i =>
            match add_frag (messages st) src seq_i idx_i tot_i chunk with
            | (m, Raise e) => (set_messages m st, Raise e)
            | (m, Ret None) => (set_messages m st, Ret ())
            | (m, Ret (Some full)) =>
                let st := set_messages m st in
                let st := print ("[INFO] Got full payload for src=" +:+ src
                                   +:+ " seq=" +:+ str seq_i
                                   +:+ ", length=" +:+ str (len full)) st in
                handle_full_payload full st
            end
        | _, _, _ =>
            (print ("[WARN] Non-integer seq/idx/tot in FRAG: " +:+ line) st,
             Ret ())
        end
    | _ => (print ("[WARN] Bad FRAG line: " +:+ line) st, Ret ())
    end
  else (print ("[MCU] " +:+ line) st, Ret ()).

(** [str(e)] of a caught exception. *)
Definition exn_text (e : exn) : string :=
  match e with
  | KeyError k => str k
  | ValueError => "ValueError"
  | ZeroDivisionError => "division by zero"
  | OverflowError => "OverflowError"
  | OSError => "OSError"
  end.

(** One turn of the loop of [main]: an exception is caught, printed, and
    the loop goes on. *)
Definition main_step (line : string) (st : rx_state) : rx_state :=
  if String.eqb line "" then st
  else
    match handle_line line st with
    | (st', Ret _) => st'
    | (st', Raise e) => print ("[ERROR] " +:+ exn_text e) st'
    end.

(** The loop of [main] over the lines the port delivers. *)
Definition main_loop (lines : list string) (st : rx_state) : rx_state :=
  fold_left (λ st line, main_step line st) lines st.

End RxReceiveFile.

(* ===================================================================== *)
(** ** tx_send_file.py *)
(* ===================================================================== *)

Module TxSendFile.
Import Py.

(** The sending script: the data written to the port, write by write, and
    the lines printed. *)
Record tx : Type := Tx { written : list string; out : list string }.

Definition print (s : string) (t : tx) : tx := Tx (written t) (out t ++ [s]).

(** The loop of [wait_for_chunk_done] over the lines read before the
    deadline (stripped); the result is [(ok, warned)]. *)
Fixpoint wait_loop (chunk_idx chunk_tot : Z) (lines : list string) (t : tx)
  : tx * (bool * bool) :=
  match lines with
  | [] => (t, (false, false))
  | line :: rest =>
      if String.eqb line "" then wait_loop chunk_idx chunk_tot rest t
      else
        let t := print ("[MCU] " +:+ line) t in
        if contains "[TX DONE]" line then
          (print ("[INFO] MCU reports TX DONE for chunk "
                    +:+ str (chunk_idx + 1) +:+ "/" +:+ str chunk_tot) t,
           (true, false))
        else if contains "[ABORT]" line || contains "TX FAILED" line then
          (print ("[WARN] MCU reported failure while sending chunk "
                    +:+ str (chunk_idx + 1) +:+ "/" +:+ str chunk_tot) t,
           (false, true))
        else wait_loop chunk_idx chunk_tot rest t
  end.

(** [wait_for_chunk_done] *)
Definition wait_for_chunk_done (chunk_idx chunk_tot : Z) (lines : list string)
    (t : tx) : tx * bool :=
  match wait_loop chunk_idx chunk_tot lines t with
  | (t, (ok, warned)) =>
      if negb ok && negb warned then
        (print ("[WARN] Timeout waiting for TX DONE for chunk "
                  +:+ str (chunk_idx + 1) +:+ "/" +:+ str chunk_tot) t, ok)
      else (t, ok)
  end.

(** The loop of [send_file] from chunk [idx] on; [replies] gives, chunk by
    chunk, the lines read before the deadline (none when the list runs
    out). *)
Fixpoint send_loop (tx_name : string) (tot idx : Z) (chunks : list string)
    (replies : list (list string)) (t : tx) : tx :=
  match chunks with
  | [] => t
  | chunk :: rest =>
      let t := print (nl +:+ "=== Sending FILECHUNK " +:+ str (idx + 1) +:+ "/"
                        +:+ str tot +:+ " (len=" +:+ str (len chunk)
                        +:+ ") ===") t in
      let t := Tx (written t
                     ++ [LoraTransceiver.filechunk_line tx_name idx tot chunk])
                  (out t) in
      let t := print ("[INFO] Waiting for MCU to finish chunk "
                        +:+ str (idx + 1) +:+ "/" +:+ str tot +:+ "...") t in
      match wait_for_chunk_done idx tot (hd [] replies) t with
      | (t, true) => send_loop tx_name tot (idx + 1) rest (tl replies) t
      | (t, false) => print "[ERROR] Stopping due to TX failure." t
      end
  end.

(** [send_file], after [prepare_file_for_lora] has given the bytes [raw],
    the name [tx_name] and the description [desc]; [boot] are the lines read
    while the port settles.  [exists_] tells whether the path is a file:
    [FileNotFoundError] is raised otherwise ([OSError] here). *)
Definition send_file (serial_port : string) (baud : Z) (exists_ : bool)
    (raw : list byte) (tx_name desc : string) (chunk_size : Z)
    (boot : list string) (replies : list (list string))
  : result tx :=
  if negb exists_ then Raise OSError
  else
    let t := print ("[INFO] Final transmit name: " +:+ tx_name) (Tx [] []) in
    let t := print ("[INFO] Mode: " +:+ desc) t in
    let b64 := Base64.b64encode raw in
    let t := print ("[INFO] Base64 length: " +:+ str (len b64)
                      +:+ " characters") t in
    match LoraTransceiver.split_chunks b64 chunk_size with
    | Raise e => Raise e
    | Ret chunks =>
        let tot := Z.of_nat (length chunks) in
        let t := print ("[INFO] Will send " +:+ str tot
                          +:+ " FILECHUNK lines to MCU") t in
        let t := print ("[INFO] Opening serial port " +:+ serial_port +:+ " @ "
                          +:+ str baud +:+ "...") t in
        let t := fold_left (λ t line,
                   if String.eqb line "" then t
                   else print ("[MCU-BOOT] " +:+ line) t) boot t in
        let t := send_loop tx_name tot 0 chunks replies t in
        Ret (print (nl +:+ "[INFO] All FILECHUNK lines sent (TX side finished).")
               t)
    end.

End TxSendFile.

(* ===================================================================== *)
(** ** mesh_receiver.py *)
(* ===================================================================== *)

Module MeshReceiver.
Import Py.

(** [FragmentedMessage] *)
Record FragmentedMessage : Type := MkFragmentedMessage {
  total_chunks : Z;
  received_chunks : gmap Z string;
  first_seen : Q;
  last_update : Q;
  source : string
}.

(** [FragmentedMessage.is_complete] *)
Definition is_complete (m : FragmentedMessage) : bool :=
  Z.of_nat (size (received_chunks m)) =? total_chunks m.

(** The loop of [get_reassembled]: [None] as soon as an index is
    missing. *)
Fixpoint collect (chunks : gmap Z string) (indices : list Z) (result : string)
  : option string :=
  match indices with
  | [] => Some result
  | i :: rest =>
      match chunks !! i with
      | None => None
      | Some c => collect chunks rest (result +:+ c)
      end
  end.

(** [FragmentedMessage.get_reassembled] *)
Definition get_reassembled (m : FragmentedMessage) : option string :=
  if negb (is_complete m) then None
  else collect (received_chunks m) (range (total_chunks m)) "".

(** [ReceptionStats] *)
Record ReceptionStats : Type := MkReceptionStats {
  messages_received : Z;
  fragments_received : Z;
  files_received : Z;
  total_bytes : Z;
  start_time : Q
}.

(** [MeshReceiver]: the pending fragments keyed by [(source, total)], the
    statistics, the files of the output directory (path below the
    directory to content) and the lines printed. *)
Record receiver : Type := Receiver {
  fragments : gmap (string * Z) FragmentedMessage;
  stats : ReceptionStats;
  disk : gmap string (list byte);
  out : list string
}.

(** What a call reads from the clock: [time.time()] and the text of
    [time.strftime("%Y-%m-%d %H:%M:%S")]. *)
Record clock : Type := Clock { now : Q; stamp : string }.

Definition print (s : string) (r : receiver) : receiver :=
  Receiver (fragments r) (stats r) (disk r) (out r ++ [s]).

Definition set_fragments (f : gmap (string * Z) FragmentedMessage)
    (r : receiver) : receiver :=
  Receiver f (stats r) (disk r) (out r).

Definition set_stats (s : ReceptionStats) (r : receiver) : receiver :=
  Receiver (fragments r) s (disk r) (out r).

Definition set_disk (d : gmap string (list byte)) (r : receiver) : receiver :=
  Receiver (fragments r) (stats r) d (out r).

(** [MeshReceiver.handle_text_message]: the message is appended to
    [messages.log]. *)
Definition handle_text_message (clk : clock) (source_ text : string)
    (r : receiver) : receiver :=
  let r := print (nl +:+ "[MSG] From " +:+ source_ +:+ ":") r in
  let r := print ("[MSG] " +:+ text) r in
  let s := stats r in
  let r := set_stats (MkReceptionStats (messages_received s + 1)
                        (fragments_received s) (files_received s)
                        (total_bytes s + len text) (start_time s)) r in
  let old := default [] (disk r !! "messages.log") in
  set_disk (<["messages.log" :=
                old ++ encode ("[" +:+ stamp clk +:+ "] " +:+ source_
                                 +:+ ": " +:+ text +:+ nl)]> (disk r)) r.

(** The [while output_path.exists()] loop of [handle_file]: [fuel] bounds
    the number of further names tried; [None] when it runs out. *)
Fixpoint free_path (fuel : nat) (disk : gmap string (list byte))
    (base_name suffix : string) (counter : Z) (output_path : string)
  : option string :=
  match disk !! output_path with
  | None => Some output_path
  | Some _ =>
      match fuel with
      | O => None
      | S fuel' =>
          free_path fuel' disk base_name suffix (counter + 1)
            (base_name +:+ "_" +:+ str counter +:+ suffix)
      end
  end.

(** The name of the output directory: the default of [--out-dir]. *)
Definition output_dir : string := "received_files".

(** What [output_dir / filename] names.  The output directory holds plain
    files only, so a path through one of its entries names nothing that
    exists or can be created. *)
Inductive place : Type :=
| Entry (name : string)
| Directory
| Below
| Outside.

(** [Entry c]: the entry [c] of the output directory; [Directory]: the
    output directory itself (no component is left of [filename]) or its
    parent ([..]), which exist; [Below]: a path through an entry;
    [Outside]: an absolute path, which replaces the directory, or a path
    that leaves it through [..]. *)
Definition resolve (filename : string) : place :=
  if startswith filename "/" then Outside
  else
    match PathLib.parts filename with
    | [] => Directory
    | [c] => if String.eqb c ".." then Directory else Entry c
    | c :: _ => if String.eqb c ".." then Outside else Below
    end.

(** The names the file system accepts for an entry: no NUL (Python raises
    [ValueError]) and at most 255 bytes ([OSError] otherwise). *)
Definition accepted (name : string) : bool :=
  negb (contains (String "000" "") name)
  && (Z.of_nat (length (encode name)) <=? 255).

(** The path [handle_file] writes to, when there is one: the path at
    which the loop [while output_path.exists()] ends, if it is an entry
    that the file system accepts.  The stem and the suffix are those of
    the last component of [output_dir / filename]; the names tried after
    the first are entries of the directory, and the loop is given as many
    further names as the directory has files, and one more, which is
    enough for it to end.  A path below an entry does not exist and cannot
    be written, and a path outside the directory is taken to be refused
    as well; the directory holds accepted names only, so the loop ends at
    a name that is not accepted. *)
Definition chosen_path (disk : gmap string (list byte)) (filename : string)
  : option string :=
  let output_path :=
    match PathLib.parts filename with
    | [] => output_dir
    | _ => filename
    end in
  let base_name := PathLib.stem output_path in
  let suffix := PathLib.suffix output_path in
  let found :=
    match resolve filename with
    | Entry c => free_path (S (size disk)) disk base_name suffix 1 c
    | Directory =>
        free_path (S (size disk)) disk base_name suffix 2
          (base_name +:+ "_" +:+ str 1 +:+ suffix)
    | Below | Outside => None
    end in
  match found with
  | Some output_path => if accepted output_path then Some output_path else None
  | None => None
  end.

(** [MeshReceiver.handle_file].  When there is no path to write to,
    [exists] or [write_bytes] raises into the handler.  The text of a
    caught exception and the directory part of the saved path are left
    out of the printed lines. *)
Definition handle_file (source_ payload : string) (r : receiver) : receiver :=
  match split ":" 3 payload with
  | [_; filename; s_size; b64_data] =>
      match int s_size with
      | None => print "[ERROR] File handling error" r
      | Some size_ =>
          let r := print (nl +:+ "[FILE] Receiving file from " +:+ source_) r in
          let r := print ("[FILE] Name: " +:+ filename) r in
          let r := print ("[FILE] Size: " +:+ str size_ +:+ " bytes") r in
          match Base64.b64decode b64_data with
          | None => print "[ERROR] Base64 decode failed" r
          | Some file_data =>
              match chosen_path (disk r) filename with
              | None => print "[ERROR] File handling error" r
              | Some output_path =>
                  let r := set_disk (<[output_path := file_data]> (disk r)) r in
                  let s := stats r in
                  let r := set_stats
                             (MkReceptionStats (messages_received s)
                                (fragments_received s) (files_received s + 1)
                                (total_bytes s + Z.of_nat (length file_data))
                                (start_time s)) r in
                  let r := print ("[FILE] Saved to: " +:+ output_path) r in
                  let r := print ("[FILE] Verification: "
                                    +:+ str (Z.of_nat (length file_data))
                                    +:+ " bytes written") r in
                  if Z.of_nat (length file_data) =? size_
                  then print "[FILE] ✓ Size matches expected" r
                  else print ("[FILE] ✗ Size mismatch! Expected " +:+ str size_
                                +:+ ", got "
                                +:+ str (Z.of_nat (length file_data))) r
              end
          end
      end
  | _ => print ("[WARN] Invalid file format from " +:+ source_) r
  end.

(** [MeshReceiver.handle_fragment].  The percentage is left out of the
    printed progress line. *)
Definition handle_fragment (clk : clock) (source_ payload : string)
    (r : receiver) : receiver :=
  match split ":" 3 payload with
  | [_; s_idx; s_total; chunk] =>
      match int s_idx, int s_total with
      | Some idx, Some total =>
          let key := (source_, total) in
          let r :=
            match fragments r !! key with
            | Some _ => r
            | None =>
                print (nl +:+ "[FRAG] New fragmented message from " +:+ source_
                         +:+ " (" +:+ str total +:+ " chunks)")
                  (set_fragments
                     (<[key := MkFragmentedMessage total ∅ (now clk) (now clk)
                                 source_]> (fragments r)) r)
            end in
          let msg := default (MkFragmentedMessage total ∅ (now clk) (now clk)
                                source_) (fragments r !! key) in
          let '(msg, r) :=
            match received_chunks msg !! idx with
            | Some _ => (msg, r)
            | None =>
                let msg := MkFragmentedMessage (total_chunks msg)
                             (<[idx := chunk]> (received_chunks msg))
                             (first_seen msg) (now clk) (source msg) in
                let r := set_fragments (<[key := msg]> (fragments r)) r in
                let s := stats r in
                let r := set_stats
                           (MkReceptionStats (messages_received s)
                              (fragments_received s + 1) (files_received s)
                              (total_bytes s) (start_time s)) r in
                (msg, print ("[FRAG] Chunk " +:+ str (idx + 1) +:+ "/"
                               +:+ str total +:+ " from " +:+ source_) r)
            end in
          if is_complete msg then
            let r := print ("[FRAG] All chunks received from " +:+ source_
                              +:+ ", reassembling...") r in
            match get_reassembled msg with
            | Some (String c s as full_data) =>
                let r := set_fragments (delete key (fragments r)) r in
                if startswith full_data "FILE:"
                then handle_file source_ full_data r
                else handle_text_message clk source_ full_data r
            | _ =>
                print ("[ERROR] Failed to reassemble message from "
                         +:+ source_) r
            end
          else r
      | _, _ => print "[ERROR] Fragment processing error" r
      end
  | _ => print ("[WARN] Invalid fragment format from " +:+ source_) r
  end.

(** [MeshReceiver.process_payload] *)
Definition process_payload (clk : clock) (source_ payload : string)
    (r : receiver) : receiver :=
  if startswith payload "FRAG:" then handle_fragment clk source_ payload r
  else if startswith payload "FILE:" then handle_file source_ payload r
  else handle_text_message clk source_ payload r.


(** [ReceptionStats.uptime]; [now_] is what [time.time()] returns. *)
Definition uptime (s : ReceptionStats) (now_ : Q) : Float.float :=
  Float.sub (Float.of_Q now_) (Float.of_Q (start_time s)).

(** [ReceptionStats.throughput_bps]: the property evaluates [self.uptime]
    twice; [now1] and [now2] are the two clock readings. *)
Definition throughput_bps (s : ReceptionStats) (now1 now2 : Q)
  : result Float.float :=
  if Float.eqb (uptime s now1) Float.zero then Ret Float.zero
  else Float.int_div (total_bytes s * 8) (uptime s now2).

(** [self.fragment_timeout] *)
Definition fragment_timeout : Float.float := Float.of_ratio 300 1.

(** [now - msg.last_update > self.fragment_timeout] *)
Definition timed_out (now_ : Q) (m : FragmentedMessage) : bool :=
  Float.ltb fragment_timeout
    (Float.sub (Float.of_Q now_) (Float.of_Q (last_update m))).

(** [MeshReceiver.cleanup_old_fragments]; the warnings printed, one for
    each entry removed, are left out. *)
Definition cleanup_old_fragments (now_ : Q) (r : receiver) : receiver :=
  set_fragments (filter (λ kv, timed_out now_ kv.2 = false) (fragments r)) r.

(** [MeshReceiver.parse_payload_line]; [line.index] cannot raise after
    the test. *)
Definition parse_payload_line (line : string) : option string :=
  if contains "[RX] Payload:" line then
    match index "[RX] Payload:" line with
    | Some k => Some (strip (drop (k + String.length "[RX] Payload:") line))
    | None => None
    end
  else None.

End MeshReceiver.

(* ===================================================================== *)
(** ** mesh_network_interface.py *)
(* ===================================================================== *)

Module MeshInterface.
Import Py.

Definition CHUNK_SIZE : Z := 150.

(** [TransmissionStats] *)
Record TransmissionStats : Type := MkStats {
  total_chunks : Z;
  sent_chunks : Z;
  failed_chunks : Z;
  start_time : Q;
  end_time : Q;
  total_bytes : Z
}.


(** [TransmissionStats.duration]; [now] is what [time.time()] returns
    when the property reads the clock. *)
Definition duration (s : TransmissionStats) (now : Q) : Float.float :=
  if Float.eqb (Float.of_Q (end_time s)) Float.zero
  then Float.sub (Float.of_Q now) (Float.of_Q (start_time s))
  else Float.sub (Float.of_Q (end_time s)) (Float.of_Q (start_time s)).

(** [TransmissionStats.throughput_bps].  The property evaluates
    [self.duration] twice, once for the test and once for the division;
    [now1] and [now2] are the two clock readings. *)
Definition throughput_bps (s : TransmissionStats) (now1 now2 : Q)
  : result Float.float :=
  if Float.eqb (duration s now1) Float.zero then Ret Float.zero
  else Float.int_div (total_bytes s * 8) (duration s now2).

(** The sending side: the statistics, the commands passed to
    [send_command] with the success of each write, the lines read from
    the port and still unprocessed, and the lines printed. *)
Record iface : Type := Iface {
  stats : TransmissionStats;
  commands : list (string * bool);
  pending : list string;
  out : list string
}.

Definition print (s : string) (i : iface) : iface :=
  Iface (stats i) (commands i) (pending i) (out i ++ [s]).

Definition set_stats (s : TransmissionStats) (i : iface) : iface :=
  Iface s (commands i) (pending i) (out i).

(** What the port does while one chunk is handled: whether the write of
    the command succeeds, and the lines that arrive before the deadline
    of the wait. *)
Record chunk_env : Type := ChunkEnv { write_ok : bool; arriving : list string }.

(** [MeshNetworkInterface.send_command] *)
Definition send_command (command : string) (ok : bool) (i : iface)
  : iface * bool :=
  let i := Iface (stats i) (commands i ++ [(command, ok)]) (pending i) (out i) in
  if ok then (i, true)
  else (print "[ERROR] Failed to send command" i, false).

Definition incr_sent (i : iface) : iface :=
  let s := stats i in
  set_stats (MkStats (total_chunks s) (sent_chunks s + 1) (failed_chunks s)
               (start_time s) (end_time s) (total_bytes s)) i.

Definition incr_failed (i : iface) : iface :=
  let s := stats i in
  set_stats (MkStats (total_chunks s) (sent_chunks s) (failed_chunks s + 1)
               (start_time s) (end_time s) (total_bytes s)) i.

Definition set_end_time (t : Q) (i : iface) : iface :=
  let s := stats i in
  set_stats (MkStats (total_chunks s) (sent_chunks s) (failed_chunks s)
               (start_time s) t (total_bytes s)) i.

(** The wait loop of [send_fragmented_data] over the lines available
    before the deadline; the result is [success].  Lines after the
    deciding one stay unread. *)
Fixpoint wait_chunk (idx total : Z) (lines : list string) (i : iface)
  : iface * bool :=
  match lines with
  | [] => (Iface (stats i) (commands i) [] (out i), false)
  | line :: rest =>
      if String.eqb line "" then wait_chunk idx total rest i
      else
        let i := print ("[NODE] " +:+ line) i in
        if contains "[CMD] Send completed" line then
          let i := print ("[TX] Chunk " +:+ str (idx + 1) +:+ "/" +:+ str total
                            +:+ " sent successfully") i in
          let i := incr_sent i in
          (Iface (stats i) (commands i) rest (out i), true)
        else if contains "[CMD] Send failed" line || contains "[TX] Failed" line
        then
          let i := print ("[TX] Chunk " +:+ str (idx + 1) +:+ "/" +:+ str total
                            +:+ " failed") i in
          let i := incr_failed i in
          (Iface (stats i) (commands i) rest (out i), false)
        else wait_chunk idx total rest i
  end.

(** [failed_chunks > total_chunks * 0.3], with the product taken exactly:
    [failed > 3 * total / 10].  (In double precision the product rounds to
    the integer [3 * total / 10] when that is one, and otherwise stays
    strictly between two integers, so the comparison with the integer count
    comes out the same.) *)
Definition too_many_failures (failed total : Z) : bool :=
  negb (Qle_bool (inject_Z failed) (inject_Z total * (3 # 10))%Q).

(** The loop of [send_fragmented_data] from chunk [idx] on.  The result
    is [Some false] when the loop returns early, [None] when it runs to
    its end.  [t_end] is the clock reading at an early return. *)
Fixpoint send_loop (dest : string) (reliability : Z) (total : Z) (idx : Z)
    (chunks : list string) (env : list chunk_env) (t_end : Q) (i : iface)
  : iface * option bool :=
  match chunks with
  | [] => (i, None)
  | chunk :: rest =>
      let e := hd (ChunkEnv true []) env in
      let i := print (nl +:+ "[TX] Chunk " +:+ str (idx + 1) +:+ "/"
                        +:+ str total +:+ " (" +:+ str (len chunk)
                        +:+ " chars)") i in
      let chunk_msg := "FRAG:" +:+ str idx +:+ ":" +:+ str total +:+ ":"
                         +:+ chunk in
      let command := "SEND:" +:+ dest +:+ ":" +:+ str reliability +:+ ":"
                       +:+ chunk_msg in
      match send_command command (write_ok e) i with
      | (i, false) =>
          let i := print ("[TX] Failed to send command for chunk "
                            +:+ str (idx + 1)) i in
          let i := incr_failed i in
          send_loop dest reliability total (idx + 1) rest (tl env) t_end i
      | (i, true) =>
          let '(i, success) :=
            wait_chunk idx total (pending i ++ arriving e) i in
          let i :=
            if negb success && (failed_chunks (stats i) =? 0) then
              incr_failed (print ("[TX] Timeout for chunk " +:+ str (idx + 1)) i)
            else i in
          let i := print ("[PROGRESS] complete ("
                            +:+ str (sent_chunks (stats i)) +:+ "/"
                            +:+ str total +:+ " chunks)") i in
          if too_many_failures (failed_chunks (stats i)) total then
            let i := print (nl +:+ "[ERROR] Too many failures ("
                              +:+ str (failed_chunks (stats i))
                              +:+ "), aborting") i in
            (set_end_time t_end i, Some false)
          else
            send_loop dest reliability total (idx + 1) rest (tl env) t_end i
      end
  end.

(** [[data[i:i+CHUNK_SIZE] for i in range(0, len(data), CHUNK_SIZE)]] *)
Definition split_data (data : string) : list string :=
  let n := Z.to_nat CHUNK_SIZE in
  (λ i, slice data i (i + n)) <$> range_step (String.length data) n.

(** [MeshNetworkInterface.send_fragmented_data]; [t_start] and [t_end]
    are the clock readings at the start and at the return.  The summary
    printed at the end is left out. *)
Definition send_fragmented_data (dest data : string) (reliability : Z)
    (env : list chunk_env) (t_start t_end : Q) (i : iface) : iface * bool :=
  let chunks := split_data data in
  let total := Z.of_nat (length chunks) in
  let i := print (nl +:+ "[TX] Fragmentation required") i in
  let i := print ("[TX] Total chunks: " +:+ str total) i in
  let i := print ("[TX] Chunk size: ~" +:+ str CHUNK_SIZE +:+ " chars") i in
  let i := set_stats (MkStats total 0 0 t_start 0 (len data)) i in
  match send_loop dest reliability total 0 chunks env t_end i with
  | (i, Some b) => (i, b)
  | (i, None) =>
      let i := set_end_time t_end i in
      (i, failed_chunks (stats i) =? 0)
  end.

Definition REL_NONE : Z := 0.
Definition REL_LOW : Z := 1.
Definition REL_MEDIUM : Z := 2.
Definition REL_HIGH : Z := 3.
Definition REL_CRITICAL : Z := 4.

(** [FILE_RELIABILITY_MAP] *)
Definition FILE_RELIABILITY_MAP : gmap string Z :=
  list_to_map
    [(".txt", REL_LOW); (".log", REL_LOW); (".wav", REL_LOW);
     (".mp3", REL_LOW); (".ogg", REL_LOW);
     (".jpg", REL_MEDIUM); (".jpeg", REL_MEDIUM); (".png", REL_MEDIUM);
     (".gif", REL_MEDIUM); (".bmp", REL_MEDIUM);
     (".mseed", REL_CRITICAL); (".miniseed", REL_CRITICAL);
     (".sac", REL_CRITICAL);
     (".pdf", REL_HIGH); (".doc", REL_HIGH); (".docx", REL_HIGH);
     (".zip", REL_HIGH); (".tar", REL_HIGH); (".gz", REL_HIGH)].

(** [MeshNetworkInterface.wait_for_response] over the lines available
    before the deadline.  Lines after the deciding one stay unread. *)
Fixpoint wait_for_response (expected : string) (lines : list string) (i : iface)
  : iface * bool :=
  match lines with
  | [] => (Iface (stats i) (commands i) [] (out i), false)
  | line :: rest =>
      if String.eqb line "" then wait_for_response expected rest i
      else
        let i := print ("[NODE] " +:+ line) i in
        if contains expected line then
          (Iface (stats i) (commands i) rest (out i), true)
        else if contains "[ERR]" line || contains "failed" (lower line) then
          (Iface (stats i) (commands i) rest (out i), false)
        else wait_for_response expected rest i
  end.

(** The wait loop of [discover_route] over the lines available before
    the deadline. *)
Fixpoint route_wait (dest : string) (lines : list string) (i : iface)
  : iface * bool :=
  match lines with
  | [] =>
      (print "[WARN] Route discovery timeout"
         (Iface (stats i) (commands i) [] (out i)), false)
  | line :: rest =>
      if String.eqb line "" then route_wait dest rest i
      else
        let i := print ("[NODE] " +:+ line) i in
        if contains "[RREP]" line && contains dest line then
          (print ("[INFO] Route to " +:+ dest +:+ " established")
             (Iface (stats i) (commands i) rest (out i)), true)
        else if contains "Route discovery failed" line then
          (print "[ERROR] Route discovery failed"
             (Iface (stats i) (commands i) rest (out i)), false)
        else route_wait dest rest i
  end.

(** [MeshNetworkInterface.discover_route]; [e] is what the port does
    while the route is discovered. *)
Definition discover_route (dest : string) (e : chunk_env) (i : iface)
  : iface * bool :=
  let i := print ("[INFO] Discovering route to " +:+ dest +:+ "...") i in
  match send_command ("DISCOVER:" +:+ dest) (write_ok e) i with
  | (i, false) => (i, false)
  | (i, true) => route_wait dest (pending i ++ arriving e) i
  end.

(** [MeshNetworkInterface.send_text]; a text of at most 150 characters
    goes out as one command, whose port behaviour is the first entry of
    [env]. *)
Definition send_text (dest text : string) (reliability : Z)
    (env : list chunk_env) (t_start t_end : Q) (i : iface) : iface * bool :=
  let i := print (nl +:+ "[TX] Sending text to " +:+ dest +:+ " (rel="
                    +:+ str reliability +:+ ")") i in
  let i := print ("[TX] Message: " +:+ take 100 text
                    +:+ (if 100 <? len text then "..." else "")) i in
  if len text <=? 150 then
    let e := hd (ChunkEnv true []) env in
    let command := "SEND:" +:+ dest +:+ ":" +:+ str reliability +:+ ":"
                     +:+ text in
    match send_command command (write_ok e) i with
    | (i, false) => (i, false)
    | (i, true) =>
        match wait_for_response "[CMD] Send completed"
                (pending i ++ arriving e) i with
        | (i, true) => (print "[TX] Message sent successfully" i, true)
        | (i, false) => (print "[TX] Message send failed" i, false)
        end
    end
  else send_fragmented_data dest text reliability env t_start t_end i.

(** [MeshNetworkInterface.send_file].  [file] is what the file system
    holds at [filepath]: nothing when it is not a file, otherwise the size
    [stat] reports and the result of reading it.  [reliability] is [None]
    when the caller leaves it out.  The text of a caught exception is left
    out of the printed line. *)
Definition send_file (dest filepath : string)
    (file : option (Z * result (list byte))) (reliability : option Z)
    (env : list chunk_env) (t_start t_end : Q) (i : iface) : iface * bool :=
  match file with
  | None => (print ("[ERROR] File not found: " +:+ filepath) i, false)
  | Some (st_size, content) =>
      let reliability :=
        match reliability with
        | Some r => r
        | None =>
            default REL_MEDIUM
              (FILE_RELIABILITY_MAP !! lower (PathLib.suffix filepath))
        end in
      let i := print (nl +:+ "[TX] Sending file: " +:+ PathLib.name filepath) i in
      let i := print ("[TX] Size: " +:+ str st_size +:+ " bytes") i in
      let i := print ("[TX] Reliability: " +:+ str reliability) i in
      let i := print ("[TX] Destination: " +:+ dest) i in
      match content with
      | Raise _ => (print "[ERROR] Failed to read file" i, false)
      | Ret raw_data =>
          let b64_data := Base64.b64encode raw_data in
          let metadata := "FILE:" +:+ PathLib.name filepath +:+ ":"
                            +:+ str (Z.of_nat (length raw_data)) +:+ ":" in
          let full_data := metadata +:+ b64_data in
          let i := print ("[TX] Base64 length: " +:+ str (len b64_data)
                            +:+ " chars") i in
          let i := print ("[TX] Total length: " +:+ str (len full_data)
                            +:+ " chars") i in
          send_fragmented_data dest full_data reliability env t_start t_end i
      end
  end.

End MeshInterface.

(* ===================================================================== *)
(** ** Vocabulary of the properties *)
(* ===================================================================== *)

(** Every byte, in increasing order. *)
Definition all_bytes : list byte :=
  Base64.byte_of_Z <$> (Z.of_nat <$> seq 0 256).

(** A property of two bytes checked on every pair. *)
Definition check_bytes2 (P : byte → byte → bool) : bool :=
  forallb (λ a, forallb (P a) all_bytes) all_bytes.

(** The chunks stored for a key of the fragment reassembler: none while
    the key is not pending. *)
Definition stored {K} `{Countable K} (m : gmap K LoraTransceiver.entry) (key : K)
  : gmap Z string :=
  match m !! key with
  | Some e => LoraTransceiver.chunks e
  | None => ∅
  end.

(** Fragments [(idx, text)] of one message [(src, seq)] of [tot] fragments,
    delivered to [add_frag] one after the other; the results in order. *)
Fixpoint deliver_frags (src : string) (seq tot : Z) (frags : list (Z * string))
    (m : gmap (string * Z) LoraTransceiver.entry)
  : gmap (string * Z) LoraTransceiver.entry
    * list (Py.result (option string)) :=
  match frags with
  | [] => (m, [])
  | (idx, c) :: rest =>
      let '(m1, r) := LoraTransceiver.add_frag m src seq idx tot c in
      let '(m2, rs) := deliver_frags src seq tot rest m1 in
      (m2, r :: rs)
  end.

(** The fragments [c_0 .. c_(n-1)] taken in the order [order]. *)
Definition frags_in_order (cs : list string) (order : list nat)
  : list (Z * string) :=
  (λ i, (Z.of_nat i, default "" (cs !! i))) <$> order.


(** One delivery to the fragment reassembler: the arguments of
    [add_frag]. *)
Record delivery : Type := Delivery {
  d_src : string;
  d_seq : Z;
  d_idx : Z;
  d_tot : Z;
  d_chunk : string
}.

Definition deliver (m : gmap (string * Z) LoraTransceiver.entry) (d : delivery)
  : gmap (string * Z) LoraTransceiver.entry * Py.result (option string) :=
  LoraTransceiver.add_frag m (d_src d) (d_seq d) (d_idx d) (d_tot d) (d_chunk d).

(** A delivery as the sender frames it: the index lies within the total,
    and the total is the one recorded for the key if the key is pending.
    [add_frag] checks neither. *)
Definition well_formed (m : gmap (string * Z) LoraTransceiver.entry)
    (d : delivery) : Prop :=
  0 ≤ d_idx d < d_tot d
  ∧ ∀ e, m !! (d_src d, d_seq d) = Some e → LoraTransceiver.tot e = d_tot d.

(** The pending maps reached from the empty one by well-formed
    deliveries. *)
Inductive reachable_wf : gmap (string * Z) LoraTransceiver.entry → Prop :=
| reachable_wf_init : reachable_wf ∅
| reachable_wf_step m d :
    reachable_wf m → well_formed m d → reachable_wf (deliver m d).1.

(** The stored indices of an entry lie in [[0, tot)]. *)
Definition indices_in_range (e : LoraTransceiver.entry) : Prop :=
  ∀ j, is_Some (LoraTransceiver.chunks e !! j) → 0 ≤ j < LoraTransceiver.tot e.

(** Every pending entry has its indices in range and is not complete. *)
Definition pending_invariant (m : gmap (string * Z) LoraTransceiver.entry)
  : Prop :=
  ∀ key e, m !! key = Some e →
    indices_in_range e
    ∧ Z.of_nat (size (LoraTransceiver.chunks e)) < LoraTransceiver.tot e.


(** FILECHUNK pieces [(idx, text)] of one file of [tot] pieces, delivered
    to [FileChunkAssembler.add_chunk] of [lora_transceiver.py] one after
    the other; an exception ends the deliveries. *)
Fixpoint deliver_chunks (fname : string) (tot : Z) (pieces : list (Z * string))
    (st : LoraTransceiver.rx_state)
  : LoraTransceiver.rx_state * Py.result unit :=
  match pieces with
  | [] => (st, Py.Ret ())
  | (idx, c) :: rest =>
      match LoraTransceiver.add_chunk fname idx tot c st with
      | (st', Py.Ret _) => deliver_chunks fname tot rest st'
      | (st', Py.Raise e) => (st', Py.Raise e)
      end
  end.

(** The pieces [c_0 .. c_(n-1)] with their indices, in sending order. *)
Definition indexed (cs : list string) : list (Z * string) :=
  frags_in_order cs (seq 0 (length cs)).

(** What the receiver keeps of a transfer: the reassembly dictionaries and
    the files, without the printed lines. *)
Definition kept (st : LoraTransceiver.rx_state)
  : gmap (string * Z) LoraTransceiver.entry
    * gmap string LoraTransceiver.entry * gmap string (list byte) :=
  (LoraTransceiver.messages st, LoraTransceiver.files st,
   LoraTransceiver.disk st).


(** The line [add_chunk] prints for every piece. *)
Definition got_line (fname : string) (idx tot_ : Z) : string :=
  "[INFO] Got FILECHUNK " +:+ Py.str (idx + 1) +:+ "/" +:+ Py.str tot_
    +:+ " for '" +:+ fname +:+ "'".

(** The line [add_chunk] prints when the joined text does not decode. *)
Definition decode_failed_line (fname : string) : string :=
  "[ERROR] Base64 decode failed for '" +:+ fname +:+ "'".


(** The names [handle_file] tries after the transmitted one:
    [f"{base_name}_{counter}{suffix}"]. *)
Definition numbered (base_name suffix : string) (counter : Z) : string :=
  base_name +:+ "_" +:+ Py.str counter +:+ suffix.


(** A [FRAG] line the readers reject: fewer than eight comma-separated
    fields, or a [seq], [idx] or [tot] field that [int()] refuses. *)
Definition malformed_frag (line : string) : Prop :=
  Py.startswith line "FRAG," = true
  ∧ ((length (Py.split "," 7 line) < 8)%nat
     ∨ ∃ tag src seq idx tot rssi d_m chunk,
         Py.split "," 7 line = [tag; src; seq; idx; tot; rssi; d_m; chunk]
         ∧ (Py.int seq = None ∨ Py.int idx = None ∨ Py.int tot = None)).

(** A [MSG] line the readers reject: fewer than six comma-separated
    fields.  No field of a [MSG] line is read as an integer. *)
Definition malformed_msg (line : string) : Prop :=
  Py.startswith line "MSG," = true
  ∧ (length (Py.split "," 5 line) < 6)%nat.

(** The warnings [rx_receive_file.py] prints for a rejected line. *)
Definition rx_warning (line w : string) : Prop :=
  w = "[WARN] Bad MSG line: " +:+ line
  ∨ w = "[WARN] Bad FRAG line: " +:+ line
  ∨ w = "[WARN] Non-integer seq/idx/tot in FRAG: " +:+ line.


(** A wait that ends with a success marker. *)
Definition succeeded (w : LoraTransceiver.wait_outcome) : bool :=
  LoraTransceiver.ok (LoraTransceiver._consume_tx_result w).

(** The data [send_file] writes for the pieces [cs], the first of them with
    index [idx]. *)
Fixpoint lines_from (tx_name : string) (tot idx : Z) (cs : list string)
  : list string :=
  match cs with
  | [] => []
  | c :: rest =>
      LoraTransceiver.filechunk_line tx_name idx tot c
        :: lines_from tx_name tot (idx + 1) rest
  end.

(** The commands [send_fragmented_data] builds for the pieces [cs], the
    first of them with index [idx]. *)
Fixpoint commands_from (dest : string) (reliability total idx : Z)
    (cs : list string) : list string :=
  match cs with
  | [] => []
  | c :: rest =>
      ("SEND:" +:+ dest +:+ ":" +:+ Py.str reliability +:+ ":" +:+ "FRAG:"
         +:+ Py.str idx +:+ ":" +:+ Py.str total +:+ ":" +:+ c)
        :: commands_from dest reliability total (idx + 1) rest
  end.

(** A text of [n] characters [x]. *)
Fixpoint filler (n : nat) : string :=
  match n with
  | O => ""
  | S n' => String "x" (filler n')
  end.


(** A character of the base64 alphabet: not the padding, within ASCII, and
    read back as [v]. *)
Definition data_char (c : ascii) (v : Z) : bool :=
  negb (Ascii.eqb c Base64.PAD) && Base64.is_ascii c
  && bool_decide (Base64.table_a2b c = Some v).

(** The four sextets of a group of three bytes. *)
Definition sx1 (n1 : Z) : Z := Z.shiftr n1 2.
Definition sx2 (n1 n2 : Z) : Z := Z.lor (Z.shiftl (Z.land n1 3) 4) (Z.shiftr n2 4).
Definition sx3 (n2 n3 : Z) : Z := Z.lor (Z.shiftl (Z.land n2 15) 2) (Z.shiftr n3 6).
Definition sx4 (n3 : Z) : Z := Z.land n3 63.

(** What the decoding loop needs of the characters [b64encode] emits,
    checked for two bytes at a time. *)
Definition group_ok (b1 b2 : byte) : bool :=
  let n1 := Base64.Z_of_byte b1 in
  let n2 := Base64.Z_of_byte b2 in
  data_char (Base64.table_b2a (sx1 n1)) (sx1 n1)
  && data_char (Base64.table_b2a (sx2 n1 n2)) (sx2 n1 n2)
  && data_char (Base64.table_b2a (sx3 n1 n2)) (sx3 n1 n2)
  && data_char (Base64.table_b2a (sx4 n1)) (sx4 n1)
  && data_char (Base64.table_b2a (Z.shiftl (Z.land n1 3) 4)) (Z.shiftl (Z.land n1 3) 4)
  && data_char (Base64.table_b2a (Z.shiftl (Z.land n1 15) 2)) (Z.shiftl (Z.land n1 15) 2)
  && Byte.eqb (Base64.byte_of_Z (Z.lor (Z.shiftl (sx1 n1) 2) (Z.shiftr (sx2 n1 n2) 4))) b1
  && (Z.land (sx2 n1 n2) 15 =? Z.shiftr n2 4)
  && Byte.eqb (Base64.byte_of_Z (Z.lor (Z.shiftl (Z.shiftr n1 4) 4) (Z.shiftr (sx3 n1 n2) 2))) b1
  && (Z.land (sx3 n1 n2) 3 =? Z.shiftr n2 6)
  && Byte.eqb (Base64.byte_of_Z (Z.lor (Z.shiftl (Z.shiftr n1 6) 6) (sx4 n1))) b1
  && Byte.eqb (Base64.byte_of_Z (Z.lor (Z.shiftl (sx1 n1) 2)
                            (Z.shiftr (Z.shiftl (Z.land n1 3) 4) 4))) b1
  && Byte.eqb (Base64.byte_of_Z (Z.lor (Z.shiftl (Z.shiftr n1 4) 4)
                            (Z.shiftr (Z.shiftl (Z.land n1 15) 2) 2))) b1.

(** Every character of [s] satisfies [P]. *)
Fixpoint all_chars (P : ascii → bool) (s : string) : bool :=
  match s with
  | "" => true
  | String c s' => P c && all_chars P s'
  end.

(** The character [c] does not occur in [s]. *)
Definition no_char (c : ascii) (s : string) : bool :=
  all_chars (λ x, negb (Ascii.eqb x c)) s.

(** A decimal digit, or the minus sign: the characters of [str(n)]. *)
Definition is_digit_or_minus (c : ascii) : bool :=
  match Py.digit_val c with
  | Some _ => true
  | None => Ascii.eqb c "-"
  end.


(** The payload of a FILECHUNK line: the line [send_file] writes, without
    its final newline. *)
Definition filechunk_payload (tx_name : string) (idx tot_ : Z) (chunk : string)
  : string :=
  "FILECHUNK:" +:+ tx_name +:+ ":" +:+ Py.str idx +:+ ":" +:+ Py.str tot_
    +:+ ":" +:+ chunk.

(** A line without its last character. *)
Definition without_nl (line : string) : string :=
  Py.take (String.length line - 1) line.

(** Full payloads handed to [handle_full_payload] of [lora_transceiver.py]
    one after the other; an exception ends the deliveries. *)
Fixpoint deliver_payloads (ps : list string) (st : LoraTransceiver.rx_state)
  : LoraTransceiver.rx_state * Py.result unit :=
  match ps with
  | [] => (st, Py.Ret ())
  | p :: rest =>
      match LoraTransceiver.handle_full_payload p st with
      | (st', Py.Ret _) => deliver_payloads rest st'
      | (st', Py.Raise e) => (st', Py.Raise e)
      end
  end.


(** The number of pieces of a text of [n] characters cut every [S]
    characters. *)
Definition pieces (n S : Z) : Z := (n + S - 1) / S.


(** The payload of one fragment, as [send_fragmented_data] frames it:
    [f"FRAG:{idx}:{total_chunks}:{chunk}"]. *)
Definition frag_payload (idx total : Z) (chunk : string) : string :=
  "FRAG:" +:+ Py.str idx +:+ ":" +:+ Py.str total +:+ ":" +:+ chunk.

(** Payloads of one source handed to [process_payload] of
    [mesh_receiver.py] one after the other, each with the clock readings
    of its call. *)
Fixpoint deliver_mesh (source : string)
    (ds : list (MeshReceiver.clock * string)) (r : MeshReceiver.receiver)
  : MeshReceiver.receiver :=
  match ds with
  | [] => r
  | (clk, p) :: rest =>
      deliver_mesh source rest (MeshReceiver.process_payload clk source p r)
  end.

(** The fragments of the pieces [cs], taken in the order [order], each
    with the clock of its delivery. *)
Definition mesh_frags (cs : list string)
    (order : list (MeshReceiver.clock * nat))
  : list (MeshReceiver.clock * string) :=
  (λ ci, (ci.1, frag_payload (Z.of_nat ci.2) (Z.of_nat (length cs))
                  (default "" (cs !! ci.2)))) <$> order.

(** The chunks received so far for a key of the mesh receiver: none while
    the key is not pending. *)
Definition received (r : MeshReceiver.receiver) (key : string * Z)
  : gmap Z string :=
  match MeshReceiver.fragments r !! key with
  | Some m => MeshReceiver.received_chunks m
  | None => ∅
  end.

(** What [process_payload] does with a complete payload: a file or a
    text. *)
Definition complete_payload (clk : MeshReceiver.clock) (source full : string)
    (r : MeshReceiver.receiver) : MeshReceiver.receiver :=
  if Py.startswith full "FILE:" then MeshReceiver.handle_file source full r
  else MeshReceiver.handle_text_message clk source full r.

(** The data [MeshNetworkInterface.send_file] fragments:
    [f"FILE:{path.name}:{len(raw_data)}:"] followed by the base64 text. *)
Definition file_payload (name : string) (raw : list byte) : string :=
  ("FILE:" +:+ name +:+ ":" +:+ Py.str (Z.of_nat (length raw)) +:+ ":")
    +:+ Base64.b64encode raw.


(** A line that decides nothing in the wait of [send_fragmented_data]. *)
Definition undeciding (line : string) : bool :=
  negb (Py.contains "[CMD] Send completed" line)
  && negb (Py.contains "[CMD] Send failed" line)
  && negb (Py.contains "[TX] Failed" line).

(** Lines that confirm a chunk: undeciding lines, then a completion line,
    and nothing after it. *)
Fixpoint confirmed (lines : list string) : bool :=
  match lines with
  | [] => false
  | line :: rest =>
      match rest with
      | [] => Py.contains "[CMD] Send completed" line
      | _ => undeciding line && confirmed rest
      end
  end.

(** Lines that refuse a chunk: undeciding lines, then a failure marker
    that is not also a completion line, and nothing after it. *)
Fixpoint refused (lines : list string) : bool :=
  match lines with
  | [] => false
  | line :: rest =>
      match rest with
      | [] => negb (Py.contains "[CMD] Send completed" line)
              && (Py.contains "[CMD] Send failed" line
                  || Py.contains "[TX] Failed" line)
      | _ => undeciding line && refused rest
      end
  end.

(** A port that takes the command and confirms, or refuses, the chunk. *)
Definition confirming (e : MeshInterface.chunk_env) : bool :=
  MeshInterface.write_ok e && confirmed (MeshInterface.arriving e).

Definition refusing (e : MeshInterface.chunk_env) : bool :=
  MeshInterface.write_ok e && refused (MeshInterface.arriving e).

(** The command that carries one fragment:
    [f"SEND:{dest}:{reliability}:{chunk_msg}"]. *)
Definition send_command_text (dest : string) (reliability : Z)
    (chunk_msg : string) : string :=
  "SEND:" +:+ dest +:+ ":" +:+ Py.str reliability +:+ ":" +:+ chunk_msg.

(** Whether the lines read for one chunk by [wait_for_chunk_done] of
    [tx_send_file.py] make it succeed. *)
Definition reply_ok (lines : list string) : bool :=
  (TxSendFile.wait_for_chunk_done 0 0 lines (TxSendFile.Tx [] [])).2.

(** What the wait of [LoRaSerialSession.send_file] observes when the reader
    signals the outcome of the same lines. *)
Definition wait_of_reply (lines : list string) : LoraTransceiver.wait_outcome :=
  if reply_ok lines
  then LoraTransceiver.Signalled (Some (LoraTransceiver.MkTxResult true "TX DONE"))
  else LoraTransceiver.TimedOut.


(** [s.rstrip()]: the text without its trailing white space. *)
Definition rstrip (s : string) : string :=
  String.rev (Py.lstrip (String.rev s)).


(** A character of a base64 text: of the alphabet, or the padding. *)
Definition b64_char (c : ascii) : bool :=
  Ascii.eqb c Base64.PAD || negb (no_char c Base64.alphabet).

(** A [FILE:] payload whose name does not lead out of the output
    directory: the name is neither an absolute path nor a path through
    [..] (a payload without a name counts). *)
Definition stays_inside (payload : string) : bool :=
  match Py.split ":" 3 payload with
  | [_; filename; _; _] =>
      match MeshReceiver.resolve filename with
      | MeshReceiver.Outside => false
      | _ => true
      end
  | _ => true
  end.

(* ===================================================================== *)
(** ** The embedding on concrete inputs *)
(* ===================================================================== *)

Example b64encode_hello : Base64.b64encode (Py.encode "Hello") = "SGVsbG8=".
Proof. reflexivity. Qed.

Example b64decode_hello : Base64.b64decode "SGVsbG8=" = Some (Py.encode "Hello").
Proof. reflexivity. Qed.

Example b64decode_skips_other_characters :
  Base64.b64decode "SGVs bG8=" = Some (Py.encode "Hello").
Proof. reflexivity. Qed.

Example b64decode_incorrect_padding : Base64.b64decode "SGVsbG8" = None.
Proof. reflexivity. Qed.

Example b64decode_one_data_character : Base64.b64decode "SGVsb" = None.
Proof. reflexivity. Qed.

Example split_keeps_the_rest :
  Py.split "," 5 "MSG,n1,7,-50,3,a,b" = ["MSG"; "n1"; "7"; "-50"; "3"; "a,b"].
Proof. reflexivity. Qed.

Example split_too_few : Py.split "," 7 "FRAG,a,b" = ["FRAG"; "a"; "b"].
Proof. reflexivity. Qed.

Example int_accepts : Py.int " -1_2 " = Some (-12) ∧ Py.int "007" = Some 7.
Proof. split; reflexivity. Qed.

Example int_refuses :
  Py.int "" = None ∧ Py.int "1__2" = None ∧ Py.int "a" = None
  ∧ Py.int "- 5" = None.
Proof. repeat split; reflexivity. Qed.

Example stem_and_suffix :
  PathLib.stem "test.txt" = "test" ∧ PathLib.suffix "test.txt" = ".txt"
  ∧ PathLib.stem "a/b/.bashrc" = ".bashrc" ∧ PathLib.suffix "a/b/.bashrc" = ""
  ∧ PathLib.stem "a.tar.gz" = "a.tar" ∧ PathLib.suffix "a.tar.gz" = ".gz".
Proof. repeat split; reflexivity. Qed.

Example stamped_name : LoraTransceiver.stamped "test.txt" = "test_rx.txt".
Proof. reflexivity. Qed.

Example chunks_of_hello :
  LoraTransceiver.split_chunks "SGVsbG8=" 4 = Py.Ret ["SGVs"; "bG8="]
  ∧ LoraTransceiver.split_chunks "SGVsbG8=" 7 = Py.Ret ["SGVsbG8"; "="]
  ∧ LoraTransceiver.split_chunks "SGVsbG8=" 0 = Py.Raise Py.ValueError.
Proof. repeat split; reflexivity. Qed.

Example thirty_percent :
  MeshInterface.too_many_failures 3 10 = false
  ∧ MeshInterface.too_many_failures 4 10 = true.
Proof. split; reflexivity. Qed.


(* ===================================================================== *)
(** ** Text *)
(* ===================================================================== *)

Section text_facts.
Import Py.

Lemma take_drop n s : take n s +:+ drop n s = s.
Proof.
  revert s; induction n as [|n IH]; intros [|c s]; simpl; try done.
  by rewrite <- (IH s) at 3.
Qed.

Lemma take_all n s : (String.length s ≤ n)%nat → take n s = s.
Proof.
  revert s; induction n as [|n IH]; intros [|c s]; simpl; try done.
  - lia.
  - intros. f_equal. apply IH. lia.
Qed.

Lemma take_add n m s : take n s +:+ take m (drop n s) = take (n + m) s.
Proof.
  revert s; induction n as [|n IH]; intros [|c s]; simpl; try done.
  - by destruct m.
  - by rewrite <- IH.
Qed.

Lemma app_cons c (a b : string) : String c a +:+ b = String c (a +:+ b).
Proof. reflexivity. Qed.

Lemma app_empty_r s : s +:+ "" = s.
Proof. induction s as [|c s IH]; [done|]. by rewrite app_cons, IH. Qed.

Lemma app_assoc_s (a b c : string) : (a +:+ b) +:+ c = a +:+ (b +:+ c).
Proof. induction a as [|x a IH]; [done|]. by rewrite !app_cons, IH. Qed.

Lemma join_app l1 l2 : join (l1 ++ l2) = join l1 +:+ join l2.
Proof.
  induction l1 as [|x l1 IH]; simpl; [done|].
  unfold join in *; simpl. by rewrite IH, app_assoc_s.
Qed.

(** The first [k] slices of width [n] make up the first [k * n]
    characters. *)
Lemma join_slices n s k :
  join ((λ i, slice s i (i + n)) <$> ((λ j, j * n)%nat <$> seq 0 k))
  = take (k * n) s.
Proof.
  induction k as [|k IH]; [done|].
  rewrite seq_S, !fmap_app, join_app, IH. cbn [fmap list_fmap join fold_right].
  unfold slice. replace ((0 + k) * n + n - (0 + k) * n)%nat with n by lia.
  rewrite app_empty_r, Nat.add_0_l, take_add. f_equal. lia.
Qed.

(** Cutting a text into slices of a positive width and joining them
    gives the text back. *)
Lemma join_range_step n s :
  (0 < n)%nat →
  join ((λ i, slice s i (i + n)) <$> range_step (String.length s) n) = s.
Proof.
  intros Hn. unfold range_step. rewrite join_slices.
  apply take_all.
  pose proof (Nat.div_mod_eq (String.length s + n - 1) n) as Hd.
  pose proof (Nat.mod_upper_bound (String.length s + n - 1) n) as Hm.
  nia.
Qed.

End text_facts.

(* ===================================================================== *)
(** ** base64: decoding undoes encoding *)
(* ===================================================================== *)

Section base64_facts.
Import Base64.

Lemma Z_of_byte_range b : 0 ≤ Z_of_byte b < 256.
Proof. unfold Z_of_byte. pose proof (Byte.to_N_bounded b). lia. Qed.

Lemma byte_of_Z_of_byte b : byte_of_Z (Z_of_byte b) = b.
Proof. by destruct b. Qed.

Lemma elem_of_all_bytes b : In b all_bytes.
Proof.
  rewrite <- (byte_of_Z_of_byte b). unfold all_bytes.
  apply in_map. pose proof (Z_of_byte_range b).
  replace (Z_of_byte b) with (Z.of_nat (Z.to_nat (Z_of_byte b))) by lia.
  apply in_map, in_seq. lia.
Qed.

Lemma check_bytes2_spec P a b : check_bytes2 P = true → P a b = true.
Proof.
  unfold check_bytes2. rewrite forallb_forall. intros H.
  specialize (H a (elem_of_all_bytes a)).
  rewrite forallb_forall in H. apply H, elem_of_all_bytes.
Qed.

Lemma a2b_loop_data c v s q l p :
  data_char c v = true →
  a2b_loop (String c s) q l p =
    match q with
    | 0%nat => a2b_loop s 1 v 0
    | 1%nat => cons (byte_of_Z (Z.lor (Z.shiftl l 2) (Z.shiftr v 4)))
                 <$> a2b_loop s 2 (Z.land v 15) 0
    | 2%nat => cons (byte_of_Z (Z.lor (Z.shiftl l 4) (Z.shiftr v 2)))
                 <$> a2b_loop s 3 (Z.land v 3) 0
    | _ => cons (byte_of_Z (Z.lor (Z.shiftl l 6) v)) <$> a2b_loop s 0 0 0
    end.
Proof.
  unfold data_char. rewrite !andb_true_iff, negb_true_iff, bool_decide_eq_true.
  intros [[Hp _] Hv]. cbn [a2b_loop]. by rewrite Hp, Hv.
Qed.

Lemma group_ok_all : check_bytes2 group_ok = true.
Proof. vm_compute. reflexivity. Qed.

Lemma group_facts b1 b2 :
  let n1 := Z_of_byte b1 in
  let n2 := Z_of_byte b2 in
  data_char (table_b2a (sx1 n1)) (sx1 n1) = true
  ∧ data_char (table_b2a (sx2 n1 n2)) (sx2 n1 n2) = true
  ∧ data_char (table_b2a (sx3 n1 n2)) (sx3 n1 n2) = true
  ∧ data_char (table_b2a (sx4 n1)) (sx4 n1) = true
  ∧ data_char (table_b2a (Z.shiftl (Z.land n1 3) 4)) (Z.shiftl (Z.land n1 3) 4) = true
  ∧ data_char (table_b2a (Z.shiftl (Z.land n1 15) 2)) (Z.shiftl (Z.land n1 15) 2) = true
  ∧ byte_of_Z (Z.lor (Z.shiftl (sx1 n1) 2) (Z.shiftr (sx2 n1 n2) 4)) = b1
  ∧ Z.land (sx2 n1 n2) 15 = Z.shiftr n2 4
  ∧ byte_of_Z (Z.lor (Z.shiftl (Z.shiftr n1 4) 4) (Z.shiftr (sx3 n1 n2) 2)) = b1
  ∧ Z.land (sx3 n1 n2) 3 = Z.shiftr n2 6
  ∧ byte_of_Z (Z.lor (Z.shiftl (Z.shiftr n1 6) 6) (sx4 n1)) = b1
  ∧ byte_of_Z (Z.lor (Z.shiftl (sx1 n1) 2)
                 (Z.shiftr (Z.shiftl (Z.land n1 3) 4) 4)) = b1
  ∧ byte_of_Z (Z.lor (Z.shiftl (Z.shiftr n1 4) 4)
                 (Z.shiftr (Z.shiftl (Z.land n1 15) 2) 2)) = b1.
Proof.
  intros n1 n2.
  pose proof (check_bytes2_spec group_ok b1 b2 group_ok_all) as H.
  unfold group_ok in H. fold n1 n2 in H.
  rewrite !andb_true_iff in H.
  rewrite !Z.eqb_eq in H.
  destruct H as [[[[[[[[[[[[H1 H2] H3] H4] H5] H6] H7] H8] H9] H10] H11] H12] H13].
  apply Byte.byte_dec_bl in H7, H9, H11, H12, H13.
  repeat split; assumption.
Qed.

Lemma all_ascii_data c v s :
  data_char c v = true → all_ascii (String c s) = all_ascii s.
Proof.
  unfold data_char. rewrite !andb_true_iff. intros [[_ Ha] _].
  simpl. by rewrite Ha.
Qed.

Lemma a2b_loop_pad_end q l :
  (2 ≤ q)%nat →
  (q = 3%nat → a2b_loop (String PAD "") q l 0 = Some [])
  ∧ (q = 2%nat → a2b_loop (String PAD (String PAD "")) q l 0 = Some []).
Proof. intros Hq. split; intros ->; reflexivity. Qed.

(** Decoding what [b64encode] produced gives the bytes back, and the
    encoded text is within ASCII. *)
Lemma a2b_b64encode n bs :
  (length bs ≤ n)%nat →
  a2b_loop (b64encode bs) 0 0 0 = Some bs ∧ all_ascii (b64encode bs) = true.
Proof.
  revert bs. induction n as [n IH] using lt_wf_ind. intros bs Hlen.
  destruct bs as [|b1 [|b2 [|b3 rest]]].
  - done.
  - destruct (group_facts b1 b1) as (H1 & _ & _ & _ & H5 & _ & _ & _ & _ & _ & _ & H12 & _).
    cbn [b64encode]. split.
    + rewrite (a2b_loop_data _ _ _ _ _ _ H1), (a2b_loop_data _ _ _ _ _ _ H5).
      fold (sx1 (Z_of_byte b1)). rewrite H12.
      by rewrite (proj2 (a2b_loop_pad_end 2 _ (le_n 2)) eq_refl).
    + by rewrite (all_ascii_data _ _ _ H1), (all_ascii_data _ _ _ H5).
  - destruct (group_facts b1 b2) as (H1 & H2 & _ & _ & _ & _ & H7 & H8 & _).
    destruct (group_facts b2 b2) as (_ & _ & _ & _ & _ & H6 & _ & _ & _ & _ & _ & _ & H13).
    cbn [b64encode]. split.
    + rewrite (a2b_loop_data _ _ _ _ _ _ H1).
      fold (sx2 (Z_of_byte b1) (Z_of_byte b2)).
      rewrite (a2b_loop_data _ _ _ _ _ _ H2), (a2b_loop_data _ _ _ _ _ _ H6).
      fold (sx1 (Z_of_byte b1)). rewrite H7, H8, H13.
      by rewrite (proj1 (a2b_loop_pad_end 3 _ (le_S _ _ (le_n 2))) eq_refl).
    + fold (sx2 (Z_of_byte b1) (Z_of_byte b2)).
      by rewrite (all_ascii_data _ _ _ H1), (all_ascii_data _ _ _ H2),
        (all_ascii_data _ _ _ H6).
  - destruct (group_facts b1 b2) as (H1 & H2 & _ & _ & _ & _ & H7 & H8 & _).
    destruct (group_facts b2 b3) as (_ & _ & H3 & _ & _ & _ & _ & _ & H9 & H10 & _).
    destruct (group_facts b3 b3) as (_ & _ & _ & H4 & _ & _ & _ & _ & _ & _ & H11 & _).
    destruct (IH (length rest) ltac:(simpl in Hlen; lia) rest (le_n _))
      as [IHa IHb].
    cbn [b64encode].
    fold (sx1 (Z_of_byte b1)) (sx2 (Z_of_byte b1) (Z_of_byte b2))
      (sx3 (Z_of_byte b2) (Z_of_byte b3)) (sx4 (Z_of_byte b3)).
    split.
    + rewrite (a2b_loop_data _ _ _ _ _ _ H1), (a2b_loop_data _ _ _ _ _ _ H2),
        (a2b_loop_data _ _ _ _ _ _ H3), (a2b_loop_data _ _ _ _ _ _ H4).
      by rewrite H7, H8, H9, H10, H11, IHa.
    + by rewrite (all_ascii_data _ _ _ H1), (all_ascii_data _ _ _ H2),
        (all_ascii_data _ _ _ H3), (all_ascii_data _ _ _ H4).
Qed.

(** [b64decode(b64encode(bs)) == bs] *)
Lemma b64decode_b64encode bs : b64decode (b64encode bs) = Some bs.
Proof.
  unfold b64decode.
  destruct (a2b_b64encode (length bs) bs (le_n _)) as [-> ->]. done.
Qed.

End base64_facts.

(* ===================================================================== *)
(** ** Reassembly: the shared core of [add_frag] and [add_chunk] *)
(* ===================================================================== *)

Section reassembly_facts.
Import Py LoraTransceiver.

(** [ordered] succeeds exactly on the chunks it finds, in order. *)
Lemma ordered_Ret (ch : gmap Z string) (indices : list Z) (l : list string) :
  ordered ch indices = Ret l ↔ Forall2 (λ i c, ch !! i = Some c) indices l.
Proof.
  revert l; induction indices as [|i is_ IH]; intros l; simpl.
  - split; [intros [= <-]; constructor | by inversion 1].
  - destruct (ch !! i) as [c|] eqn:Hi.
    + destruct (ordered ch is_) as [l'|e] eqn:Ho.
      * split.
        -- intros [= <-]. constructor; [done|]. by apply IH.
        -- inversion 1 as [|? c' ? l'' Hc Hl]; subst.
           apply IH in Hl. by simplify_eq.
      * split; [done|]. inversion 1 as [|? c' ? l'' Hc Hl]; subst.
        apply IH in Hl. done.
    + split; [done|]. inversion 1; simplify_eq.
Qed.

(** [ordered] raises exactly when an index is missing. *)
Lemma ordered_Raise (ch : gmap Z string) (indices : list Z) e :
  ordered ch indices = Raise e → ∃ i, i ∈ indices ∧ ch !! i = None.
Proof.
  induction indices as [|i is_ IH]; simpl; [done|].
  destruct (ch !! i) as [c|] eqn:Hi.
  - destruct (ordered ch is_) as [l'|e'] eqn:Ho; [done|].
    intros [= <-]. destruct (IH eq_refl) as (j & Hj & Hn).
    exists j. split; [by right | done].
  - intros _. exists i. split; [by left | done].
Qed.

Lemma ordered_present (ch : gmap Z string) (indices : list Z) :
  (∀ i, i ∈ indices → is_Some (ch !! i)) → ∃ l, ordered ch indices = Ret l.
Proof.
  intros H. destruct (ordered ch indices) as [l|e] eqn:Ho; [by eexists|].
  apply ordered_Raise in Ho as (i & Hi & Hn).
  destruct (H i Hi) as [c Hc]. congruence.
Qed.

(** A map with [n] entries, all at indices of [0..n-1], has every one of
    those indices. *)
Lemma full_of_size (ch : gmap Z string) (n : Z) :
  (∀ j, is_Some (ch !! j) → 0 ≤ j < n) →
  Z.of_nat (size ch) = n →
  ∀ j, 0 ≤ j < n → is_Some (ch !! j).
Proof.
  intros Hin Hsz j Hj.
  set (D := list_to_set (seqZ 0 n) : gset Z).
  assert (dom ch ⊆ D) as Hsub.
  { intros k Hk. apply elem_of_dom in Hk. apply Hin in Hk.
    apply elem_of_list_to_set, elem_of_seqZ. lia. }
  assert (size D = Z.to_nat n) as HD.
  { unfold D. rewrite size_list_to_set by apply NoDup_seqZ.
    by rewrite length_seqZ. }
  assert (dom ch = D) as Heq.
  { apply set_subseteq_size_eq; [done|]. rewrite size_dom. lia. }
  apply elem_of_dom. rewrite Heq.
  apply elem_of_list_to_set, elem_of_seqZ. lia.
Qed.

(** The chunks of [cs], found at their positions. *)
Lemma ordered_positions (ch : gmap Z string) (cs : list string) (a : Z) :
  (∀ k c, cs !! k = Some c → ch !! (a + Z.of_nat k) = Some c) →
  ordered ch (seqZ a (Z.of_nat (length cs))) = Ret cs.
Proof.
  revert a; induction cs as [|c cs IH]; intros a H; [done|].
  rewrite seqZ_cons by (simpl; lia).
  cbn [ordered].
  pose proof (H 0%nat c eq_refl) as H0. rewrite Z.add_0_r in H0. rewrite H0.
  replace (Z.pred (Z.of_nat (length (c :: cs)))) with (Z.of_nat (length cs))
    by (simpl; lia).
  rewrite IH; [done|].
  intros k c' Hk. replace (Z.succ a + Z.of_nat k) with (a + Z.of_nat (S k)) by lia.
  by apply H.
Qed.

End reassembly_facts.

(* ===================================================================== *)
(** ** [MessageReassembler.add_frag] *)
(* ===================================================================== *)

Section add_frag_facts.
Import Py LoraTransceiver.

(** [add_frag] in terms of the chunks stored for the key. *)
Lemma add_frag_eq m src seq idx tot_ c :
  let key := (src, seq) in
  let ch := <[idx := c]> (stored m key) in
  add_frag m src seq idx tot_ c =
    if Z.of_nat (size ch) =? tot_ then
      match ordered ch (range tot_) with
      | Ret l => (delete key m, Ret (Some (join l)))
      | Raise e => (<[key := Entry tot_ ch]> m, Raise e)
      end
    else (<[key := Entry tot_ ch]> m, Ret None).
Proof.
  intros key ch. unfold add_frag, stored in *. fold key.
  destruct (m !! key) as [e|] eqn:Hk; cbn [default tot chunks].
  - rewrite Hk. cbn [default tot chunks]. subst ch.
    destruct (_ =? _); [|done].
    destruct (ordered _ _); [|done]. by rewrite delete_insert_eq.
  - rewrite lookup_insert_eq. cbn [default tot chunks]. subst ch.
    rewrite insert_insert_eq.
    destruct (_ =? _); [|done].
    destruct (ordered _ _); [|done]. by rewrite delete_insert_eq.
Qed.

Lemma stored_insert {K} `{Countable K} (m : gmap K entry) (key : K) e :
  stored (<[key := e]> m) key = chunks e.
Proof. unfold stored. by rewrite lookup_insert_eq. Qed.

Lemma stored_None {K} `{Countable K} (m : gmap K entry) (key : K) :
  m !! key = None → stored m key = ∅.
Proof. unfold stored. by intros ->. Qed.

(** The last missing fragment completes the set: every index is then
    present, and [ordered] returns the fragments in index order. *)
Lemma ordered_complete (ch : gmap Z string) (cs : list string) :
  (∀ j c, ch !! j = Some c → ∃ i : nat, j = Z.of_nat i ∧ cs !! i = Some c) →
  size ch = length cs →
  ordered ch (range (Z.of_nat (length cs))) = Ret cs.
Proof.
  intros Hcs Hsz. unfold range. apply ordered_positions.
  intros k c Hk.
  assert (is_Some (ch !! (0 + Z.of_nat k))) as [c' Hc'].
  { apply (full_of_size ch (Z.of_nat (length cs))).
    - intros j [x Hx]. destruct (Hcs j x Hx) as (i & -> & Hi).
      apply lookup_lt_Some in Hi. lia.
    - lia.
    - apply lookup_lt_Some in Hk. lia. }
  destruct (Hcs _ _ Hc') as (i & Hi & Hci).
  assert (i = k) as -> by lia. congruence.
Qed.

(** Delivering the missing fragments of a message, each once, in any
    order: nothing is returned until the last one, which returns the
    whole payload and removes the key. *)
Lemma deliver_missing src seq (cs : list string) (todo : list nat) m :
  let key := (src, seq) in
  NoDup todo →
  (∀ i, i ∈ todo → (i < length cs)%nat ∧ stored m key !! Z.of_nat i = None) →
  (∀ j c, stored m key !! j = Some c →
          ∃ i : nat, j = Z.of_nat i ∧ cs !! i = Some c) →
  (size (stored m key) + length todo = length cs)%nat →
  todo ≠ [] →
  deliver_frags src seq (Z.of_nat (length cs)) (frags_in_order cs todo) m
  = (delete key m,
     replicate (length todo - 1) (Ret None) ++ [Ret (Some (join cs))]).
Proof.
  intros key. revert m.
  induction todo as [|i todo IH]; intros m Hnd Hin Hcs Hsz Hne; [done|].
  clear Hne. apply NoDup_cons in Hnd as [Hi Hnd].
  destruct (Hin i ltac:(left)) as [Hlt Hnone].
  destruct (cs !! i) as [c|] eqn:Hci;
    [|apply lookup_ge_None in Hci; lia].
  cbn [frags_in_order fmap list_fmap deliver_frags]. rewrite Hci.
  cbn [default from_option id]. rewrite add_frag_eq. fold key.
  set (ch := <[Z.of_nat i := c]> (stored m key)).
  assert (size ch = S (size (stored m key))) as Hch
    by (by apply map_size_insert_None).
  assert (∀ j c', ch !! j = Some c' →
                  ∃ i' : nat, j = Z.of_nat i' ∧ cs !! i' = Some c') as Hcs'.
  { intros j c'. unfold ch. rewrite lookup_insert.
    case_decide as Hj; [|by apply Hcs].
    intros [= <-]. by exists i. }
  destruct todo as [|i2 todo].
  - (* the last fragment *)
    simpl in Hsz.
    replace (Z.of_nat (size ch) =? Z.of_nat (length cs)) with true
      by (symmetry; apply Z.eqb_eq; lia).
    rewrite (ordered_complete ch cs Hcs') by lia. done.
  - (* more to come *)
    cbn [length] in Hsz.
    replace (Z.of_nat (size ch) =? Z.of_nat (length cs)) with false
      by (symmetry; apply Z.eqb_neq; lia).
    fold (frags_in_order cs (i2 :: todo)).
    rewrite IH; [| done | | | | done].
    + rewrite delete_insert_eq. cbn [length]. simpl.
      by rewrite Nat.sub_0_r.
    + intros i' Hi'. rewrite stored_insert. cbn [chunks].
      destruct (Hin i' ltac:(by right)) as [? ?]. split; [done|].
      unfold ch. rewrite lookup_insert_ne; [done|].
      intros Heq. apply Nat2Z.inj in Heq. subst. done.
    + rewrite stored_insert. exact Hcs'.
    + rewrite stored_insert. cbn [chunks length]. lia.
Qed.

End add_frag_facts.

(** C2 (order independence).  For a message of [total >= 1] fragments
    [c_0 .. c_(total-1)] whose key [(src, seq)] is not pending, delivering
    the fragments to [add_frag] in the order given by any permutation of
    [0 .. total-1] returns nothing for the first [total - 1] deliveries and,
    on the last one, the in-order concatenation [c_0 ++ ... ++ c_(total-1)];
    the key is then no longer in the pending map, which is the map before
    the deliveries.  [rx_receive_file.py] has the same [add_frag]. *)
Theorem C2_order_independence
    (src : string) (seq_ : Z) (cs : list string) (order : list nat)
    (m : gmap (string * Z) LoraTransceiver.entry) :
  (1 ≤ length cs)%nat →
  order ≡ₚ seq 0 (length cs) →
  m !! (src, seq_) = None →
  deliver_frags src seq_ (Z.of_nat (length cs)) (frags_in_order cs order) m
  = (m, replicate (length cs - 1) (Py.Ret None) ++ [Py.Ret (Some (Py.join cs))])
  ∧ (deliver_frags src seq_ (Z.of_nat (length cs)) (frags_in_order cs order) m).1
      !! (src, seq_) = None
  ∧ RxReceiveFile.add_frag = LoraTransceiver.add_frag.
Proof.
  intros Hlen Hperm Hkey.
  assert (deliver_frags src seq_ (Z.of_nat (length cs)) (frags_in_order cs order) m
          = (m, replicate (length cs - 1) (Py.Ret None)
                  ++ [Py.Ret (Some (Py.join cs))])) as Heq.
  { assert (length order = length cs) as Hlo
      by (by rewrite Hperm, length_seq).
    rewrite deliver_missing.
    - by rewrite delete_id, Hlo.
    - rewrite Hperm. apply NoDup_seq.
    - intros i Hi. rewrite Hperm in Hi. apply elem_of_seq in Hi.
      split; [lia|]. by rewrite stored_None.
    - intros j c. by rewrite stored_None.
    - rewrite stored_None by done. rewrite map_size_empty. lia.
    - intros ->. simpl in Hlo. lia. }
  rewrite Heq. done.
Qed.

(** C2, on three fragments delivered in the order 2, 0, 1. *)
Lemma C2_order_independence_witness :
  deliver_frags "n1" 7 3 [(2, "ef"); (0, "ab"); (1, "cd")] ∅
  = (∅, [Py.Ret None; Py.Ret None; Py.Ret (Some "abcdef")])
  ∧ (deliver_frags "n1" 7 3 [(2, "ef"); (0, "ab"); (1, "cd")] ∅).1
      !! ("n1", 7) = None
  ∧ RxReceiveFile.add_frag = LoraTransceiver.add_frag.
Proof.
  apply (C2_order_independence "n1" 7 ["ab"; "cd"; "ef"] [2; 0; 1]%nat ∅).
  - simpl. lia.
  - simpl. apply (bool_decide_unpack _). reflexivity.
  - reflexivity.
Defined.

Section invariant_facts.
Import Py LoraTransceiver.

(** Whatever the state and the arguments, a payload that [add_frag]
    returns is the concatenation of the chunks at all of [0 .. tot-1], in
    that order, and the key is removed in the same call. *)
Lemma add_frag_payload m src seq_ idx tot_ c m' p :
  add_frag m src seq_ idx tot_ c = (m', Ret (Some p)) →
  let ch := <[idx := c]> (stored m (src, seq_)) in
  Z.of_nat (size ch) = tot_
  ∧ m' !! (src, seq_) = None
  ∧ ∃ l, Forall2 (λ i x, ch !! i = Some x) (seqZ 0 tot_) l ∧ p = join l.
Proof.
  rewrite add_frag_eq. cbv zeta.
  destruct (_ =? _) eqn:Hsz; [|done]. apply Z.eqb_eq in Hsz.
  destruct (ordered _ _) as [l|e] eqn:Ho; [|done].
  intros [= <- <-]. split; [done|]. split; [apply lookup_delete_eq|].
  exists l. split; [|done]. by apply ordered_Ret.
Qed.

Lemma stored_in_range m key tot_ :
  pending_invariant m →
  (∀ e, m !! key = Some e → tot e = tot_) →
  0 < tot_ →
  (∀ j, is_Some (stored m key !! j) → 0 ≤ j < tot_)
  ∧ Z.of_nat (size (stored m key)) < tot_.
Proof.
  intros Hinv Htot Hpos. unfold stored.
  destruct (m !! key) as [e|] eqn:Hk.
  - destruct (Hinv key e Hk) as [Hr Hs]. rewrite <- (Htot e eq_refl).
    split; [exact Hr | exact Hs].
  - split; [|by rewrite map_size_empty].
    intros j [x Hx]. by rewrite lookup_empty in Hx.
Qed.

(** One well-formed delivery on a state that satisfies the invariant. *)
Lemma deliver_wf m d :
  pending_invariant m → well_formed m d →
  let key := (d_src d, d_seq d) in
  let ch := <[d_idx d := d_chunk d]> (stored m key) in
  pending_invariant (deliver m d).1
  ∧ (Z.of_nat (size ch) = d_tot d →
     ∃ l, (deliver m d) = (delete key m, Ret (Some (join l)))
          ∧ Forall2 (λ i x, ch !! i = Some x) (seqZ 0 (d_tot d)) l)
  ∧ (Z.of_nat (size ch) ≠ d_tot d →
     deliver m d = (<[key := Entry (d_tot d) ch]> m, Ret None)).
Proof.
  intros Hinv [Hidx Htot] key ch.
  assert (0 < d_tot d) as Hpos by lia.
  destruct (stored_in_range m key (d_tot d) Hinv Htot Hpos) as [Hr Hs].
  assert (∀ j, is_Some (ch !! j) → 0 ≤ j < d_tot d) as Hr'.
  { intros j. unfold ch. rewrite lookup_insert. case_decide; [intros; lia|].
    apply Hr. }
  assert (size ch ≤ S (size (stored m key)))%nat as Hle.
  { unfold ch. rewrite map_size_insert. destruct (stored m key !! d_idx d); unfold id; lia. }
  unfold deliver. rewrite add_frag_eq. fold key ch.
  destruct (Z.of_nat (size ch) =? d_tot d) eqn:Hsz.
  - apply Z.eqb_eq in Hsz.
    destruct (ordered_present ch (range (d_tot d))) as [l Hl].
    { intros i Hi. apply elem_of_seqZ in Hi.
      apply (full_of_size ch (d_tot d)); [done | done | lia]. }
    rewrite Hl. cbn [fst]. split; [|split].
    + intros k e Hk. apply lookup_delete_Some in Hk as [_ Hk].
      by apply (Hinv k e).
    + intros _. exists l. split; [done|]. by apply ordered_Ret.
    + done.
  - apply Z.eqb_neq in Hsz. cbn [fst]. split; [|split].
    + intros k e. rewrite lookup_insert. case_decide as Hk.
      * intros [= <-]. split; [exact Hr' | cbn [chunks tot]; lia].
      * by apply (Hinv k e).
    + done.
    + done.
Qed.

Lemma reachable_wf_invariant m : reachable_wf m → pending_invariant m.
Proof.
  induction 1 as [|m d _ IH Hwf].
  - intros key e. by rewrite lookup_empty.
  - by apply deliver_wf.
Qed.

End invariant_facts.

(** C3, as the code has it.  [add_frag] does not check the index or the
    total, so the invariant is one of the states reached by well-formed
    deliveries (index within the total, total as recorded for the key).  In
    such a state every pending entry stores indices of [[0, total)] only and
    fewer than [total] of them; a delivery completes exactly when the number
    of stored chunks then equals the total; on completion the payload is
    the concatenation of the chunks at [0 .. total-1] in index order and
    the key is removed by that same call; otherwise nothing is returned
    and the entry stays pending. *)
Theorem C3_pending_invariant
    (m : gmap (string * Z) LoraTransceiver.entry) (d : delivery) :
  reachable_wf m →
  well_formed m d →
  let key := (d_src d, d_seq d) in
  let ch := <[d_idx d := d_chunk d]> (stored m key) in
  pending_invariant m
  ∧ (Z.of_nat (size ch) = d_tot d ↔ ∃ p, (deliver m d).2 = Py.Ret (Some p))
  ∧ (∀ p, (deliver m d).2 = Py.Ret (Some p) →
       (deliver m d).1 !! key = None
       ∧ ∃ l, Forall2 (λ i x, ch !! i = Some x) (seqZ 0 (d_tot d)) l
              ∧ p = Py.join l)
  ∧ (Z.of_nat (size ch) ≠ d_tot d →
       (deliver m d).2 = Py.Ret None
       ∧ (deliver m d).1 !! key = Some (LoraTransceiver.Entry (d_tot d) ch)).
Proof.
  intros Hreach Hwf key ch.
  pose proof (reachable_wf_invariant m Hreach) as Hinv.
  destruct (deliver_wf m d Hinv Hwf) as (_ & Hfull & Hpart).
  fold key ch in Hfull, Hpart.
  split; [done|]. split; [|split].
  - split.
    + intros Hsz. destruct (Hfull Hsz) as (l & -> & _). by eexists.
    + intros [p Hp].
      destruct (decide (Z.of_nat (size ch) = d_tot d)) as [|Hne]; [done|].
      rewrite (Hpart Hne) in Hp. done.
  - intros p Hp. destruct (deliver m d) as [m' r] eqn:Hd. cbn [fst snd] in *.
    subst r. unfold deliver in Hd.
    apply add_frag_payload in Hd as (_ & Hnone & Hl). done.
  - intros Hne. rewrite (Hpart Hne). cbn [fst snd].
    split; [done|]. apply lookup_insert_eq.
Qed.

(** C3 on the second of two fragments: the state after [(idx 1, tot 2)] is
    reached by a well-formed delivery, and [(idx 0, tot 2)] completes. *)
Lemma C3_pending_invariant_witness :
  let m := (deliver ∅ (Delivery "n1" 7 1 2 "cd")).1 in
  let d := Delivery "n1" 7 0 2 "ab" in
  let key := (d_src d, d_seq d) in
  let ch := <[d_idx d := d_chunk d]> (stored m key) in
  pending_invariant m
  ∧ (Z.of_nat (size ch) = d_tot d ↔ ∃ p, (deliver m d).2 = Py.Ret (Some p))
  ∧ (∀ p, (deliver m d).2 = Py.Ret (Some p) →
       (deliver m d).1 !! key = None
       ∧ ∃ l, Forall2 (λ i x, ch !! i = Some x) (seqZ 0 (d_tot d)) l
              ∧ p = Py.join l)
  ∧ (Z.of_nat (size ch) ≠ d_tot d →
       (deliver m d).2 = Py.Ret None
       ∧ (deliver m d).1 !! key = Some (LoraTransceiver.Entry (d_tot d) ch)).
Proof.
  apply (C3_pending_invariant (deliver ∅ (Delivery "n1" 7 1 2 "cd")).1
           (Delivery "n1" 7 0 2 "ab")).
  - apply reachable_wf_step; [apply reachable_wf_init|].
    split; [simpl; lia|]. intros e. by rewrite lookup_empty.
  - split; [simpl; lia|]. intros e.
    vm_compute. by intros [= <-].
Defined.

(** C3 as stated fails: from the empty map, one fragment with index 5 of a
    total of 1 is stored although 5 is outside [[0, 1)]; the count then
    equals the total, yet nothing is emitted ([KeyError] for index 0) and
    the entry stays pending. *)
Lemma C3_counterexample :
  let r := LoraTransceiver.add_frag ∅ "n1" 7 5 1 "x" in
  r.2 = Py.Raise (Py.KeyError 0)
  ∧ r.1 !! ("n1", 7) = Some (LoraTransceiver.Entry 1 {[5 := "x"]})
  ∧ size ({[5 := "x"]} : gmap Z string) = 1%nat
  ∧ ¬ (0 ≤ 5 < 1).
Proof. vm_compute. repeat split; try done. intros [_ ?]. done. Qed.

(** C9, as the code has it.  In [MessageReassembler.add_frag] a fragment
    whose index is already stored for a pending, incomplete key, delivered
    with the total recorded for that key, replaces the stored text, leaves
    the number of stored chunks, the set of stored indices and the total
    unchanged, and returns nothing.  In [MeshReceiver.handle_fragment] such
    a fragment is ignored: the receiver is left exactly as it was, the
    stored text included. *)
Theorem C9_duplicate_index
    (m : gmap (string * Z) LoraTransceiver.entry) (src : string) (seq_ idx : Z)
    (c old : string) (e : LoraTransceiver.entry)
    (r : MeshReceiver.receiver) (clk : MeshReceiver.clock)
    (source payload tag s_idx s_total chunk old' : string) (idx' total : Z)
    (msg : MeshReceiver.FragmentedMessage) :
  m !! (src, seq_) = Some e →
  LoraTransceiver.chunks e !! idx = Some old →
  Z.of_nat (size (LoraTransceiver.chunks e)) ≠ LoraTransceiver.tot e →
  Py.split ":" 3 payload = [tag; s_idx; s_total; chunk] →
  Py.int s_idx = Some idx' →
  Py.int s_total = Some total →
  MeshReceiver.fragments r !! (source, total) = Some msg →
  MeshReceiver.received_chunks msg !! idx' = Some old' →
  MeshReceiver.is_complete msg = false →
  let ch := <[idx := c]> (LoraTransceiver.chunks e) in
  (LoraTransceiver.add_frag m src seq_ idx (LoraTransceiver.tot e) c
   = (<[(src, seq_) := LoraTransceiver.Entry (LoraTransceiver.tot e) ch]> m,
      Py.Ret None)
   ∧ ch !! idx = Some c
   ∧ size ch = size (LoraTransceiver.chunks e)
   ∧ dom ch = dom (LoraTransceiver.chunks e))
  ∧ MeshReceiver.handle_fragment clk source payload r = r.
Proof.
  intros Hm Hold Hinc Hsplit Hidx Htot Hf Hr Hnc ch.
  assert (size ch = size (LoraTransceiver.chunks e)) as Hsz
    by (apply map_size_insert_Some; by eexists).
  split; [split; [|split; [|split]]|].
  - rewrite add_frag_eq. unfold stored. rewrite Hm. fold ch.
    replace (Z.of_nat (size ch) =? LoraTransceiver.tot e) with false; [done|].
    symmetry. apply Z.eqb_neq. by rewrite Hsz.
  - apply lookup_insert_eq.
  - done.
  - unfold ch. apply dom_insert_lookup_L. by eexists.
  - unfold MeshReceiver.handle_fragment.
    rewrite Hsplit, Hidx, Htot. cbv zeta. rewrite Hf.
    cbn [default from_option id MeshReceiver.fragments]. rewrite Hf.
    cbn [default from_option id]. rewrite Hr, Hnc. done.
Qed.

(** C9 on a duplicate of fragment 0 of 2, in both receivers. *)
Lemma C9_duplicate_index_witness :
  let m := (LoraTransceiver.add_frag ∅ "n1" 7 0 2 "ab").1 in
  let e := LoraTransceiver.Entry 2 {[0 := "ab"]} in
  let r := MeshReceiver.handle_fragment (MeshReceiver.Clock 5 "t") "Node_1"
             "FRAG:0:2:ab"
             (MeshReceiver.Receiver ∅ (MeshReceiver.MkReceptionStats 0 0 0 0 0)
                ∅ []) in
  let ch := <[0 := "xy"]> (LoraTransceiver.chunks e) in
  (LoraTransceiver.add_frag m "n1" 7 0 (LoraTransceiver.tot e) "xy"
   = (<[("n1", 7) := LoraTransceiver.Entry (LoraTransceiver.tot e) ch]> m,
      Py.Ret None)
   ∧ ch !! 0 = Some "xy"
   ∧ size ch = size (LoraTransceiver.chunks e)
   ∧ dom ch = dom (LoraTransceiver.chunks e))
  ∧ MeshReceiver.handle_fragment (MeshReceiver.Clock 9 "u") "Node_1"
      "FRAG:0:2:xy" r = r.
Proof.
  apply (C9_duplicate_index _ "n1" 7 0 "xy" "ab"
           (LoraTransceiver.Entry 2 {[0 := "ab"]}) _ _ "Node_1" "FRAG:0:2:xy"
           "FRAG" "0" "2" "xy" "ab" 0 2
           (MeshReceiver.MkFragmentedMessage 2 {[0 := "ab"]} 5 5 "Node_1"));
    try reflexivity.
  vm_compute. congruence.
Defined.

(** C9 as stated fails.  [MeshReceiver.handle_fragment] keeps the text
    first stored for an index: after fragment 0 of 2 arrives as ["a"] and
    then as ["b"], the stored text is still ["a"].  In [add_frag] the
    total of the duplicate replaces the recorded one: with fragment 0 of 2
    stored, the same index delivered as 0 of 1 completes the set. *)
Lemma C9_counterexample :
  let r0 := MeshReceiver.Receiver ∅ (MeshReceiver.MkReceptionStats 0 0 0 0 0)
              ∅ [] in
  let clk := MeshReceiver.Clock 5 "t" in
  let r1 := MeshReceiver.handle_fragment clk "Node_1" "FRAG:0:2:a" r0 in
  let r2 := MeshReceiver.handle_fragment clk "Node_1" "FRAG:0:2:b" r1 in
  let m1 := (LoraTransceiver.add_frag ∅ "n1" 7 0 2 "a").1 in
  (MeshReceiver.received_chunks <$> MeshReceiver.fragments r2 !! ("Node_1", 2))
    = Some {[0 := "a"]}
  ∧ LoraTransceiver.tot <$> m1 !! ("n1", 7) = Some 2
  ∧ LoraTransceiver.add_frag m1 "n1" 7 0 1 "b" = (∅, Py.Ret (Some "b")).
Proof. vm_compute. repeat split; reflexivity. Qed.

(* ===================================================================== *)
(** ** [FileChunkAssembler.add_chunk] *)
(* ===================================================================== *)

Section add_chunk_facts.
Import Py LoraTransceiver.

(** [add_chunk] of [lora_transceiver.py] in terms of the chunks stored for
    the name. *)
Lemma add_chunk_eq fname idx tot_ c st :
  let ch := <[idx := c]> (stored (files st) fname) in
  let pending := RxState (messages st) (<[fname := Entry tot_ ch]> (files st))
                   (disk st) (out st ++ [got_line fname idx tot_]) in
  let removed := RxState (messages st) (delete fname (files st))
                   (disk st) (out st ++ [got_line fname idx tot_]) in
  add_chunk fname idx tot_ c st =
    if Z.of_nat (size ch) =? tot_ then
      match ordered ch (range tot_) with
      | Raise x => (pending, Raise x)
      | Ret l =>
          match Base64.b64decode (join l) with
          | None =>
              (print ("[ERROR] Base64 decode failed for '" +:+ fname +:+ "'")
                 removed, Ret ())
          | Some raw =>
              let st2 := print ("[OK] Reassembled and wrote "
                                  +:+ str (Z.of_nat (length raw))
                                  +:+ " bytes to '" +:+ stamped fname +:+ "'")
                           (write_bytes (stamped fname) raw removed) in
              if startswith (PathLib.stem fname) "_tmp_text_to_send" then
                (print ("[RX TEXT] Full received text ("
                          +:+ str (Z.of_nat (length (decode raw))) +:+ " chars):" +:+ nl
                          +:+ text (decode raw)) st2, Ret ())
              else (st2, Ret ())
          end
      end
    else (pending, Ret ()).
Proof.
  intros ch pending removed. unfold add_chunk, stored in *.
  destruct (files st !! fname) as [e|] eqn:Hk.
  - rewrite Hk. cbn [default from_option id tot chunks]. fold ch.
    unfold set_files, print. cbn [messages files disk out].
    fold (got_line fname idx tot_). fold pending.
    destruct (_ =? _); [|done].
    destruct (ordered _ _); [|done].
    rewrite delete_insert_eq. fold removed. done.
  - rewrite lookup_insert_eq. cbn [default from_option id tot chunks]. fold ch.
    rewrite insert_insert_eq.
    unfold set_files, print. cbn [messages files disk out].
    fold (got_line fname idx tot_). fold pending.
    destruct (_ =? _); [|done].
    destruct (ordered _ _); [|done].
    rewrite delete_insert_eq. fold removed. done.
Qed.

(** The same for [add_chunk] of [rx_receive_file.py]. *)
Lemma rx_add_chunk_eq fname idx tot_ c st :
  let ch := <[idx := c]> (stored (files st) fname) in
  let pending := RxState (messages st) (<[fname := Entry tot_ ch]> (files st))
                   (disk st) (out st ++ [got_line fname idx tot_]) in
  let removed := RxState (messages st) (delete fname (files st))
                   (disk st) (out st ++ [got_line fname idx tot_]) in
  RxReceiveFile.add_chunk fname idx tot_ c st =
    if Z.of_nat (size ch) =? tot_ then
      match ordered ch (range tot_) with
      | Raise x => (pending, Raise x)
      | Ret l =>
          match Base64.b64decode (join l) with
          | None =>
              (print ("[ERROR] Base64 decode failed for '" +:+ fname +:+ "'")
                 removed, Ret ())
          | Some raw =>
              (print ("[OK] Reassembled and wrote "
                        +:+ str (Z.of_nat (length raw))
                        +:+ " bytes to '" +:+ stamped fname +:+ "'")
                 (write_bytes (stamped fname) raw removed), Ret ())
          end
      end
    else (pending, Ret ()).
Proof.
  intros ch pending removed. unfold RxReceiveFile.add_chunk, stored in *.
  destruct (files st !! fname) as [e|] eqn:Hk.
  - rewrite Hk. cbn [default from_option id tot chunks]. fold ch.
    unfold set_files, print. cbn [messages files disk out].
    fold (got_line fname idx tot_). fold pending.
    destruct (_ =? _); [|done].
    destruct (ordered _ _); [|done].
    rewrite delete_insert_eq. fold removed. done.
  - rewrite lookup_insert_eq. cbn [default from_option id tot chunks]. fold ch.
    rewrite insert_insert_eq.
    unfold set_files, print. cbn [messages files disk out].
    fold (got_line fname idx tot_). fold pending.
    destruct (_ =? _); [|done].
    destruct (ordered _ _); [|done].
    rewrite delete_insert_eq. fold removed. done.
Qed.

(** Delivering the missing pieces of a file, each once, in any order: the
    last one completes the assembly, which is removed from the pending
    files; the decoded bytes are written under the stamped name, or nothing
    is written when the text does not decode. *)
Lemma deliver_chunks_missing fname (cs : list string) (todo : list nat) st :
  NoDup todo →
  (∀ i, i ∈ todo →
        (i < length cs)%nat ∧ stored (files st) fname !! Z.of_nat i = None) →
  (∀ j c, stored (files st) fname !! j = Some c →
          ∃ i : nat, j = Z.of_nat i ∧ cs !! i = Some c) →
  (size (stored (files st) fname) + length todo = length cs)%nat →
  todo ≠ [] →
  ∃ st',
    deliver_chunks fname (Z.of_nat (length cs)) (frags_in_order cs todo) st
    = (st', Ret ())
    ∧ kept st' =
        (messages st, delete fname (files st),
         match Base64.b64decode (join cs) with
         | Some raw => <[stamped fname := raw]> (disk st)
         | None => disk st
         end).
Proof.
  revert st.
  induction todo as [|i todo IH]; intros st Hnd Hin Hcs Hsz Hne; [done|].
  clear Hne. apply NoDup_cons in Hnd as [Hi Hnd].
  destruct (Hin i ltac:(left)) as [Hlt Hnone].
  destruct (cs !! i) as [c|] eqn:Hci;
    [|apply lookup_ge_None in Hci; lia].
  cbn [frags_in_order fmap list_fmap deliver_chunks]. rewrite Hci.
  cbn [default from_option id]. rewrite add_chunk_eq. cbv zeta.
  set (ch := <[Z.of_nat i := c]> (stored (files st) fname)).
  assert (size ch = S (size (stored (files st) fname))) as Hch
    by (by apply map_size_insert_None).
  assert (∀ j c', ch !! j = Some c' →
                  ∃ i' : nat, j = Z.of_nat i' ∧ cs !! i' = Some c') as Hcs'.
  { intros j c'. unfold ch. rewrite lookup_insert.
    case_decide as Hj; [|by apply Hcs].
    intros [= <-]. by exists i. }
  destruct todo as [|i2 todo].
  - simpl in Hsz.
    replace (Z.of_nat (size ch) =? Z.of_nat (length cs)) with true
      by (symmetry; apply Z.eqb_eq; lia).
    rewrite (ordered_complete ch cs Hcs') by lia.
    destruct (Base64.b64decode (join cs)) as [raw|].
    + destruct (startswith _ _); eexists; (split; [reflexivity|done]).
    + eexists; split; [reflexivity|done].
  - cbn [length] in Hsz.
    replace (Z.of_nat (size ch) =? Z.of_nat (length cs)) with false
      by (symmetry; apply Z.eqb_neq; lia).
    fold (frags_in_order cs (i2 :: todo)).
    match goal with |- context [deliver_chunks _ _ _ ?s] => set (st1 := s) end.
    destruct (IH st1) as (st' & Hrun & Hkept); [done | | | | done |].
    + intros i' Hi'. unfold st1. cbn [files]. rewrite stored_insert.
      cbn [chunks].
      destruct (Hin i' ltac:(by right)) as [? ?]. split; [done|].
      unfold ch. rewrite lookup_insert_ne; [done|].
      intros Heq. apply Nat2Z.inj in Heq. subst. done.
    + unfold st1. cbn [files]. rewrite stored_insert. exact Hcs'.
    + unfold st1. cbn [files]. rewrite stored_insert. cbn [chunks length]. lia.
    + exists st'. split; [exact Hrun|]. rewrite Hkept.
      unfold st1. cbn [messages files disk]. by rewrite delete_insert_eq.
Qed.

End add_chunk_facts.

Section round_trip_facts.
Import Py LoraTransceiver.

Lemma split_chunks_pos b64 n :
  0 < n →
  split_chunks b64 n
  = Ret ((λ i, slice b64 i (i + Z.to_nat n))
           <$> range_step (String.length b64) (Z.to_nat n)).
Proof.
  intros Hn. unfold split_chunks.
  destruct (n =? 0) eqn:H0; [apply Z.eqb_eq in H0; lia|].
  destruct (n <? 0) eqn:H1; [apply Z.ltb_lt in H1; lia|]. done.
Qed.

Lemma b64encode_empty bs : Base64.b64encode bs = "" → bs = [].
Proof. by destruct bs as [|b1 [|b2 [|b3 rest]]]. Qed.

Lemma join_nil_chunks b64 n :
  (0 < n)%nat →
  (λ i, slice b64 i (i + n)) <$> range_step (String.length b64) n = [] →
  b64 = "".
Proof.
  intros Hn Hnil. rewrite <- (join_range_step n b64 Hn). by rewrite Hnil.
Qed.

End round_trip_facts.

(** C1 (round trip).  For every payload [P] and every chunk size [S >= 1]
    (so for 1, 7 and 40000), the base64 text of [P] cut by [send_file] into
    [S]-character pieces joins back to that text and decodes to [P]; the
    pieces, delivered with their indices to the chunk assembler for a name
    that is not pending, leave nothing pending and, when there is at least
    one piece (the payload is not empty), persist exactly [P] under the
    stamped name.  An empty payload has no piece, and nothing is delivered.
    In particular [b"Hello"] cut at 4 gives [SGVs], [bG8=], and the payloads
    [FILECHUNK:test.txt:0:2:SGVs], [FILECHUNK:test.txt:1:2:bG8=] persist
    [test_rx.txt] with content [Hello]. *)
Theorem C1_round_trip
    (P : list byte) (S : Z) (fname : string) (st : LoraTransceiver.rx_state) :
  0 < S →
  LoraTransceiver.files st !! fname = None →
  (∃ cs,
     LoraTransceiver.split_chunks (Base64.b64encode P) S = Py.Ret cs
     ∧ Py.join cs = Base64.b64encode P
     ∧ Base64.b64decode (Py.join cs) = Some P
     ∧ (cs = [] ↔ P = [])
     ∧ ∃ st',
         deliver_chunks fname (Z.of_nat (length cs)) (indexed cs) st
         = (st', Py.Ret ())
         ∧ kept st' =
             (LoraTransceiver.messages st, LoraTransceiver.files st,
              match P with
              | [] => LoraTransceiver.disk st
              | _ => <[LoraTransceiver.stamped fname := P]>
                       (LoraTransceiver.disk st)
              end))
  ∧ (let st0 := LoraTransceiver.RxState ∅ ∅ ∅ [] in
     let st1 := (LoraTransceiver.handle_full_payload
                   "FILECHUNK:test.txt:0:2:SGVs" st0).1 in
     let st2 := (LoraTransceiver.handle_full_payload
                   "FILECHUNK:test.txt:1:2:bG8=" st1).1 in
     LoraTransceiver.split_chunks (Base64.b64encode (Py.encode "Hello")) 4
     = Py.Ret ["SGVs"; "bG8="]
     ∧ map_to_list (LoraTransceiver.disk st1) = []
     ∧ map_to_list (LoraTransceiver.files st2) = []
     ∧ map_to_list (LoraTransceiver.disk st2)
       = [("test_rx.txt", Py.encode "Hello")]).
Proof.
  intros HS Hfree. split; [|vm_compute; repeat split; reflexivity].
  set (b64 := Base64.b64encode P).
  set (n := Z.to_nat S).
  assert (0 < n)%nat as Hn by (unfold n; lia).
  set (cs := (λ i, Py.slice b64 i (i + n)) <$> Py.range_step (String.length b64) n).
  assert (Py.join cs = b64) as Hjoin by (by apply join_range_step).
  assert (cs = [] ↔ P = []) as Hnil.
  { split.
    - intros Hcs. apply b64encode_empty. fold b64. by eapply join_nil_chunks.
    - intros ->. unfold cs, b64. simpl. unfold Py.range_step.
      rewrite Nat.div_small by lia. done. }
  exists cs. split; [by apply split_chunks_pos|].
  split; [done|]. split; [rewrite Hjoin; apply b64decode_b64encode|].
  split; [done|].
  destruct P as [|b P'].
  - rewrite (proj2 Hnil eq_refl). eexists. split; [reflexivity|done].
  - assert (cs ≠ []) as Hne by (intros Hc; by apply Hnil in Hc).
    destruct (deliver_chunks_missing fname cs (seq 0 (length cs)) st)
      as (st' & Hrun & Hkept).
    + apply NoDup_seq.
    + intros i Hi. apply elem_of_seq in Hi. split; [lia|].
      by rewrite stored_None.
    + intros j c. by rewrite stored_None.
    + rewrite stored_None by done. rewrite map_size_empty, length_seq. lia.
    + destruct cs; [done|]. done.
    + exists st'. split; [exact Hrun|]. rewrite Hkept, Hjoin.
      unfold b64. rewrite b64decode_b64encode.
      by rewrite delete_id.
Qed.

(** C1 on the payload [Hello] cut at 7 characters. *)
Lemma C1_round_trip_witness :
  (∃ cs,
     LoraTransceiver.split_chunks (Base64.b64encode (Py.encode "Hello")) 7
     = Py.Ret cs
     ∧ Py.join cs = Base64.b64encode (Py.encode "Hello")
     ∧ Base64.b64decode (Py.join cs) = Some (Py.encode "Hello")
     ∧ (cs = [] ↔ Py.encode "Hello" = [])
     ∧ ∃ st',
         deliver_chunks "test.txt" (Z.of_nat (length cs)) (indexed cs)
           (LoraTransceiver.RxState ∅ ∅ ∅ [])
         = (st', Py.Ret ())
         ∧ kept st' =
             (∅, ∅, <[LoraTransceiver.stamped "test.txt" := Py.encode "Hello"]> ∅))
  ∧ (let st0 := LoraTransceiver.RxState ∅ ∅ ∅ [] in
     let st1 := (LoraTransceiver.handle_full_payload
                   "FILECHUNK:test.txt:0:2:SGVs" st0).1 in
     let st2 := (LoraTransceiver.handle_full_payload
                   "FILECHUNK:test.txt:1:2:bG8=" st1).1 in
     LoraTransceiver.split_chunks (Base64.b64encode (Py.encode "Hello")) 4
     = Py.Ret ["SGVs"; "bG8="]
     ∧ map_to_list (LoraTransceiver.disk st1) = []
     ∧ map_to_list (LoraTransceiver.files st2) = []
     ∧ map_to_list (LoraTransceiver.disk st2)
       = [("test_rx.txt", Py.encode "Hello")]).
Proof.
  apply (C1_round_trip (Py.encode "Hello") 7 "test.txt"
           (LoraTransceiver.RxState ∅ ∅ ∅ [])).
  - lia.
  - reflexivity.
Defined.

(** C8 (decode failure).  When a piece completes an assembly (the number
    of stored chunks equals the total and every index is present) and the
    joined text does not base64-decode, [add_chunk] prints the error line,
    removes the pending entry and writes nothing: the files of the output
    directory are left as they were.  Both [lora_transceiver.py] and
    [rx_receive_file.py] behave so. *)
Theorem C8_decode_failure
    (fname : string) (idx tot_ : Z) (c : string)
    (st : LoraTransceiver.rx_state) (l : list string) :
  let ch := <[idx := c]> (stored (LoraTransceiver.files st) fname) in
  Z.of_nat (size ch) = tot_ →
  LoraTransceiver.ordered ch (Py.range tot_) = Py.Ret l →
  Base64.b64decode (Py.join l) = None →
  let st' := LoraTransceiver.RxState
               (LoraTransceiver.messages st)
               (delete fname (LoraTransceiver.files st))
               (LoraTransceiver.disk st)
               (LoraTransceiver.out st
                  ++ [got_line fname idx tot_; decode_failed_line fname]) in
  LoraTransceiver.add_chunk fname idx tot_ c st = (st', Py.Ret ())
  ∧ RxReceiveFile.add_chunk fname idx tot_ c st = (st', Py.Ret ())
  ∧ LoraTransceiver.files st' !! fname = None
  ∧ LoraTransceiver.disk st' = LoraTransceiver.disk st.
Proof.
  intros ch Hsz Hord Hdec st'.
  apply Z.eqb_eq in Hsz.
  split; [|split; [|split]].
  - rewrite add_chunk_eq. cbv zeta. fold ch. rewrite Hsz, Hord, Hdec.
    unfold LoraTransceiver.print, st', decode_failed_line.
    cbn [LoraTransceiver.messages LoraTransceiver.files LoraTransceiver.disk
         LoraTransceiver.out].
    by rewrite <- app_assoc.
  - rewrite rx_add_chunk_eq. cbv zeta. fold ch. rewrite Hsz, Hord, Hdec.
    unfold LoraTransceiver.print, st', decode_failed_line.
    cbn [LoraTransceiver.messages LoraTransceiver.files LoraTransceiver.disk
         LoraTransceiver.out].
    by rewrite <- app_assoc.
  - apply lookup_delete_eq.
  - done.
Qed.

(** C8 on the second of two pieces [SGVs], [b]: the joined text [SGVsb]
    ends inside a group of four and does not decode. *)
Lemma C8_decode_failure_witness :
  let st := (LoraTransceiver.add_chunk "bad.bin" 0 2 "SGVs"
               (LoraTransceiver.RxState ∅ ∅ {["old_rx.bin" := []]} [])).1 in
  let st' := LoraTransceiver.RxState
               (LoraTransceiver.messages st)
               (delete "bad.bin" (LoraTransceiver.files st))
               (LoraTransceiver.disk st)
               (LoraTransceiver.out st
                  ++ [got_line "bad.bin" 1 2; decode_failed_line "bad.bin"]) in
  LoraTransceiver.add_chunk "bad.bin" 1 2 "b" st = (st', Py.Ret ())
  ∧ RxReceiveFile.add_chunk "bad.bin" 1 2 "b" st = (st', Py.Ret ())
  ∧ LoraTransceiver.files st' !! "bad.bin" = None
  ∧ LoraTransceiver.disk st' = LoraTransceiver.disk st.
Proof.
  apply (C8_decode_failure "bad.bin" 1 2 "b"
           (LoraTransceiver.add_chunk "bad.bin" 0 2 "SGVs"
              (LoraTransceiver.RxState ∅ ∅ {["old_rx.bin" := []]} [])).1
           ["SGVs"; "b"]).
  - reflexivity.
  - reflexivity.
  - reflexivity.
Defined.

(* ===================================================================== *)
(** ** Output names *)
(* ===================================================================== *)

Section naming_facts.
Import Py MeshReceiver.

Lemma length_app_s (a b : string) :
  String.length (a +:+ b) = (String.length a + String.length b)%nat.
Proof. induction a as [|c a IH]; [done|]. rewrite app_cons. simpl. by rewrite IH. Qed.

Lemma app_inj_r (a b s : string) : a +:+ s = b +:+ s → a = b.
Proof.
  revert b; induction a as [|c a IH]; intros [|d b] Heq.
  - done.
  - apply (f_equal String.length) in Heq.
    rewrite !length_app_s in Heq. simpl in Heq. lia.
  - apply (f_equal String.length) in Heq.
    rewrite !length_app_s in Heq. simpl in Heq. lia.
  - rewrite !app_cons in Heq. injection Heq as -> Heq. f_equal. by apply IH.
Qed.

Global Instance numbered_inj base_name suffix : Inj (=) (=) (numbered base_name suffix).
Proof.
  intros k1 k2 Heq. unfold numbered in Heq.
  apply (inj (String.app base_name)) in Heq.
  apply (inj (String.app "_")) in Heq.
  apply app_inj_r in Heq. unfold str in Heq. by apply (inj pretty) in Heq.
Qed.

(** The name the loop settles on does not exist: it is the first path
    when that is free, and otherwise the first free numbered name. *)
Lemma free_path_first fuel (disk : gmap string (list byte)) base_name suffix
    counter path q :
  free_path fuel disk base_name suffix counter path = Some q →
  disk !! q = None
  ∧ (q = path
     ∨ ∃ k, counter ≤ k ∧ q = numbered base_name suffix k
            ∧ is_Some (disk !! path)
            ∧ ∀ j, counter ≤ j < k →
                   is_Some (disk !! numbered base_name suffix j)).
Proof.
  revert counter path; induction fuel as [|fuel IH]; intros counter path; simpl.
  - destruct (disk !! path) eqn:Hp; [done|]. intros [= <-]. auto.
  - destruct (disk !! path) eqn:Hp.
    + intros Hq. apply IH in Hq as [Hnone [->|(k & Hk & -> & Hex & Hall)]].
      * split; [done|]. right. exists counter.
        split; [lia|]. split; [done|]. split; [by eexists|]. intros j Hj. lia.
      * split; [done|]. right. exists k.
        split; [lia|]. split; [done|]. split; [by eexists|].
        intros j Hj. destruct (decide (j = counter)) as [->|Hne]; [done|].
        apply Hall. lia.
    + intros [= <-]. auto.
Qed.

Lemma free_path_None_path fuel (disk : gmap string (list byte)) base_name
    suffix counter path :
  free_path fuel disk base_name suffix counter path = None →
  is_Some (disk !! path).
Proof. destruct fuel; simpl; destruct (disk !! path); by eauto. Qed.

(** When the loop runs out of names, every name it tried exists. *)
Lemma free_path_None fuel (disk : gmap string (list byte)) base_name suffix
    counter path :
  free_path fuel disk base_name suffix counter path = None →
  ∀ k, counter ≤ k < counter + Z.of_nat fuel →
       is_Some (disk !! numbered base_name suffix k).
Proof.
  revert counter path; induction fuel as [|fuel IH]; intros counter path; simpl.
  - intros _ k Hk. lia.
  - destruct (disk !! path) eqn:Hp; [|done].
    intros Hn k Hk.
    destruct (decide (k = counter)) as [->|Hne].
    + by apply free_path_None_path in Hn.
    + apply (IH _ _ Hn). lia.
Qed.

(** With one more name than the directory has files, the loop finds a
    name. *)
Lemma free_path_total (disk : gmap string (list byte)) base_name suffix
    counter path :
  is_Some (free_path (S (size disk)) disk base_name suffix counter path).
Proof.
  destruct (free_path _ _ _ _ _ _) as [q|] eqn:Hf; [by eexists|].
  exfalso.
  pose proof (free_path_None _ _ _ _ _ _ Hf) as Hall.
  set (names := numbered base_name suffix
                  <$> seqZ counter (Z.of_nat (S (size disk)))).
  assert (NoDup names) as Hnd.
  { apply NoDup_fmap_2; [apply _ | apply NoDup_seqZ]. }
  assert ((list_to_set names : gset string) ⊆ dom disk) as Hsub.
  { intros x Hx. apply elem_of_list_to_set in Hx.
    apply list_elem_of_fmap in Hx as (k & -> & Hk).
    apply elem_of_seqZ in Hk. apply elem_of_dom, Hall. lia. }
  apply subseteq_size in Hsub.
  rewrite size_list_to_set in Hsub by done.
  rewrite size_dom in Hsub. unfold names in Hsub.
  rewrite length_fmap, length_seqZ in Hsub. lia.
Qed.

(** The path [handle_file] writes to does not exist. *)
Lemma chosen_path_free (disk : gmap string (list byte)) filename q :
  chosen_path disk filename = Some q → disk !! q = None ∧ accepted q = true.
Proof.
  unfold chosen_path.
  destruct (resolve filename) as [c| | |]; try done.
  - destruct (free_path _ _ _ _ _ _) as [p|] eqn:Hp; [|done].
    destruct (accepted p) eqn:Ha; [|done]. intros [= <-].
    by apply free_path_first in Hp as [Hnone _].
  - destruct (free_path _ _ _ _ _ _) as [p|] eqn:Hp; [|done].
    destruct (accepted p) eqn:Ha; [|done]. intros [= <-].
    by apply free_path_first in Hp as [Hnone _].
Qed.

(** The parts of a name that names an entry. *)
Lemma resolve_Entry filename c :
  resolve filename = Entry c → PathLib.parts filename = [c].
Proof.
  unfold resolve. destruct (startswith filename "/"); [done|].
  destruct (PathLib.parts filename) as [|c1 [|c2 l]]; [done| |].
  - destruct (String.eqb c1 ".."); [done|]. by intros [= ->].
  - by destruct (String.eqb c1 "..").
Qed.

(** For a name that names an entry, the loop ends at that entry when it
    is free and otherwise at the first free numbered name; the file is
    written there if the file system accepts the name. *)
Lemma chosen_path_Entry (disk : gmap string (list byte)) filename c :
  resolve filename = Entry c →
  ∃ q, disk !! q = None
       ∧ (q = c
          ∨ ∃ k, 1 ≤ k
                 ∧ q = numbered (PathLib.stem filename) (PathLib.suffix filename) k
                 ∧ is_Some (disk !! c)
                 ∧ ∀ j, 1 ≤ j < k →
                        is_Some (disk !! numbered (PathLib.stem filename)
                                           (PathLib.suffix filename) j))
       ∧ chosen_path disk filename = if accepted q then Some q else None.
Proof.
  intros Hres. unfold chosen_path. rewrite Hres.
  rewrite (resolve_Entry _ _ Hres).
  destruct (free_path_total disk (PathLib.stem filename)
              (PathLib.suffix filename) 1 c) as [q Hq].
  rewrite Hq. pose proof (free_path_first _ _ _ _ _ _ _ Hq) as [Hnone Hshape].
  exists q. split; [done|]. split; [done|]. done.
Qed.

(** A name that names a free entry which the file system accepts is the
    path written to. *)
Lemma chosen_path_free_entry (disk : gmap string (list byte)) filename c :
  resolve filename = Entry c →
  disk !! c = None →
  accepted c = true →
  chosen_path disk filename = Some c.
Proof.
  intros Hres Hfree Hacc. unfold chosen_path.
  rewrite Hres, (resolve_Entry _ _ Hres). cbn [free_path].
  by rewrite Hfree, Hacc.
Qed.

(** [handle_file] in terms of the path it writes to. *)
Lemma handle_file_disk source_ payload r tag filename s_size b64 size_ data :
  split ":" 3 payload = [tag; filename; s_size; b64] →
  int s_size = Some size_ →
  Base64.b64decode b64 = Some data →
  disk (handle_file source_ payload r)
  = match chosen_path (disk r) filename with
    | Some q => <[q := data]> (disk r)
    | None => disk r
    end.
Proof.
  intros Hs Hi Hd. unfold handle_file. rewrite Hs, Hi, Hd.
  cbn [disk print].
  destruct (chosen_path (disk r) filename) as [q|]; [|done].
  by destruct (_ =? _).
Qed.

(** [handle_file] never changes a file that exists. *)
Lemma handle_file_keeps source_ payload r p c :
  disk r !! p = Some c → disk (handle_file source_ payload r) !! p = Some c.
Proof.
  intros Hp. unfold handle_file.
  destruct (split ":" 3 payload) as [|? [|filename [|s_size [|b64 [|? ?]]]]];
    try done.
  destruct (int s_size) as [size_|]; [|done].
  destruct (Base64.b64decode b64) as [data|]; [|done].
  cbn [disk print].
  destruct (chosen_path (disk r) filename) as [q|] eqn:Hq; [|done].
  apply chosen_path_free in Hq as [Hnone _].
  assert (disk (set_disk (<[q := data]> (disk r))
                  (print ("[FILE] Size: " +:+ str size_ +:+ " bytes")
                     (print ("[FILE] Name: " +:+ filename)
                        (print (nl +:+ "[FILE] Receiving file from " +:+ source_) r))))
            !! p = Some c) as Hkeep.
  { cbn [disk set_disk print]. rewrite lookup_insert_ne; [done|].
    intros ->. congruence. }
  destruct (_ =? _); exact Hkeep.
Qed.

(** A file that parses and decodes, under a name that names an entry of
    the directory, goes to that entry when it is free and otherwise to
    the first free numbered name, if the file system accepts the name;
    nothing is written otherwise. *)
Lemma handle_file_new source_ payload r tag filename s_size b64 size_ data c :
  split ":" 3 payload = [tag; filename; s_size; b64] →
  int s_size = Some size_ →
  Base64.b64decode b64 = Some data →
  resolve filename = Entry c →
  ∃ q, disk r !! q = None
       ∧ (q = c
          ∨ ∃ k, 1 ≤ k
                 ∧ q = numbered (PathLib.stem filename) (PathLib.suffix filename) k
                 ∧ is_Some (disk r !! c)
                 ∧ ∀ j, 1 ≤ j < k →
                        is_Some (disk r !! numbered (PathLib.stem filename)
                                             (PathLib.suffix filename) j))
       ∧ disk (handle_file source_ payload r)
         = if accepted q then <[q := data]> (disk r) else disk r.
Proof.
  intros Hs Hi Hd Hres.
  rewrite (handle_file_disk _ _ _ _ _ _ _ _ _ Hs Hi Hd).
  destruct (chosen_path_Entry (disk r) filename c Hres) as (q & Hnone & Hshape & ->).
  exists q. split; [done|]. split; [done|]. by destruct (accepted q).
Qed.

End naming_facts.

(** C4, as the code has it.  In [lora_transceiver.py] and
    [rx_receive_file.py] an assembly that completes and decodes (FILECHUNK
    path), and a one-shot [FILE:] payload that decodes, are written to the
    file [<stem>_rx<suffix>] of the transmitted name, which is created or
    replaced (the write is taken to succeed): the name depends on the
    transmitted name only.  In
    [mesh_receiver.py], [handle_file] leaves every existing file of the
    output directory as it is.  When the transmitted name names an entry
    [c] of that directory, the decoded bytes go to [c] if no such file
    exists, and otherwise to the first of [<stem>_<k><suffix>],
    [k = 1, 2, ...], that does not exist, provided the file system accepts
    that name; if it does not, nothing is written. *)
Theorem C4_output_names
    (fname : string) (idx tot_ : Z) (c : string)
    (st : LoraTransceiver.rx_state) (l : list string) (raw : list byte)
    (payload tag fname' b64 : string) (raw' : list byte)
    (r : MeshReceiver.receiver)
    (source mpayload mtag filename s_size mb64 : string) (size_ : Z)
    (data : list byte) (entry : string) :
  let ch := <[idx := c]> (stored (LoraTransceiver.files st) fname) in
  Z.of_nat (size ch) = tot_ →
  LoraTransceiver.ordered ch (Py.range tot_) = Py.Ret l →
  Base64.b64decode (Py.join l) = Some raw →
  Py.startswith payload "FILECHUNK:" = false →
  Py.startswith payload "FILE:" = true →
  Py.split ":" 2 payload = [tag; fname'; b64] →
  Base64.b64decode b64 = Some raw' →
  Py.split ":" 3 mpayload = [mtag; filename; s_size; mb64] →
  Py.int s_size = Some size_ →
  Base64.b64decode mb64 = Some data →
  MeshReceiver.resolve filename = MeshReceiver.Entry entry →
  (LoraTransceiver.disk (LoraTransceiver.add_chunk fname idx tot_ c st).1
   = <[LoraTransceiver.stamped fname := raw]> (LoraTransceiver.disk st)
   ∧ LoraTransceiver.disk (RxReceiveFile.add_chunk fname idx tot_ c st).1
     = <[LoraTransceiver.stamped fname := raw]> (LoraTransceiver.disk st)
   ∧ LoraTransceiver.disk (LoraTransceiver.handle_full_payload payload st).1
     = <[LoraTransceiver.stamped fname' := raw']> (LoraTransceiver.disk st)
   ∧ LoraTransceiver.disk (RxReceiveFile.handle_full_payload payload st).1
     = <[LoraTransceiver.stamped fname' := raw']> (LoraTransceiver.disk st)
   ∧ LoraTransceiver.stamped fname
     = PathLib.stem fname +:+ "_rx" +:+ PathLib.suffix fname)
  ∧ (∀ p x, MeshReceiver.disk r !! p = Some x →
            MeshReceiver.disk (MeshReceiver.handle_file source mpayload r) !! p
            = Some x)
  ∧ ∃ q, MeshReceiver.disk r !! q = None
         ∧ (q = entry
            ∨ ∃ k, 1 ≤ k
                   ∧ q = numbered (PathLib.stem filename)
                           (PathLib.suffix filename) k
                   ∧ is_Some (MeshReceiver.disk r !! entry)
                   ∧ ∀ j, 1 ≤ j < k →
                          is_Some (MeshReceiver.disk r
                                     !! numbered (PathLib.stem filename)
                                          (PathLib.suffix filename) j))
         ∧ MeshReceiver.disk (MeshReceiver.handle_file source mpayload r)
           = if MeshReceiver.accepted q
             then <[q := data]> (MeshReceiver.disk r)
             else MeshReceiver.disk r.
Proof.
  intros ch Hsz Hord Hdec Hnc Hf Hsplit Hdec' Hms Hmi Hmd Hres.
  apply Z.eqb_eq in Hsz.
  split; [split; [|split; [|split; [|split]]]|split].
  - rewrite add_chunk_eq. cbv zeta. fold ch. rewrite Hsz, Hord, Hdec.
    destruct (Py.startswith (PathLib.stem fname) _); reflexivity.
  - rewrite rx_add_chunk_eq. cbv zeta. fold ch. rewrite Hsz, Hord, Hdec.
    reflexivity.
  - unfold LoraTransceiver.handle_full_payload.
    rewrite Hnc, Hf, Hsplit, Hdec'. reflexivity.
  - unfold RxReceiveFile.handle_full_payload.
    rewrite Hnc, Hf, Hsplit, Hdec'. reflexivity.
  - done.
  - intros p x. apply handle_file_keeps.
  - by eapply handle_file_new.
Qed.

(** C4 on one piece that completes [test.txt], a one-shot [FILE:] payload,
    and a mesh file whose name [a.txt] is taken, as is [a_1.txt]: the
    bytes go to [a_2.txt]. *)
Lemma C4_output_names_witness :
  let st := LoraTransceiver.RxState ∅ ∅ {["test_rx.txt" := Py.encode "Hello"]} [] in
  let r := MeshReceiver.Receiver ∅ (MeshReceiver.MkReceptionStats 0 0 0 0 0)
             (<["a_1.txt" := []]> {["a.txt" := Py.encode "Hello"]}) [] in
  (LoraTransceiver.disk
     (LoraTransceiver.add_chunk "test.txt" 0 1 "V29ybGQ=" st).1
   = <[LoraTransceiver.stamped "test.txt" := Py.encode "World"]>
       (LoraTransceiver.disk st)
   ∧ LoraTransceiver.disk
       (RxReceiveFile.add_chunk "test.txt" 0 1 "V29ybGQ=" st).1
     = <[LoraTransceiver.stamped "test.txt" := Py.encode "World"]>
         (LoraTransceiver.disk st)
   ∧ LoraTransceiver.disk
       (LoraTransceiver.handle_full_payload "FILE:test.txt:V29ybGQ=" st).1
     = <[LoraTransceiver.stamped "test.txt" := Py.encode "World"]>
         (LoraTransceiver.disk st)
   ∧ LoraTransceiver.disk
       (RxReceiveFile.handle_full_payload "FILE:test.txt:V29ybGQ=" st).1
     = <[LoraTransceiver.stamped "test.txt" := Py.encode "World"]>
         (LoraTransceiver.disk st)
   ∧ LoraTransceiver.stamped "test.txt"
     = PathLib.stem "test.txt" +:+ "_rx" +:+ PathLib.suffix "test.txt")
  ∧ (∀ p x, MeshReceiver.disk r !! p = Some x →
            MeshReceiver.disk
              (MeshReceiver.handle_file "Node_1" "FILE:a.txt:5:V29ybGQ=" r) !! p
            = Some x)
  ∧ ∃ q, MeshReceiver.disk r !! q = None
         ∧ (q = "a.txt"
            ∨ ∃ k, 1 ≤ k
                   ∧ q = numbered (PathLib.stem "a.txt")
                           (PathLib.suffix "a.txt") k
                   ∧ is_Some (MeshReceiver.disk r !! "a.txt")
                   ∧ ∀ j, 1 ≤ j < k →
                          is_Some (MeshReceiver.disk r
                                     !! numbered (PathLib.stem "a.txt")
                                          (PathLib.suffix "a.txt") j))
         ∧ MeshReceiver.disk
             (MeshReceiver.handle_file "Node_1" "FILE:a.txt:5:V29ybGQ=" r)
           = if MeshReceiver.accepted q
             then <[q := Py.encode "World"]> (MeshReceiver.disk r)
             else MeshReceiver.disk r.
Proof.
  apply (C4_output_names "test.txt" 0 1 "V29ybGQ="
           (LoraTransceiver.RxState ∅ ∅ {["test_rx.txt" := Py.encode "Hello"]} [])
           ["V29ybGQ="] (Py.encode "World")
           "FILE:test.txt:V29ybGQ=" "FILE" "test.txt" "V29ybGQ="
           (Py.encode "World")
           (MeshReceiver.Receiver ∅ (MeshReceiver.MkReceptionStats 0 0 0 0 0)
              (<["a_1.txt" := []]> {["a.txt" := Py.encode "Hello"]}) [])
           "Node_1" "FILE:a.txt:5:V29ybGQ=" "FILE" "a.txt" "5" "V29ybGQ=" 5
           (Py.encode "World") "a.txt"); reflexivity.
Defined.

(** C4 as stated fails in [lora_transceiver.py]: two completed transfers of
    [test.txt], the first carrying [Hello] and the second [World], leave one
    file [test_rx.txt] holding [World]; the bytes of the first reception
    are gone.  The same holds on the one-shot [FILE:] path. *)
Lemma C4_counterexample :
  let st0 := LoraTransceiver.RxState ∅ ∅ ∅ [] in
  let st1 := (LoraTransceiver.handle_full_payload
                "FILECHUNK:test.txt:0:1:SGVsbG8=" st0).1 in
  let st2 := (LoraTransceiver.handle_full_payload
                "FILECHUNK:test.txt:0:1:V29ybGQ=" st1).1 in
  let su1 := (LoraTransceiver.handle_full_payload "FILE:test.txt:SGVsbG8=" st0).1 in
  let su2 := (LoraTransceiver.handle_full_payload "FILE:test.txt:V29ybGQ=" su1).1 in
  map_to_list (LoraTransceiver.disk st1) = [("test_rx.txt", Py.encode "Hello")]
  ∧ map_to_list (LoraTransceiver.disk st2) = [("test_rx.txt", Py.encode "World")]
  ∧ map_to_list (LoraTransceiver.disk su1) = [("test_rx.txt", Py.encode "Hello")]
  ∧ map_to_list (LoraTransceiver.disk su2) = [("test_rx.txt", Py.encode "World")].
Proof. vm_compute. repeat split; reflexivity. Qed.

(* ===================================================================== *)
(** ** The readers on rejected lines *)
(* ===================================================================== *)

Section reader_facts.
Import Py LoraTransceiver.

(** A line with too few fields falls through the pattern that names the
    fields: case analysis on the list [l] of fields, [Hlen] bounding its
    length. *)
Ltac by_field_count l Hlen :=
  destruct l as [|? [|? [|? [|? [|? [|? [|? [|? [|? ?]]]]]]]]];
  simpl in Hlen; try reflexivity; lia.

Lemma frag_not_msg line :
  startswith line "FRAG," = true → startswith line "MSG," = false.
Proof.
  destruct line as [|c line]; [done|]. cbn [startswith].
  destruct (Ascii.eqb "F" c) eqn:Hc; [|done].
  apply Ascii.eqb_eq in Hc as <-. done.
Qed.

(** [rx_receive_file.py] on a rejected [FRAG] line. *)
Lemma rx_handle_malformed_frag line st :
  malformed_frag line →
  ∃ w, RxReceiveFile.handle_line line st = (print w st, Ret ())
       ∧ rx_warning line w.
Proof.
  intros [Hf Hbad]. unfold RxReceiveFile.handle_line.
  rewrite (frag_not_msg line Hf), Hf.
  destruct Hbad as [Hlen|(tag & src & seq_ & idx & tot_ & rssi & d_m & chunk
                          & Hs & Hint)].
  - exists ("[WARN] Bad FRAG line: " +:+ line). split; [|right; by left].
    by_field_count (split "," 7 line) Hlen.
  - exists ("[WARN] Non-integer seq/idx/tot in FRAG: " +:+ line).
    split; [|right; by right]. rewrite Hs.
    destruct Hint as [-> | [-> | ->]].
    + done.
    + by destruct (int seq_).
    + by destruct (int seq_), (int idx).
Qed.

(** [rx_receive_file.py] on a rejected [MSG] line. *)
Lemma rx_handle_malformed_msg line st :
  malformed_msg line →
  RxReceiveFile.handle_line line st
  = (print ("[WARN] Bad MSG line: " +:+ line) st, Ret ()).
Proof.
  intros [Hm Hlen]. unfold RxReceiveFile.handle_line. rewrite Hm.
  by_field_count (split "," 5 line) Hlen.
Qed.

(** [lora_transceiver.py] on a rejected line: nothing but the printed
    lines can change. *)
Lemma lora_handle_malformed cfg line st :
  malformed_frag line ∨ malformed_msg line →
  ∃ st', _handle_rx_line cfg line st = (st', Ret ()) ∧ kept st' = kept st.
Proof.
  unfold _handle_rx_line. intros [[Hf Hbad] | [Hm Hlen]].
  - rewrite (frag_not_msg line Hf), Hf.
    destruct Hbad as [Hlen|(tag & src & seq_ & idx & tot_ & rssi & d_m & chunk
                            & Hs & Hint)].
    + exists st. split; [|done].
      by_field_count (split "," 7 line) Hlen.
    + exists (_log cfg ("[WARN] Bad FRAG ints: " +:+ take 120 line) st).
      split; [|unfold _log; by destruct (_ || _)].
      rewrite Hs. destruct Hint as [-> | [-> | ->]].
      * done.
      * by destruct (int seq_).
      * by destruct (int seq_), (int idx).
  - rewrite Hm. exists st. split; [|done].
    by_field_count (split "," 5 line) Hlen.
Qed.

(** The reader thread on a rejected line: the line may still carry a
    completion marker, which only touches the completion slot. *)
Lemma lora_reader_malformed cfg line s :
  malformed_frag line ∨ malformed_msg line →
  ∃ s', reader_step cfg line s = (s', Ret ()) ∧ kept (rx s') = kept (rx s).
Proof.
  intros Hbad. unfold reader_step.
  assert (startswith line "MSG," || startswith line "FRAG," = true) as Htag.
  { destruct Hbad as [[-> _] | [-> _]]; [apply orb_true_r | done]. }
  destruct (String.eqb line "") eqn:He; [by eexists|].
  rewrite Htag, andb_false_r.
  destruct (contains "[TX DONE]" line); [by eexists|].
  destruct (contains "[ABORT]" line || contains "TX FAILED" line);
    [by eexists|].
  destruct (lora_handle_malformed cfg line (rx s) Hbad) as (st' & -> & Hk).
  eexists. split; [reflexivity | exact Hk].
Qed.

End reader_facts.

(** C7, as the code has it.  A [FRAG] line with fewer than seven fields
    after the tag or with a [seq], [idx] or [tot] that is not an integer,
    and a [MSG] line with fewer than five fields after the tag, is dropped:
    [rx_receive_file.py] prints one warning and changes nothing else;
    [lora_transceiver.py] changes neither the reassembly dictionaries nor
    the files, and raises nothing.  Both readers then go on with the next
    line.  ([MSG] fields are never read as integers, so a [MSG] line with
    a non-integer [seq] is an ordinary message.) *)
Theorem C7_malformed_line
    (line : string) (rest : list string)
    (st : LoraTransceiver.rx_state)
    (cfg : LoraTransceiver.config) (s : LoraTransceiver.session) :
  malformed_frag line ∨ malformed_msg line →
  (∃ w, RxReceiveFile.main_step line st = LoraTransceiver.print w st
        ∧ rx_warning line w
        ∧ RxReceiveFile.main_loop (line :: rest) st
          = RxReceiveFile.main_loop rest (LoraTransceiver.print w st))
  ∧ (∃ s', LoraTransceiver.reader_step cfg line s = (s', Py.Ret ())
           ∧ kept (LoraTransceiver.rx s') = kept (LoraTransceiver.rx s)
           ∧ LoraTransceiver._reader_loop cfg (line :: rest) s
             = LoraTransceiver._reader_loop cfg rest s').
Proof.
  intros Hbad. split.
  - assert (String.eqb line "" = false) as Hne.
    { destruct line; [|done]. by destruct Hbad as [[? _] | [? _]]. }
    assert (∃ w, RxReceiveFile.handle_line line st
                 = (LoraTransceiver.print w st, Py.Ret ())
                 ∧ rx_warning line w) as (w & Hw & Hwarn).
    { destruct Hbad as [Hf | Hm].
      - by apply rx_handle_malformed_frag.
      - eexists. split; [by apply rx_handle_malformed_msg | by left]. }
    assert (RxReceiveFile.main_step line st = LoraTransceiver.print w st) as Hstep.
    { unfold RxReceiveFile.main_step. by rewrite Hne, Hw. }
    exists w. split; [done|]. split; [done|].
    unfold RxReceiveFile.main_loop. simpl. by rewrite Hstep.
  - destruct (lora_reader_malformed cfg line s Hbad) as (s' & Hs' & Hk).
    exists s'. split; [done|]. split; [done|].
    simpl. by rewrite Hs'.
Qed.

(** C7 on the line [FRAG,a,b] of scenario D. *)
Lemma C7_malformed_line_witness :
  let st := LoraTransceiver.RxState ∅ ∅ ∅ [] in
  let cfg := LoraTransceiver.Config false false in
  let s := LoraTransceiver.Session st None false in
  let rest := ["MSG,n1,1,-50,3,hello"] in
  (∃ w, RxReceiveFile.main_step "FRAG,a,b" st = LoraTransceiver.print w st
        ∧ rx_warning "FRAG,a,b" w
        ∧ RxReceiveFile.main_loop ("FRAG,a,b" :: rest) st
          = RxReceiveFile.main_loop rest (LoraTransceiver.print w st))
  ∧ (∃ s', LoraTransceiver.reader_step cfg "FRAG,a,b" s = (s', Py.Ret ())
           ∧ kept (LoraTransceiver.rx s') = kept (LoraTransceiver.rx s)
           ∧ LoraTransceiver._reader_loop cfg ("FRAG,a,b" :: rest) s
             = LoraTransceiver._reader_loop cfg rest s').
Proof.
  apply (C7_malformed_line "FRAG,a,b" ["MSG,n1,1,-50,3,hello"]
           (LoraTransceiver.RxState ∅ ∅ ∅ [])
           (LoraTransceiver.Config false false)
           (LoraTransceiver.Session (LoraTransceiver.RxState ∅ ∅ ∅ []) None false)).
  left. split; [reflexivity|]. left. vm_compute. lia.
Defined.

(** C7 as stated fails.  A [MSG] line whose [seq] is not an integer is not
    dropped: both readers hand its text to the payload router, which here
    writes a file.  And [lora_transceiver.py] drops the line [FRAG,a,b]
    without printing anything. *)
Lemma C7_counterexample :
  let st := LoraTransceiver.RxState ∅ ∅ ∅ [] in
  let cfg := LoraTransceiver.Config false false in
  let line := "MSG,n1,abc,-50,3,FILE:a.txt:SGVsbG8=" in
  Py.int "abc" = None
  ∧ map_to_list (LoraTransceiver.disk (RxReceiveFile.main_step line st))
    = [("a_rx.txt", Py.encode "Hello")]
  ∧ map_to_list
      (LoraTransceiver.disk (LoraTransceiver._handle_rx_line cfg line st).1)
    = [("a_rx.txt", Py.encode "Hello")]
  ∧ LoraTransceiver.out (LoraTransceiver._handle_rx_line cfg "FRAG,a,b" st).1 = []
  ∧ LoraTransceiver.out
      (LoraTransceiver.rx
         (LoraTransceiver.reader_step cfg "FRAG,a,b"
            (LoraTransceiver.Session st None false)).1) = [].
Proof. vm_compute. repeat split; reflexivity. Qed.

(* ===================================================================== *)
(** ** [TransmissionStats] *)
(* ===================================================================== *)

Section stats_facts.
Import Py MeshInterface.




End stats_facts.




(* ===================================================================== *)
(** ** Outbound transfers *)
(* ===================================================================== *)

Section send_facts.
Import Py LoraTransceiver.

Lemma written_tx_log cfg s t : written (tx_log cfg s t) = written t.
Proof. unfold tx_log. by destruct (_ || _). Qed.

(** [send_file] stops at the first wait that does not succeed: the pieces
    up to that one have been written, once each, and no other. *)
Lemma send_chunks_stops cfg tx_name tot_ (oks : list wait_outcome) :
  ∀ (cs : list string) (idx : Z) (t : tx_state) (w : wait_outcome)
    (rest : list wait_outcome),
    Forall (λ o, succeeded o = true) oks →
    (length oks < length cs)%nat →
    succeeded w = false →
    ∃ t', send_chunks cfg tx_name tot_ idx cs (oks ++ w :: rest) t = (t', false)
          ∧ written t'
            = written t ++ firstn (S (length oks)) (lines_from tx_name tot_ idx cs).
Proof.
  induction oks as [|o oks IH]; intros cs idx t w rest Hok Hlen Hw.
  - destruct cs as [|c cs]; [simpl in Hlen; lia|].
    cbn [send_chunks app hd]. unfold succeeded in Hw. rewrite Hw.
    cbn [negb]. eexists. split; [reflexivity|].
    rewrite written_tx_log. unfold _write. cbn [written].
    rewrite written_tx_log. cbn [lines_from length firstn]. done.
  - destruct cs as [|c cs]; [simpl in Hlen; lia|].
    apply Forall_cons in Hok as [Ho Hok].
    cbn [send_chunks app hd tl]. unfold succeeded in Ho. rewrite Ho.
    cbn [negb].
    match goal with |- context [send_chunks _ _ _ _ _ _ ?s] => set (t1 := s) end.
    destruct (IH cs (idx + 1) t1 w rest Hok ltac:(simpl in Hlen; lia) Hw)
      as (t' & Hrun & Hwr).
    exists t'. split; [exact Hrun|]. rewrite Hwr.
    unfold t1, _write. cbn [written]. rewrite written_tx_log.
    cbn [lines_from length]. rewrite firstn_cons. by rewrite <- app_assoc.
Qed.

End send_facts.

Section mesh_send_facts.
Import Py MeshInterface.

(** The wait loop touches the counters only: on success one more chunk is
    sent; otherwise at most one more failure is counted. *)
Lemma wait_chunk_counts idx total lines i i' success :
  wait_chunk idx total lines i = (i', success) →
  commands i' = commands i
  ∧ (if success
     then sent_chunks (stats i') = sent_chunks (stats i) + 1
          ∧ failed_chunks (stats i') = failed_chunks (stats i)
     else sent_chunks (stats i') = sent_chunks (stats i)
          ∧ (failed_chunks (stats i') = failed_chunks (stats i)
             ∨ failed_chunks (stats i') = failed_chunks (stats i) + 1)).
Proof.
  revert i; induction lines as [|line lines IH]; intros i; cbn [wait_chunk].
  - intros [= <- <-]. cbn. auto.
  - destruct (String.eqb line ""); [apply IH|].
    destruct (contains "[CMD] Send completed" line).
    { intros [= <- <-]. cbn. auto. }
    destruct (_ || _).
    { intros [= <- <-]. cbn. auto. }
    intros Hw. apply IH in Hw. exact Hw.
Qed.

(** The loop of [send_fragmented_data]: failures are never forgotten, the
    commands attempted are the commands of the first chunks, each once and
    in order, an early return is a failure, and a run to the end without a
    counted failure has had every chunk confirmed. *)
Lemma send_loop_spec dest reliability total t_end (chunks : list string) :
  ∀ (idx : Z) (env : list chunk_env) (i i' : iface) (res : option bool),
    send_loop dest reliability total idx chunks env t_end i = (i', res) →
    failed_chunks (stats i) ≤ failed_chunks (stats i')
    ∧ (∃ n, (commands i').*1
            = (commands i).*1
              ++ firstn n (commands_from dest reliability total idx chunks))
    ∧ match res with
      | Some b => b = false
      | None =>
          0 ≤ failed_chunks (stats i) →
          failed_chunks (stats i') = 0 →
          sent_chunks (stats i')
          = sent_chunks (stats i) + Z.of_nat (length chunks)
          ∧ (commands i').*1
            = (commands i).*1 ++ commands_from dest reliability total idx chunks
      end.
Proof.
  induction chunks as [|chunk chunks IH]; intros idx env i i' res.
  - cbn [send_loop]. intros [= <- <-]. split; [lia|]. split.
    + exists 0%nat. by rewrite app_nil_r.
    + intros _ _. cbn [length commands_from]. rewrite app_nil_r. split; [lia|done].
  - cbn [send_loop]. unfold send_command.
    destruct (write_ok (hd (ChunkEnv true []) env)).
    + (* the command is written *)
      match goal with
      | |- context [wait_chunk ?a ?b ?c ?d] =>
          destruct (wait_chunk a b c d) as [i3 success] eqn:Hw
      end.
      apply wait_chunk_counts in Hw as [Hc Hcount].
      cbn [commands stats print] in Hc, Hcount.
      set (i4 := if negb success && (failed_chunks (stats i3) =? 0)
                 then incr_failed
                        (print ("[TX] Timeout for chunk " +:+ str (idx + 1)) i3)
                 else i3).
      assert (commands i4 = commands i3) as Hc4
        by (unfold i4; by destruct (_ && _)).
      assert (sent_chunks (stats i4) = sent_chunks (stats i3)) as Hs4
        by (unfold i4; by destruct (_ && _)).
      assert (failed_chunks (stats i3) ≤ failed_chunks (stats i4)
              ∧ (success = false → 0 ≤ failed_chunks (stats i3) →
                 0 < failed_chunks (stats i4))
              ∧ (success = true →
                 failed_chunks (stats i4) = failed_chunks (stats i3))) as Hf4.
      { unfold i4. destruct success; cbn [negb andb].
        - split; [lia|]. split; [done|done].
        - destruct (failed_chunks (stats i3) =? 0) eqn:H0.
          + apply Z.eqb_eq in H0. cbn. rewrite H0. lia.
          + apply Z.eqb_neq in H0. split; [lia|]. split; [lia|done]. }
      cbn [stats print sent_chunks failed_chunks].
      fold i4.
      destruct (too_many_failures (failed_chunks (stats i4)) total).
      * intros [= <- <-]. cbn [stats commands set_end_time set_stats print
                                failed_chunks].
        split; [destruct success; lia|]. split; [|done].
        exists 1%nat. rewrite Hc4, Hc, fmap_app. done.
      * intros Hrun. apply IH in Hrun as (Hmono & [n Hn] & Hres).
        cbn [stats commands print] in Hmono, Hn, Hres.
        split; [destruct success; lia|]. split.
        -- exists (S n). rewrite Hn, Hc4, Hc, fmap_app.
           cbn [commands_from firstn]. by rewrite <- app_assoc.
        -- destruct res as [b|]; [exact Hres|].
           intros Hpos Hzero.
           destruct success.
           ++ destruct Hcount as [Hsent Hfail].
              destruct Hf4 as (_ & _ & Hsame). specialize (Hsame eq_refl).
              destruct (Hres ltac:(lia) Hzero) as [Hs Hcmd].
              split.
              ** rewrite Hs, Hs4, Hsent. cbn [length]. lia.
              ** rewrite Hcmd, Hc4, Hc, fmap_app. cbn [commands_from].
                 by rewrite <- app_assoc.
           ++ destruct Hcount as [_ Hfail].
              destruct Hf4 as (_ & Hlt & _).
              specialize (Hlt eq_refl ltac:(lia)). lia.
    + (* the write fails *)
      intros Hrun. apply IH in Hrun as (Hmono & [n Hn] & Hres).
      cbn [stats commands print incr_failed set_stats failed_chunks
           sent_chunks] in Hmono, Hn, Hres.
      split; [lia|]. split.
      * exists (S n). rewrite Hn, fmap_app.
        cbn [commands_from firstn]. by rewrite <- app_assoc.
      * destruct res as [b|]; [exact Hres|]. intros Hpos Hzero. lia.
Qed.

End mesh_send_facts.

(** C5, as the code has it.  In [send_file] (the FILECHUNK path) a wait
    that times out has the outcome of an explicit failure marker: the pieces
    up to the current one have been written, once each, no further piece
    is written, and [send_file] returns [False].  In
    [send_fragmented_data] a timeout or a failure marker does not end the
    transfer by itself; there too the commands attempted are those of the
    first chunks, once each and in order (no retry), and the transfer
    returns [True] only when no failure was counted and every chunk was
    confirmed. *)
Theorem C5_timeout_as_failure
    (cfg : LoraTransceiver.config) (raw : list byte) (tx_name desc : string)
    (S : Z) (cs : list string)
    (oks rest1 rest2 : list LoraTransceiver.wait_outcome)
    (failure : LoraTransceiver.wait_outcome)
    (dest data : string) (reliability : Z) (env : list MeshInterface.chunk_env)
    (t_start t_end : Q) (i : MeshInterface.iface) :
  LoraTransceiver.split_chunks (Base64.b64encode raw) S = Py.Ret cs →
  Forall (λ o, succeeded o = true) oks →
  (length oks < length cs)%nat →
  succeeded failure = false →
  (∃ t1 t2,
     LoraTransceiver.send_file cfg raw tx_name desc S
       (oks ++ LoraTransceiver.TimedOut :: rest1) = Py.Ret (t1, false)
     ∧ LoraTransceiver.send_file cfg raw tx_name desc S
         (oks ++ failure :: rest2) = Py.Ret (t2, false)
     ∧ LoraTransceiver.written t1
       = take (Datatypes.S (length oks))
           (lines_from tx_name (Z.of_nat (length cs)) 0 cs)
     ∧ LoraTransceiver.written t2 = LoraTransceiver.written t1)
  ∧ (let chunks := MeshInterface.split_data data in
     let total := Z.of_nat (length chunks) in
     let r := MeshInterface.send_fragmented_data dest data reliability env
                t_start t_end i in
     (∃ n, (MeshInterface.commands r.1).*1
           = (MeshInterface.commands i).*1
             ++ take n (commands_from dest reliability total 0 chunks))
     ∧ (r.2 = true →
        MeshInterface.failed_chunks (MeshInterface.stats r.1) = 0
        ∧ MeshInterface.sent_chunks (MeshInterface.stats r.1) = total
        ∧ (MeshInterface.commands r.1).*1
          = (MeshInterface.commands i).*1
            ++ commands_from dest reliability total 0 chunks)).
Proof.
  intros Hsplit Hoks Hlen Hfail. split.
  - unfold LoraTransceiver.send_file. rewrite Hsplit.
    match goal with
    | |- context [LoraTransceiver.send_chunks _ _ _ _ _ _ ?s] => set (t0 := s)
    end.
    assert (LoraTransceiver.written t0 = []) as Ht0.
    { unfold t0. by rewrite !written_tx_log. }
    destruct (send_chunks_stops cfg tx_name (Z.of_nat (length cs)) oks cs 0 t0
                LoraTransceiver.TimedOut rest1 Hoks Hlen eq_refl)
      as (t1 & Hr1 & Hw1).
    destruct (send_chunks_stops cfg tx_name (Z.of_nat (length cs)) oks cs 0 t0
                failure rest2 Hoks Hlen Hfail)
      as (t2 & Hr2 & Hw2).
    exists t1, t2. rewrite Hr1, Hr2, Hw1, Hw2, Ht0. done.
  - intros chunks total r. unfold r, MeshInterface.send_fragmented_data.
    fold chunks. fold total.
    match goal with
    | |- context [MeshInterface.send_loop ?a ?b ?c ?d ?e ?f ?g ?h] =>
        destruct (MeshInterface.send_loop a b c d e f g h) as [i' res] eqn:Hrun
    end.
    apply send_loop_spec in Hrun as (Hmono & Hpre & Hres).
    cbn [MeshInterface.stats MeshInterface.commands MeshInterface.set_stats
         MeshInterface.print MeshInterface.failed_chunks
         MeshInterface.sent_chunks] in Hmono, Hpre, Hres.
    destruct res as [b|].
    + subst b. cbn [fst snd]. split; [exact Hpre | done].
    + cbn [fst snd MeshInterface.stats MeshInterface.commands
           MeshInterface.set_end_time MeshInterface.set_stats
           MeshInterface.failed_chunks MeshInterface.sent_chunks].
      split; [exact Hpre|]. intros Hz. apply Z.eqb_eq in Hz.
      destruct (Hres ltac:(lia) Hz) as [Hs Hc].
      split; [done|]. split; [lia | exact Hc].
Qed.

(** C5 on [Hello] cut at 4: the first piece is confirmed, the second times
    out or is aborted; and on a short mesh transfer. *)
Lemma C5_timeout_as_failure_witness :
  let cfg := LoraTransceiver.Config false false in
  let done_ := LoraTransceiver.Signalled
                 (Some (LoraTransceiver.MkTxResult true "TX DONE")) in
  let abort := LoraTransceiver.Signalled
                 (Some (LoraTransceiver.MkTxResult false "[ABORT]")) in
  let i := MeshInterface.Iface (MeshInterface.MkStats 0 0 0 0 0 0) [] [] [] in
  (∃ t1 t2,
     LoraTransceiver.send_file cfg (Py.encode "Hello") "test.txt" "raw bytes" 4
       ([done_] ++ LoraTransceiver.TimedOut :: []) = Py.Ret (t1, false)
     ∧ LoraTransceiver.send_file cfg (Py.encode "Hello") "test.txt" "raw bytes" 4
         ([done_] ++ abort :: []) = Py.Ret (t2, false)
     ∧ LoraTransceiver.written t1
       = take 2 (lines_from "test.txt" (Z.of_nat (length ["SGVs"; "bG8="])) 0
                   ["SGVs"; "bG8="])
     ∧ LoraTransceiver.written t2 = LoraTransceiver.written t1)
  ∧ (let chunks := MeshInterface.split_data "hello" in
     let total := Z.of_nat (length chunks) in
     let r := MeshInterface.send_fragmented_data "Node_2" "hello" 1 [] 10 20 i in
     (∃ n, (MeshInterface.commands r.1).*1
           = (MeshInterface.commands i).*1
             ++ take n (commands_from "Node_2" 1 total 0 chunks))
     ∧ (r.2 = true →
        MeshInterface.failed_chunks (MeshInterface.stats r.1) = 0
        ∧ MeshInterface.sent_chunks (MeshInterface.stats r.1) = total
        ∧ (MeshInterface.commands r.1).*1
          = (MeshInterface.commands i).*1
            ++ commands_from "Node_2" 1 total 0 chunks)).
Proof.
  apply (C5_timeout_as_failure (LoraTransceiver.Config false false)
           (Py.encode "Hello") "test.txt" "raw bytes" 4 ["SGVs"; "bG8="]
           [LoraTransceiver.Signalled
              (Some (LoraTransceiver.MkTxResult true "TX DONE"))] [] []
           (LoraTransceiver.Signalled
              (Some (LoraTransceiver.MkTxResult false "[ABORT]")))
           "Node_2" "hello" 1 [] 10 20
           (MeshInterface.Iface (MeshInterface.MkStats 0 0 0 0 0 0) [] [] [])).
  - reflexivity.
  - repeat constructor.
  - simpl. lia.
  - reflexivity.
Defined.

(** C5 as stated fails in [send_fragmented_data]: in a transfer of 10
    chunks whose first wait times out (no marker arrives) while the nine
    others are confirmed, the nine remaining commands are still written;
    the same holds when the first chunk gets an explicit failure marker. *)
Lemma C5_counterexample :
  let i := MeshInterface.Iface (MeshInterface.MkStats 0 0 0 0 0 0) [] [] [] in
  let silent := MeshInterface.ChunkEnv true [] in
  let failed := MeshInterface.ChunkEnv true ["[CMD] Send failed"] in
  let okay := MeshInterface.ChunkEnv true ["[CMD] Send completed"] in
  let r1 := MeshInterface.send_fragmented_data "Node_2" (filler 1500) 1
              (silent :: replicate 9 okay) 10 20 i in
  let r2 := MeshInterface.send_fragmented_data "Node_2" (filler 1500) 1
              (failed :: replicate 9 okay) 10 20 i in
  length (MeshInterface.split_data (filler 1500)) = 10%nat
  ∧ length (MeshInterface.commands r1.1) = 10%nat
  ∧ MeshInterface.sent_chunks (MeshInterface.stats r1.1) = 9
  ∧ r1.2 = false
  ∧ length (MeshInterface.commands r2.1) = 10%nat
  ∧ MeshInterface.sent_chunks (MeshInterface.stats r2.1) = 9
  ∧ r2.2 = false.
Proof. vm_compute. repeat split; reflexivity. Qed.

(** C6: [send_fragmented_data] at the failing inputs, a transfer of 10
    chunks.  When the write of every command fails, the failure count
    passes 30% of the total at the fourth chunk, yet the check is skipped
    and all ten chunks are attempted.  When no marker ever arrives, every
    wait times out but only the first is counted, and all ten commands are
    written.  With four failure markers in a row (scenario C) the transfer
    does stop after the fourth chunk. *)
Theorem C6_failing_input :
  let i := MeshInterface.Iface (MeshInterface.MkStats 0 0 0 0 0 0) [] [] [] in
  let dead := MeshInterface.ChunkEnv false [] in
  let silent := MeshInterface.ChunkEnv true [] in
  let failed := MeshInterface.ChunkEnv true ["[CMD] Send failed"] in
  let r1 := MeshInterface.send_fragmented_data "Node_2" (filler 1500) 1
              (replicate 10 dead) 10 20 i in
  let r2 := MeshInterface.send_fragmented_data "Node_2" (filler 1500) 1
              (replicate 10 silent) 10 20 i in
  let r3 := MeshInterface.send_fragmented_data "Node_2" (filler 1500) 1
              (replicate 10 failed) 10 20 i in
  length (MeshInterface.split_data (filler 1500)) = 10%nat
  ∧ (length (MeshInterface.commands r1.1) = 10%nat
     ∧ MeshInterface.failed_chunks (MeshInterface.stats r1.1) = 10
     ∧ r1.2 = false)
  ∧ (length (MeshInterface.commands r2.1) = 10%nat
     ∧ MeshInterface.failed_chunks (MeshInterface.stats r2.1) = 1
     ∧ r2.2 = false)
  ∧ (length (MeshInterface.commands r3.1) = 4%nat
     ∧ MeshInterface.failed_chunks (MeshInterface.stats r3.1) = 4
     ∧ r3.2 = false).
Proof. vm_compute. repeat split; reflexivity. Qed.

(* ===================================================================== *)
(** ** Framing: [split], [str] and [int] *)
(* ===================================================================== *)

Section framing_facts.
Import Py.

Lemma all_chars_app P (a b : string) :
  all_chars P (a +:+ b) = all_chars P a && all_chars P b.
Proof.
  induction a as [|c a IH]; [done|].
  rewrite app_cons. simpl. by rewrite IH, andb_assoc.
Qed.

Lemma all_chars_impl (P Q : ascii → bool) s :
  (∀ c, P c = true → Q c = true) → all_chars P s = true → all_chars Q s = true.
Proof.
  intros HPQ. induction s as [|c s IH]; [done|]. simpl.
  rewrite !andb_true_iff. intros [? ?]. split; [by apply HPQ | by apply IH].
Qed.

Lemma cut_no_char c s : no_char c s = true → cut c s = None.
Proof.
  unfold no_char. induction s as [|x s IH]; [done|]. simpl.
  rewrite andb_true_iff, negb_true_iff. intros [-> Hs]. by rewrite IH.
Qed.

(** A text without the separator, the separator, and anything: the cut
    falls on that separator. *)
Lemma cut_app c (a b : string) :
  no_char c a = true → cut c (a +:+ String c b) = Some (a, b).
Proof.
  unfold no_char. induction a as [|x a IH].
  - intros _. change (("" : string) +:+ String c b) with (String c b).
    simpl. by rewrite Ascii.eqb_refl.
  - rewrite app_cons. simpl.
    rewrite andb_true_iff, negb_true_iff. intros [Hx Ha].
    by rewrite Hx, IH.
Qed.

Lemma split_field c n (a b : string) :
  no_char c a = true →
  split c (S n) (a +:+ String c b) = a :: split c n b.
Proof. intros Ha. simpl. by rewrite cut_app. Qed.

Lemma split_last c n (s : string) : no_char c s = true → split c n s = [s].
Proof. intros Hs. destruct n; [done|]. simpl. by rewrite cut_no_char. Qed.

Lemma startswith_app (p s : string) : startswith (p +:+ s) p = true.
Proof.
  induction p as [|c p IH]; [by destruct s|].
  rewrite app_cons. simpl. by rewrite Ascii.eqb_refl, IH.
Qed.

(** The digits of a positive number, written before [s], are read back by
    [digits] as that number. *)
Lemma digits_pretty_go (x : N) :
  ∀ s pd, (0 < x)%N →
    digits (pretty_N_go x s) 0 pd = digits s (Z.of_N x) true.
Proof.
  induction (N.lt_wf_0 x) as [x _ IH]. intros s pd Hx.
  rewrite pretty_N_go_step by done.
  assert (digit_val (pretty_N_char (x `mod` 10))
          = Some (Z.of_N (x `mod` 10))) as Hd.
  { pose proof (N.mod_lt x 10 ltac:(done)) as Hlt.
    generalize dependent (x `mod` 10)%N. intros y Hy.
    assert (y = 0 ∨ y = 1 ∨ y = 2 ∨ y = 3 ∨ y = 4 ∨ y = 5 ∨ y = 6 ∨ y = 7
            ∨ y = 8 ∨ y = 9)%N as Hc by lia.
    destruct Hc as [-> | [-> | [-> | [-> | [-> | [-> | [-> | [-> | [-> | ->]]]]]]]]];
      reflexivity. }
  assert (Z.of_N x = 10 * Z.of_N (x `div` 10) + Z.of_N (x `mod` 10)) as Hx10.
  { rewrite (N.div_mod x 10) at 1 by done.
    by rewrite N2Z.inj_add, N2Z.inj_mul. }
  destruct (decide (x `div` 10 = 0)%N) as [H0 | Hpos].
  - rewrite H0 in Hx10 |- *. rewrite pretty_N_go_0. cbn [digits]. rewrite Hd.
    f_equal. rewrite Hx10. done.
  - rewrite IH;
      [| first [by apply N.div_lt | by apply N.neq_0_lt_0] ..].
    cbn [digits]. rewrite Hd. f_equal. rewrite Hx10. done.
Qed.

Lemma all_chars_pretty_go P (x : N) :
  (∀ d, (d < 10)%N → P (pretty_N_char d) = true) →
  ∀ s, all_chars P s = true → all_chars P (pretty_N_go x s) = true.
Proof.
  intros HP. induction (N.lt_wf_0 x) as [x _ IH]. intros s Hs.
  destruct (decide (0 < x)%N) as [Hx|Hx].
  - rewrite pretty_N_go_step by done. apply IH; [by apply N.div_lt|].
    simpl. rewrite Hs, andb_true_r. apply HP. by apply N.mod_lt.
  - assert (x = 0%N) as -> by lia. by rewrite pretty_N_go_0.
Qed.

Lemma digit_chars P :
  P "0"%char = true → P "1"%char = true → P "2"%char = true →
  P "3"%char = true → P "4"%char = true → P "5"%char = true →
  P "6"%char = true → P "7"%char = true → P "8"%char = true →
  P "9"%char = true →
  ∀ d, (d < 10)%N → P (pretty_N_char d) = true.
Proof.
  intros ?????????? d Hd.
  assert (d = 0 ∨ d = 1 ∨ d = 2 ∨ d = 3 ∨ d = 4 ∨ d = 5 ∨ d = 6 ∨ d = 7
          ∨ d = 8 ∨ d = 9)%N as Hc by lia.
  destruct Hc as [-> | [-> | [-> | [-> | [-> | [-> | [-> | [-> | [-> | ->]]]]]]]]];
    assumption.
Qed.

(** [str(n)] is made of digits and, for a negative number, a leading
    minus sign. *)
Lemma str_chars (n : Z) : all_chars is_digit_or_minus (str n) = true.
Proof.
  assert (∀ p, all_chars is_digit_or_minus (pretty_N_go (N.pos p) "") = true)
    as Hp.
  { intros p. apply all_chars_pretty_go; [|done]. by apply digit_chars. }
  unfold str, pretty, pretty_Z.
  destruct n as [|p|p]; [done | apply Hp |].
  change (all_chars is_digit_or_minus (String "-" (pretty_N_go (N.pos p) "")) = true).
  simpl. apply Hp.
Qed.

Lemma no_char_str c (n : Z) : is_digit_or_minus c = false → no_char c (str n) = true.
Proof.
  intros Hc. unfold no_char.
  apply (all_chars_impl is_digit_or_minus); [|apply str_chars].
  intros x Hx. apply negb_true_iff. destruct (Ascii.eqb x c) eqn:He; [|done].
  apply Ascii.eqb_eq in He. congruence.
Qed.

Lemma all_chars_rev_app P (a b : string) :
  all_chars P (String.rev_app a b) = all_chars P a && all_chars P b.
Proof.
  revert b; induction a as [|c a IH]; intros b; [done|].
  simpl. rewrite IH. simpl. by destruct (P c), (all_chars P a).
Qed.

Lemma rev_app_rev_app (a b c : string) :
  String.rev_app (String.rev_app a b) c = String.rev_app b (a +:+ c).
Proof.
  revert b c; induction a as [|x a IH]; intros b c; [done|].
  simpl. rewrite IH. simpl. by rewrite app_cons.
Qed.

Lemma rev_rev (s : string) : String.rev (String.rev s) = s.
Proof. unfold String.rev. rewrite rev_app_rev_app. simpl. apply app_empty_r. Qed.

Lemma lstrip_no_space s :
  all_chars (λ c, negb (is_space c)) s = true → lstrip s = s.
Proof.
  destruct s as [|c s]; [done|]. simpl.
  rewrite andb_true_iff, negb_true_iff. by intros [-> _].
Qed.

(** A text without white space is left as it is by [strip]. *)
Lemma strip_no_space s :
  all_chars (λ c, negb (is_space c)) s = true → strip s = s.
Proof.
  intros Hs. unfold strip. rewrite (lstrip_no_space s Hs).
  rewrite lstrip_no_space; [apply rev_rev|].
  unfold String.rev. by rewrite all_chars_rev_app, Hs.
Qed.

(** [int()] skips no more than [strip] removes. *)
Lemma int_space_space (c : ascii) : is_int_space c = true → is_space c = true.
Proof.
  unfold is_int_space, is_space.
  destruct c as [[] [] [] [] [] [] [] []]; vm_compute; congruence.
Qed.

Lemma int_lstrip_no_space s :
  all_chars (λ c, negb (is_space c)) s = true → int_lstrip s = s.
Proof.
  destruct s as [|c s]; [done|]. simpl.
  rewrite andb_true_iff, negb_true_iff. intros [Hc _].
  destruct (is_int_space c) eqn:Hi; [|done].
  apply int_space_space in Hi. congruence.
Qed.

Lemma int_strip_no_space s :
  all_chars (λ c, negb (is_space c)) s = true → int_strip s = s.
Proof.
  intros Hs. unfold int_strip. rewrite (int_lstrip_no_space s Hs).
  rewrite int_lstrip_no_space; [apply rev_rev|].
  unfold String.rev. by rewrite all_chars_rev_app, Hs.
Qed.

Lemma str_no_space (n : Z) :
  all_chars (λ c, negb (is_space c)) (str n) = true.
Proof.
  apply (all_chars_impl is_digit_or_minus); [|apply str_chars].
  intros c. unfold is_digit_or_minus, digit_val, is_space.
  destruct c as [[] [] [] [] [] [] [] []]; vm_compute; congruence.
Qed.

(** The digits of a positive number start with a digit. *)
Lemma pretty_go_head (x : N) :
  ∀ s, (0 < x)%N →
    ∃ d s', (d < 10)%N ∧ pretty_N_go x s = String (pretty_N_char d) s'.
Proof.
  induction (N.lt_wf_0 x) as [x _ IH]. intros s Hx.
  rewrite pretty_N_go_step by done.
  destruct (decide (x `div` 10 = 0)%N) as [H0 | Hpos].
  - rewrite H0, pretty_N_go_0. eexists _, _. split; [|done]. by apply N.mod_lt.
  - apply IH; [by apply N.div_lt | by apply N.neq_0_lt_0].
Qed.

(** [int(str(n)) == n] *)
Lemma int_str (n : Z) : int (str n) = Some n.
Proof.
  unfold int. rewrite int_strip_no_space by apply str_no_space.
  unfold str, pretty, pretty_Z. destruct n as [|p|p]; [done| |].
  - unfold pretty, pretty_positive, pretty, pretty_N.
    destruct (decide (N.pos p = 0%N)); [done|].
    destruct (pretty_go_head (N.pos p) "" ltac:(done)) as (d & s' & Hd & Heq).
    pose proof (digits_pretty_go (N.pos p) "" false ltac:(done)) as Hdig.
    rewrite Heq in Hdig |- *.
    assert (d = 0 ∨ d = 1 ∨ d = 2 ∨ d = 3 ∨ d = 4 ∨ d = 5 ∨ d = 6 ∨ d = 7
            ∨ d = 8 ∨ d = 9)%N as Hc by lia.
    destruct Hc as [-> | [-> | [-> | [-> | [-> | [-> | [-> | [-> | [-> | ->]]]]]]]]];
      exact Hdig.
  - change (("-" : string) +:+ pretty p) with (String "-" (pretty p)).
    cbn match. unfold pretty at 1, pretty_positive, pretty, pretty_N.
    destruct (decide (N.pos p = 0%N)); [done|].
    rewrite (digits_pretty_go (N.pos p) "" false ltac:(done)). done.
Qed.

End framing_facts.

(* ===================================================================== *)
(** ** Pieces, framing and the two readers *)
(* ===================================================================== *)

Section chunk_facts.
Import Py.

Lemma length_take n s : String.length (take n s) = (n `min` String.length s)%nat.
Proof.
  revert s; induction n as [|n IH]; intros [|c s]; simpl; try done.
  by rewrite IH.
Qed.

Lemma length_drop n s : String.length (drop n s) = (String.length s - n)%nat.
Proof.
  revert s; induction n as [|n IH]; intros [|c s]; simpl; try done.
Qed.

Lemma ceil_div_facts (len n : nat) :
  (0 < n)%nat →
  let q := ((len + n - 1) / n)%nat in
  (q * n < len + n)%nat ∧ (len ≤ q * n)%nat.
Proof.
  intros Hn q.
  pose proof (Nat.div_mod (len + n - 1) n ltac:(lia)) as Hdm.
  pose proof (Nat.mod_upper_bound (len + n - 1) n ltac:(lia)) as Hlt.
  fold q in Hdm. nia.
Qed.

(** The pieces of a text cut every [n] characters: their number, and the
    length of each. *)
Lemma slices_shape (s : string) (n : nat) :
  (0 < n)%nat →
  let cs := (λ i, slice s i (i + n)) <$> range_step (String.length s) n in
  length cs = ((String.length s + n - 1) / n)%nat
  ∧ ∀ k c, cs !! k = Some c →
      (1 ≤ String.length c ≤ n)%nat
      ∧ (S k < length cs → String.length c = n)%nat.
Proof.
  intros Hn cs.
  destruct (ceil_div_facts (String.length s) n Hn) as [Hq1 Hq2].
  assert (length cs = ((String.length s + n - 1) / n)%nat) as Hlen.
  { unfold cs, range_step. by rewrite !length_fmap, length_seq. }
  split; [done|]. intros k c Hk.
  assert (k < length cs)%nat as Hklt by (by eapply lookup_lt_Some).
  unfold cs, range_step in Hk. rewrite <- list_fmap_compose in Hk.
  apply list_lookup_fmap_Some in Hk as (j & -> & Hj).
  apply lookup_seq in Hj as [-> _]. cbn [compose Nat.add].
  unfold slice. rewrite length_take, length_drop.
  replace (k * n + n - k * n)%nat with n by lia.
  rewrite Hlen in *. split; [|intros Hlast]; nia.
Qed.

Lemma split_chunks_length (b64 : string) (S : Z) (cs : list string) :
  0 < S →
  LoraTransceiver.split_chunks b64 S = Ret cs →
  Z.of_nat (length cs) = pieces (len b64) S.
Proof.
  intros HS Hsplit.
  set (n := Z.to_nat S).
  assert (0 < n)%nat as Hn by (unfold n; lia).
  rewrite split_chunks_pos in Hsplit by done. injection Hsplit as <-.
  destruct (slices_shape b64 n Hn) as [Hlen _]. fold n. rewrite Hlen.
  unfold pieces, len.
  rewrite Nat2Z.inj_div, Nat2Z.inj_sub, Nat2Z.inj_add by lia.
  unfold n. rewrite Z2Nat.id by lia. done.
Qed.

End chunk_facts.

(** X1.  Cutting a text every [S] characters, as [send_file] of
    [lora_transceiver.py] and of [tx_send_file.py] do with the base64 text,
    gives [(len + S - 1) / S] pieces, none of them empty or longer than
    [S], all but the last exactly [S] long, and joined they give the text
    back.  [send_fragmented_data] cuts its data in the same way with
    [S = CHUNK_SIZE]. *)
Theorem X1_chunk_shape (b64 : string) (S : Z) :
  0 < S →
  ∃ cs, LoraTransceiver.split_chunks b64 S = Py.Ret cs
    ∧ Z.of_nat (length cs) = pieces (Py.len b64) S
    ∧ (∀ (k : nat) c, cs !! k = Some c →
         1 ≤ Py.len c ≤ S
         ∧ (Z.of_nat k + 1 < Z.of_nat (length cs) → Py.len c = S))
    ∧ Py.join cs = b64
    ∧ (S = MeshInterface.CHUNK_SIZE → MeshInterface.split_data b64 = cs).
Proof.
  intros HS.
  set (n := Z.to_nat S).
  assert (0 < n)%nat as Hn by (unfold n; lia).
  set (cs := (λ i, Py.slice b64 i (i + n)) <$> Py.range_step (String.length b64) n).
  destruct (slices_shape b64 n Hn) as [Hlen Hshape]. fold cs in Hlen, Hshape.
  exists cs. split; [by apply split_chunks_pos|]. split; [|split; [|split]].
  - rewrite Hlen. unfold pieces, Py.len.
    rewrite Nat2Z.inj_div, Nat2Z.inj_sub, Nat2Z.inj_add by lia.
    unfold n. rewrite Z2Nat.id by lia. done.
  - intros k c Hk. destruct (Hshape k c Hk) as [Hb Hl]. unfold Py.len.
    split; [unfold n in Hb; lia|]. intros Hlt. rewrite Hl by lia. unfold n. lia.
  - by apply join_range_step.
  - intros ->. reflexivity.
Qed.

(** X1 on the text [SGVsbG8=] cut every three characters. *)
Lemma X1_chunk_shape_witness :
  ∃ cs, LoraTransceiver.split_chunks "SGVsbG8=" 3 = Py.Ret cs
    ∧ Z.of_nat (length cs) = pieces (Py.len "SGVsbG8=") 3
    ∧ (∀ (k : nat) c, cs !! k = Some c →
         1 ≤ Py.len c ≤ 3
         ∧ (Z.of_nat k + 1 < Z.of_nat (length cs) → Py.len c = 3))
    ∧ Py.join cs = "SGVsbG8="
    ∧ (3 = MeshInterface.CHUNK_SIZE → MeshInterface.split_data "SGVsbG8=" = cs).
Proof. apply (X1_chunk_shape "SGVsbG8=" 3). lia. Defined.

Section sender_facts.
Import Py LoraTransceiver.

Lemma lines_from_length tx_name tot_ (cs : list string) :
  ∀ idx, length (lines_from tx_name tot_ idx cs) = length cs.
Proof. induction cs as [|c cs IH]; intros idx; simpl; [done|by rewrite IH]. Qed.

(** The loop of [send_file]: it returns [True] exactly when the wait of
    every piece succeeds, and what it has written is then every line; in
    any case the lines written are the first lines, in order. *)
Lemma send_chunks_spec cfg tx_name tot_ (cs : list string) :
  ∀ (idx : Z) (waits : list wait_outcome) (t : tx_state),
    ∃ t' b (n : nat),
      send_chunks cfg tx_name tot_ idx cs waits t = (t', b)
      ∧ (b = true ↔ ∀ k, (k < length cs)%nat →
                         succeeded (nth k waits TimedOut) = true)
      ∧ written t' = written t ++ firstn n (lines_from tx_name tot_ idx cs)
      ∧ (b = true → n = length cs).
Proof.
  induction cs as [|c cs IH]; intros idx waits t.
  - eexists _, true, 0%nat. cbn [send_chunks]. split; [done|]. split.
    + split; [intros _ k Hk; simpl in Hk; lia | done].
    + rewrite written_tx_log, app_nil_r. done.
  - cbn [send_chunks].
    destruct (ok (_consume_tx_result (hd TimedOut waits))) eqn:Hok; cbn [negb].
    + match goal with |- context [send_chunks _ _ _ _ _ _ ?s] => set (t1 := s) end.
      destruct (IH (idx + 1) (tl waits) t1) as (t' & b & n & Hrun & Hb & Hw & Hn).
      exists t', b, (S n). split; [done|]. split; [|split].
      * rewrite Hb. split.
        -- intros Hall [|k] Hk.
           ++ destruct waits; exact Hok.
           ++ specialize (Hall k ltac:(simpl in Hk; lia)).
              destruct waits as [|w waits]; [by destruct k|done].
        -- intros Hall k Hk. specialize (Hall (S k) ltac:(simpl; lia)).
           destruct waits as [|w waits]; [by destruct k|done].
      * rewrite Hw. unfold t1, _write. cbn [written]. rewrite written_tx_log.
        cbn [lines_from]. rewrite firstn_cons. by rewrite <- app_assoc.
      * intros Hbt. simpl. by rewrite Hn.
    + eexists _, false, 1%nat. split; [done|]. split; [|split].
      * split; [done|]. intros Hall. specialize (Hall 0%nat ltac:(simpl; lia)).
        unfold succeeded in Hall. destruct waits; simpl in *; congruence.
      * rewrite written_tx_log. unfold _write. cbn [written].
        rewrite written_tx_log. cbn [lines_from firstn]. done.
      * done.
Qed.

End sender_facts.

(** X2.  [LoRaSerialSession.send_file] returns [True] exactly when the
    wait of every piece succeeds.  The lines it has written are always the
    first lines of the transfer, in order, and all of them when it returns
    [True]. *)
Theorem X2_send_file_outcome
    (cfg : LoraTransceiver.config) (raw : list byte) (tx_name desc : string)
    (S : Z) (cs : list string) (waits : list LoraTransceiver.wait_outcome) :
  LoraTransceiver.split_chunks (Base64.b64encode raw) S = Py.Ret cs →
  ∃ t b,
    LoraTransceiver.send_file cfg raw tx_name desc S waits = Py.Ret (t, b)
    ∧ (b = true ↔ ∀ k, (k < length cs)%nat →
                       succeeded (nth k waits LoraTransceiver.TimedOut) = true)
    ∧ (∃ n, LoraTransceiver.written t
            = take n (lines_from tx_name (Z.of_nat (length cs)) 0 cs))
    ∧ (b = true →
       LoraTransceiver.written t
       = lines_from tx_name (Z.of_nat (length cs)) 0 cs).
Proof.
  intros Hsplit. unfold LoraTransceiver.send_file. rewrite Hsplit.
  match goal with
  | |- context [LoraTransceiver.send_chunks _ _ _ _ _ _ ?s] => set (t0 := s)
  end.
  assert (LoraTransceiver.written t0 = []) as Ht0.
  { unfold t0. by rewrite !written_tx_log. }
  destruct (send_chunks_spec cfg tx_name (Z.of_nat (length cs)) cs 0 waits t0)
    as (t' & b & n & Hrun & Hb & Hw & Hn).
  exists t', b. rewrite Hrun. split; [done|]. split; [done|].
  rewrite Hw, Ht0. split; [by exists n|].
  intros Hbt. rewrite (Hn Hbt). simpl.
  rewrite <- (lines_from_length tx_name (Z.of_nat (length cs)) cs 0) at 1.
  apply firstn_all.
Qed.

(** X2 on [Hello] in two pieces, with one wait that succeeds and one that
    times out. *)
Lemma X2_send_file_outcome_witness :
  ∃ t b,
    LoraTransceiver.send_file (LoraTransceiver.Config false false)
      (Py.encode "Hello") "test.txt" "raw" 4
      [LoraTransceiver.Signalled (Some (LoraTransceiver.MkTxResult true "TX DONE"))]
    = Py.Ret (t, b)
    ∧ (b = true ↔ ∀ k, (k < length ["SGVs"; "bG8="])%nat →
         succeeded (nth k [LoraTransceiver.Signalled
                             (Some (LoraTransceiver.MkTxResult true "TX DONE"))]
                      LoraTransceiver.TimedOut) = true)
    ∧ (∃ n, LoraTransceiver.written t
            = take n (lines_from "test.txt" (Z.of_nat (length ["SGVs"; "bG8="])) 0
                        ["SGVs"; "bG8="]))
    ∧ (b = true →
       LoraTransceiver.written t
       = lines_from "test.txt" (Z.of_nat (length ["SGVs"; "bG8="])) 0
           ["SGVs"; "bG8="]).
Proof.
  apply (X2_send_file_outcome (LoraTransceiver.Config false false)
           (Py.encode "Hello") "test.txt" "raw" 4 ["SGVs"; "bG8="]).
  reflexivity.
Defined.

(** X3.  A chunk size of zero makes both senders raise [ValueError]
    before anything is written; with a negative chunk size they write
    nothing, whatever the file holds, and [LoRaSerialSession.send_file]
    reports success. *)
Theorem X3_bad_chunk_size
    (cfg : LoraTransceiver.config) (raw : list byte) (tx_name desc : string)
    (S : Z) (waits : list LoraTransceiver.wait_outcome)
    (serial_port : string) (baud : Z) (boot : list string)
    (replies : list (list string)) :
  S ≤ 0 →
  (S = 0 →
   LoraTransceiver.send_file cfg raw tx_name desc S waits
   = Py.Raise Py.ValueError
   ∧ TxSendFile.send_file serial_port baud true raw tx_name desc S boot replies
     = Py.Raise Py.ValueError)
  ∧ (S < 0 →
     (∃ t, LoraTransceiver.send_file cfg raw tx_name desc S waits
           = Py.Ret (t, true)
           ∧ LoraTransceiver.written t = [])
     ∧ ∃ t, TxSendFile.send_file serial_port baud true raw tx_name desc S
              boot replies = Py.Ret t
            ∧ TxSendFile.written t = []).
Proof.
  intros HS. split.
  - intros ->. split; reflexivity.
  - intros Hneg.
    assert (LoraTransceiver.split_chunks (Base64.b64encode raw) S = Py.Ret [])
      as Hsplit.
    { unfold LoraTransceiver.split_chunks.
      destruct (Z.eqb_spec S 0) as [|_]; [lia|].
      destruct (Z.ltb_spec S 0); [done|lia]. }
    split.
    + unfold LoraTransceiver.send_file. rewrite Hsplit.
      eexists. split; [reflexivity|]. by rewrite !written_tx_log.
    + unfold TxSendFile.send_file. rewrite Hsplit. cbn [negb].
      eexists. split; [reflexivity|].
      cbn [TxSendFile.send_loop TxSendFile.print TxSendFile.written].
      match goal with |- context [fold_left ?f boot _] => set (F := f) end.
      assert (∀ t, TxSendFile.written (fold_left F boot t) = TxSendFile.written t)
        as Hfold.
      { induction boot as [|l boot IH]; intros t; [done|]. simpl. rewrite IH.
        unfold F. by destruct (String.eqb l ""). }
      rewrite Hfold. reflexivity.
Qed.

(** X3 on a chunk size of -1. *)
Lemma X3_bad_chunk_size_witness :
  (-1 = 0 →
   LoraTransceiver.send_file (LoraTransceiver.Config false false)
     (Py.encode "Hello") "test.txt" "raw" (-1) []
   = Py.Raise Py.ValueError
   ∧ TxSendFile.send_file "COM9" 115200 true (Py.encode "Hello") "test.txt"
       "raw" (-1) [] []
     = Py.Raise Py.ValueError)
  ∧ (-1 < 0 →
     (∃ t, LoraTransceiver.send_file (LoraTransceiver.Config false false)
             (Py.encode "Hello") "test.txt" "raw" (-1) []
           = Py.Ret (t, true)
           ∧ LoraTransceiver.written t = [])
     ∧ ∃ t, TxSendFile.send_file "COM9" 115200 true (Py.encode "Hello")
              "test.txt" "raw" (-1) [] [] = Py.Ret t
            ∧ TxSendFile.written t = []).
Proof.
  apply (X3_bad_chunk_size (LoraTransceiver.Config false false)
           (Py.encode "Hello") "test.txt" "raw" (-1) [] "COM9" 115200 [] []).
  lia.
Defined.

Section payload_facts.
Import Py.

Lemma filechunk_line_payload tx_name idx tot_ chunk :
  LoraTransceiver.filechunk_line tx_name idx tot_ chunk
  = filechunk_payload tx_name idx tot_ chunk +:+ nl.
Proof.
  unfold LoraTransceiver.filechunk_line, filechunk_payload.
  by rewrite !app_assoc_s.
Qed.

Lemma length_app_nl (s : string) :
  String.length (s +:+ nl) = S (String.length s).
Proof. induction s as [|c s IH]; [done|]. rewrite app_cons. simpl. by rewrite IH. Qed.

Lemma take_app_length (s r : string) : take (String.length s) (s +:+ r) = s.
Proof.
  induction s as [|c s IH]; [by destruct r|]. rewrite app_cons. simpl.
  by rewrite IH.
Qed.

Lemma without_nl_app (s : string) : without_nl (s +:+ nl) = s.
Proof.
  unfold without_nl. rewrite length_app_nl.
  replace (S (String.length s) - 1)%nat with (String.length s) by lia.
  apply take_app_length.
Qed.

Lemma split_filechunk tx_name idx tot_ chunk :
  no_char ":" tx_name = true →
  split ":" 4 (filechunk_payload tx_name idx tot_ chunk)
  = ["FILECHUNK"; tx_name; str idx; str tot_; chunk].
Proof.
  intros Hname.
  change (filechunk_payload tx_name idx tot_ chunk)
    with ("FILECHUNK" +:+ String ":" (tx_name +:+ String ":" (str idx
            +:+ String ":" (str tot_ +:+ String ":" chunk)))).
  rewrite split_field by reflexivity.
  rewrite split_field by done.
  rewrite split_field by (by apply no_char_str).
  rewrite split_field by (by apply no_char_str).
  done.
Qed.

Lemma startswith_filechunk tx_name idx tot_ chunk :
  startswith (filechunk_payload tx_name idx tot_ chunk) "FILECHUNK:" = true.
Proof. apply startswith_app. Qed.

End payload_facts.

(** X4.  The payload of a FILECHUNK line whose name holds no colon is
    read back by [handle_full_payload] of both receivers as the piece it
    carries: the call is [add_chunk tx_name idx tot chunk].  The payload is
    the line written without its newline. *)
Theorem X4_filechunk_framing
    (tx_name : string) (idx tot_ : Z) (chunk : string)
    (st : LoraTransceiver.rx_state) :
  no_char ":" tx_name = true →
  LoraTransceiver.handle_full_payload (filechunk_payload tx_name idx tot_ chunk) st
  = LoraTransceiver.add_chunk tx_name idx tot_ chunk st
  ∧ RxReceiveFile.handle_full_payload (filechunk_payload tx_name idx tot_ chunk) st
    = RxReceiveFile.add_chunk tx_name idx tot_ chunk st
  ∧ without_nl (LoraTransceiver.filechunk_line tx_name idx tot_ chunk)
    = filechunk_payload tx_name idx tot_ chunk.
Proof.
  intros Hname. split; [|split].
  - unfold LoraTransceiver.handle_full_payload.
    rewrite startswith_filechunk, split_filechunk by done.
    by rewrite !int_str.
  - unfold RxReceiveFile.handle_full_payload.
    rewrite startswith_filechunk, split_filechunk by done.
    by rewrite !int_str.
  - rewrite filechunk_line_payload. apply without_nl_app.
Qed.

(** X4 on the first piece of [test.txt]. *)
Lemma X4_filechunk_framing_witness :
  let st := LoraTransceiver.RxState ∅ ∅ ∅ [] in
  LoraTransceiver.handle_full_payload (filechunk_payload "test.txt" 0 2 "SGVs") st
  = LoraTransceiver.add_chunk "test.txt" 0 2 "SGVs" st
  ∧ RxReceiveFile.handle_full_payload (filechunk_payload "test.txt" 0 2 "SGVs") st
    = RxReceiveFile.add_chunk "test.txt" 0 2 "SGVs" st
  ∧ without_nl (LoraTransceiver.filechunk_line "test.txt" 0 2 "SGVs")
    = filechunk_payload "test.txt" 0 2 "SGVs".
Proof.
  apply (X4_filechunk_framing "test.txt" 0 2 "SGVs"
           (LoraTransceiver.RxState ∅ ∅ ∅ [])).
  reflexivity.
Defined.

Section other_names.
Import Py LoraTransceiver.

(** [add_chunk] touches the entry of its own file name only. *)
Lemma add_chunk_files_other fname idx tot_ c st other :
  fname ≠ other →
  files (add_chunk fname idx tot_ c st).1 !! other = files st !! other
  ∧ files (RxReceiveFile.add_chunk fname idx tot_ c st).1 !! other
    = files st !! other.
Proof.
  intros Hne. rewrite add_chunk_eq, rx_add_chunk_eq. cbv zeta.
  destruct (_ =? _); [|by cbn; rewrite lookup_insert_ne].
  destruct (ordered _ _); [|by cbn; rewrite lookup_insert_ne].
  destruct (Base64.b64decode _); [|by cbn; rewrite lookup_delete_ne].
  destruct (startswith _ _); by cbn; rewrite lookup_delete_ne.
Qed.

End other_names.

(** X5.  A transmitted name with a colon is not read back: the piece is
    never recorded under that name.  When the part after the first colon
    holds no further colon, the piece is either rejected with a warning
    (that part is not an integer) or filed under the part before the colon
    with shifted fields. *)
Theorem X5_colon_in_name
    (a b : string) (idx tot_ : Z) (chunk : string)
    (st : LoraTransceiver.rx_state) :
  no_char ":" a = true →
  let tx_name := a +:+ ":" +:+ b in
  let p := filechunk_payload tx_name idx tot_ chunk in
  (LoraTransceiver.files (LoraTransceiver.handle_full_payload p st).1 !! tx_name
   = LoraTransceiver.files st !! tx_name
   ∧ LoraTransceiver.files (RxReceiveFile.handle_full_payload p st).1 !! tx_name
     = LoraTransceiver.files st !! tx_name)
  ∧ (no_char ":" b = true →
     LoraTransceiver.handle_full_payload p st
     = match Py.int b with
       | Some k =>
           LoraTransceiver.add_chunk a k idx (Py.str tot_ +:+ ":" +:+ chunk) st
       | None =>
           (LoraTransceiver.print (Py.take 200 p +:+ "...")
              (LoraTransceiver.print
                 "[WARN] FILECHUNK payload format invalid, printing raw:" st),
            Py.Ret ())
       end).
Proof.
  intros Ha tx_name p.
  assert (a ≠ tx_name) as Hne.
  { intros Heq. apply (f_equal String.length) in Heq.
    unfold tx_name in Heq. rewrite length_app_s in Heq. simpl in Heq. lia. }
  assert (Py.startswith p "FILECHUNK:" = true) as Hstart
    by apply startswith_filechunk.
  assert (p = "FILECHUNK" +:+ String ":" (a +:+ String ":" (b +:+ String ":"
              (Py.str idx +:+ String ":" (Py.str tot_ +:+ String ":" chunk)))))
    as Hp.
  { unfold p, tx_name.
    change (filechunk_payload (a +:+ ":" +:+ b) idx tot_ chunk)
      with ("FILECHUNK" +:+ String ":" ((a +:+ String ":" b) +:+ String ":"
              (Py.str idx +:+ String ":" (Py.str tot_ +:+ String ":" chunk)))).
    by rewrite app_assoc_s, app_cons. }
  split.
  - assert (∃ l, Py.split ":" 4 p = "FILECHUNK" :: a :: l) as [l Hsplit].
    { rewrite Hp. rewrite split_field by reflexivity.
      rewrite split_field by done. by eexists. }
    unfold LoraTransceiver.handle_full_payload, RxReceiveFile.handle_full_payload.
    rewrite Hstart, Hsplit.
    destruct l as [|f3 [|f4 [|f5 [|? ?]]]]; try done.
    destruct (Py.int f3), (Py.int f4); try done.
    by apply add_chunk_files_other.
  - intros Hb. unfold LoraTransceiver.handle_full_payload.
    rewrite Hstart. rewrite Hp at 1.
    rewrite split_field by reflexivity.
    rewrite split_field by done.
    rewrite split_field by done.
    rewrite split_field by (by apply no_char_str).
    cbn [Py.split]. rewrite int_str. by destruct (Py.int b).
Qed.

(** X5 on the name [a:7.txt]. *)
Lemma X5_colon_in_name_witness :
  let st := LoraTransceiver.RxState ∅ ∅ ∅ [] in
  let tx_name := "a" +:+ ":" +:+ "7.txt" in
  let p := filechunk_payload tx_name 0 1 "SGVsbG8=" in
  (LoraTransceiver.files (LoraTransceiver.handle_full_payload p st).1 !! tx_name
   = LoraTransceiver.files st !! tx_name
   ∧ LoraTransceiver.files (RxReceiveFile.handle_full_payload p st).1 !! tx_name
     = LoraTransceiver.files st !! tx_name)
  ∧ (no_char ":" "7.txt" = true →
     LoraTransceiver.handle_full_payload p st
     = match Py.int "7.txt" with
       | Some k =>
           LoraTransceiver.add_chunk "a" k 0 (Py.str 1 +:+ ":" +:+ "SGVsbG8=") st
       | None =>
           (LoraTransceiver.print (Py.take 200 p +:+ "...")
              (LoraTransceiver.print
                 "[WARN] FILECHUNK payload format invalid, printing raw:" st),
            Py.Ret ())
       end).
Proof.
  apply (X5_colon_in_name "a" "7.txt" 0 1 "SGVsbG8="
           (LoraTransceiver.RxState ∅ ∅ ∅ [])).
  reflexivity.
Defined.

Section receivers_agree.
Import Py LoraTransceiver.

Lemma kept_print s st : kept (print s st) = kept st.
Proof. done. Qed.

Lemma kept_log cfg s st : kept (_log cfg s st) = kept st.
Proof. unfold _log. by destruct (_ || _). Qed.

Lemma kept_eq st1 st2 :
  kept st1 = kept st2 ↔
  messages st1 = messages st2 ∧ files st1 = files st2 ∧ disk st1 = disk st2.
Proof. unfold kept. split; [by intros [= -> -> ->] | by intros (-> & -> & ->)]. Qed.

Lemma add_chunk_agree fname idx tot_ c st1 st2 :
  kept st1 = kept st2 →
  kept (add_chunk fname idx tot_ c st1).1
  = kept (RxReceiveFile.add_chunk fname idx tot_ c st2).1
  ∧ (add_chunk fname idx tot_ c st1).2
    = (RxReceiveFile.add_chunk fname idx tot_ c st2).2.
Proof.
  intros (Hm & Hf & Hd)%kept_eq.
  rewrite add_chunk_eq, rx_add_chunk_eq. cbv zeta. rewrite Hm, Hf, Hd.
  destruct (_ =? _); [|done].
  destruct (ordered _ _); [|done].
  destruct (Base64.b64decode _); [|done].
  by destruct (startswith _ _).
Qed.

Lemma handle_full_payload_agree p st1 st2 :
  kept st1 = kept st2 →
  kept (handle_full_payload p st1).1
  = kept (RxReceiveFile.handle_full_payload p st2).1
  ∧ (handle_full_payload p st1).2 = (RxReceiveFile.handle_full_payload p st2).2.
Proof.
  intros Hk. unfold handle_full_payload, RxReceiveFile.handle_full_payload.
  destruct (startswith p "FILECHUNK:").
  { destruct (split ":" 4 p) as [|f1 [|f2 [|f3 [|f4 [|f5 [|? ?]]]]]]; try done.
    destruct (int f3), (int f4); try done. by apply add_chunk_agree. }
  destruct (startswith p "FILE:"); [|done].
  destruct (split ":" 2 p) as [|f1 [|f2 [|f3 [|? ?]]]]; try done.
  apply kept_eq in Hk as (Hm & Hf & Hd).
  destruct (Base64.b64decode f3); unfold kept, print, write_bytes; cbn;
    by rewrite Hm, Hf, Hd.
Qed.

End receivers_agree.

Lemma handle_rx_line_agree
    (cfg : LoraTransceiver.config) (line : string)
    (st1 st2 : LoraTransceiver.rx_state) :
  kept st1 = kept st2 →
  kept (LoraTransceiver._handle_rx_line cfg line st1).1
  = kept (RxReceiveFile.handle_line line st2).1
  ∧ (LoraTransceiver._handle_rx_line cfg line st1).2
    = (RxReceiveFile.handle_line line st2).2.
Proof.
  intros Hk.
  unfold LoraTransceiver._handle_rx_line, RxReceiveFile.handle_line.
  destruct (Py.startswith line "MSG,").
  { destruct (Py.split "," 5 line) as [|f1 [|f2 [|f3 [|f4 [|f5 [|f6 [|? ?]]]]]]];
      try (cbn [fst snd]; rewrite ?kept_print; done).
    apply handle_full_payload_agree. by rewrite kept_log, kept_print. }
  destruct (Py.startswith line "FRAG,");
    [|cbn [fst snd]; rewrite ?kept_print; done].
  destruct (Py.split "," 7 line)
    as [|f1 [|f2 [|f3 [|f4 [|f5 [|f6 [|f7 [|f8 [|? ?]]]]]]]]];
    try (cbn [fst snd]; rewrite ?kept_print; done).
  destruct (Py.int f3), (Py.int f4), (Py.int f5);
    try (cbn [fst snd]; rewrite ?kept_log, ?kept_print; done).
  change RxReceiveFile.add_frag with LoraTransceiver.add_frag.
  apply kept_eq in Hk as (Hm & Hf & Hd). rewrite Hm.
  destruct (LoraTransceiver.add_frag _ _ _ _ _ _) as [m [[full|]|e]].
  - apply handle_full_payload_agree. rewrite kept_log, kept_print.
    apply kept_eq. done.
  - split; [|done]. by apply kept_eq.
  - split; [|done]. by apply kept_eq.
Qed.

(** X6.  The two readers, [_handle_rx_line] of [lora_transceiver.py] and
    the loop body of [main] of [rx_receive_file.py], agree on every line:
    from states with the same dictionaries and files they reach states with
    the same dictionaries and files, and raise the same exception if any.
    They differ in what they print only. *)
Theorem X6_receivers_agree
    (cfg : LoraTransceiver.config) (line : string)
    (st1 st2 : LoraTransceiver.rx_state) :
  kept st1 = kept st2 →
  kept (LoraTransceiver._handle_rx_line cfg line st1).1
  = kept (RxReceiveFile.handle_line line st2).1
  ∧ (LoraTransceiver._handle_rx_line cfg line st1).2
    = (RxReceiveFile.handle_line line st2).2.
Proof. apply handle_rx_line_agree. Qed.

(** X6 on a one-shot [FILE] payload in a [MSG] line, from states that differ
    in what was printed. *)
Lemma X6_receivers_agree_witness :
  let st1 := LoraTransceiver.RxState ∅ ∅ ∅ [] in
  let st2 := LoraTransceiver.RxState ∅ ∅ ∅ ["[INFO] Listening"] in
  let cfg := LoraTransceiver.Config false false in
  let line := "MSG,n1,1,-50,3,FILE:a.txt:SGVsbG8=" in
  kept (LoraTransceiver._handle_rx_line cfg line st1).1
  = kept (RxReceiveFile.handle_line line st2).1
  ∧ (LoraTransceiver._handle_rx_line cfg line st1).2
    = (RxReceiveFile.handle_line line st2).2.
Proof.
  apply (X6_receivers_agree (LoraTransceiver.Config false false)
           "MSG,n1,1,-50,3,FILE:a.txt:SGVsbG8="
           (LoraTransceiver.RxState ∅ ∅ ∅ [])
           (LoraTransceiver.RxState ∅ ∅ ∅ ["[INFO] Listening"])).
  reflexivity.
Defined.

Section wire_facts.
Import Py LoraTransceiver.

Lemma handle_filechunk_payload tx_name idx tot_ chunk st :
  no_char ":" tx_name = true →
  handle_full_payload (filechunk_payload tx_name idx tot_ chunk) st
  = add_chunk tx_name idx tot_ chunk st
  ∧ RxReceiveFile.handle_full_payload (filechunk_payload tx_name idx tot_ chunk) st
    = RxReceiveFile.add_chunk tx_name idx tot_ chunk st.
Proof.
  intros Hname. split.
  - unfold handle_full_payload.
    rewrite startswith_filechunk, split_filechunk by done.
    by rewrite !int_str.
  - unfold RxReceiveFile.handle_full_payload.
    rewrite startswith_filechunk, split_filechunk by done.
    by rewrite !int_str.
Qed.

Lemma lines_from_lookup tx_name tot_ (cs : list string) :
  ∀ (a : Z) (k : nat),
    lines_from tx_name tot_ a cs !! k
    = (λ c, filechunk_line tx_name (a + Z.of_nat k) tot_ c) <$> cs !! k.
Proof.
  induction cs as [|c cs IH]; intros a [|k]; cbn [lines_from]; try done.
  - simpl. by rewrite Z.add_0_r.
  - simpl. rewrite IH. destruct (cs !! k); [|done]. simpl.
    do 2 f_equal. lia.
Qed.

Lemma indexed_lookup (cs : list string) (k : nat) :
  indexed cs !! k = (λ c, (Z.of_nat k, c)) <$> cs !! k.
Proof.
  unfold indexed, frags_in_order. rewrite list_lookup_fmap.
  destruct (decide (k < length cs)%nat) as [Hk|Hk].
  - rewrite lookup_seq_lt by done. simpl.
    destruct (lookup_lt_is_Some_2 cs k Hk) as [c Hc]. by rewrite Hc.
  - rewrite lookup_seq_ge by lia. by rewrite lookup_ge_None_2 by lia.
Qed.

Lemma lines_from_indexed tx_name (cs : list string) tot_ :
  lines_from tx_name tot_ 0 cs
  = (λ ic, filechunk_line tx_name ic.1 tot_ ic.2) <$> indexed cs.
Proof.
  apply list_eq. intros k.
  rewrite lines_from_lookup, list_lookup_fmap, indexed_lookup.
  by destruct (cs !! k).
Qed.

(** The payloads of the lines written are handled as the pieces they
    carry. *)
Lemma deliver_payloads_lines tx_name tot_ (frs : list (Z * string)) :
  no_char ":" tx_name = true →
  ∀ st,
    deliver_payloads
      (without_nl <$> ((λ ic, filechunk_line tx_name ic.1 tot_ ic.2) <$> frs)) st
    = deliver_chunks tx_name tot_ frs st.
Proof.
  intros Hname. induction frs as [|[i c] frs IH]; intros st; [done|].
  cbn [fmap list_fmap deliver_payloads deliver_chunks fst snd].
  rewrite filechunk_line_payload, without_nl_app.
  rewrite (proj1 (handle_filechunk_payload tx_name i tot_ c st Hname)).
  destruct (add_chunk tx_name i tot_ c st) as [st' [[]|e]]; [apply IH|done].
Qed.


(** The bytes [P] cut into pieces and delivered piece by piece. *)
Lemma transfer_chunks (P : list byte) (S : Z) fname st :
  0 < S →
  files st !! fname = None →
  ∃ cs st',
    split_chunks (Base64.b64encode P) S = Ret cs
    ∧ deliver_chunks fname (Z.of_nat (length cs)) (indexed cs) st = (st', Ret ())
    ∧ kept st' =
        (messages st, files st,
         match P with
         | [] => disk st
         | _ => <[stamped fname := P]> (disk st)
         end).
Proof.
  intros HS Hfree.
  set (b64 := Base64.b64encode P).
  set (n := Z.to_nat S).
  assert (0 < n)%nat as Hn by (unfold n; lia).
  set (cs := (λ i, slice b64 i (i + n)) <$> range_step (String.length b64) n).
  assert (join cs = b64) as Hjoin by (by apply join_range_step).
  assert (cs = [] ↔ P = []) as Hnil.
  { split.
    - intros Hcs. apply b64encode_empty. fold b64. by eapply join_nil_chunks.
    - intros ->. unfold cs, b64. simpl. unfold range_step.
      rewrite Nat.div_small by lia. done. }
  assert (split_chunks b64 S = Ret cs) as Hsp by (by apply split_chunks_pos).
  exists cs.
  destruct P as [|b P'].
  - rewrite (proj2 Hnil eq_refl) in Hsp |- *. eexists.
    split; [exact Hsp|]. split; [reflexivity|done].
  - assert (cs ≠ []) as Hne by (intros Hc; by apply Hnil in Hc).
    destruct (deliver_chunks_missing fname cs (seq 0 (length cs)) st)
      as (st' & Hrun & Hkept).
    + apply NoDup_seq.
    + intros i Hi. apply elem_of_seq in Hi. split; [lia|].
      by rewrite stored_None.
    + intros j c. by rewrite stored_None.
    + rewrite stored_None by done. rewrite map_size_empty, length_seq. lia.
    + destruct cs; [done|]. done.
    + exists st'. split; [exact Hsp|].
      split; [exact Hrun|]. rewrite Hkept, Hjoin.
      unfold b64. rewrite b64decode_b64encode.
      by rewrite delete_id.
Qed.

End wire_facts.



Section raise_facts.
Import Py LoraTransceiver.

Lemma ordered_KeyError (ch : gmap Z string) (indices : list Z) e :
  ordered ch indices = Raise e →
  ∃ i, e = KeyError i ∧ i ∈ indices ∧ ch !! i = None.
Proof.
  induction indices as [|i rest IH]; [done|]. cbn [ordered].
  destruct (ch !! i) eqn:Hi.
  - destruct (ordered ch rest); [done|]. intros [= <-].
    destruct (IH eq_refl) as (k & -> & Hk & Hnone).
    exists k. split; [done|]. split; [by right|done].
  - intros [= <-]. exists i. split; [done|]. split; [by left|done].
Qed.

Lemma add_frag_raises m src seq_ idx tot_ c m' e :
  add_frag m src seq_ idx tot_ c = (m', Raise e) →
  ∃ k, e = KeyError k ∧ 0 ≤ k < tot_
       ∧ m' = <[(src, seq_) := Entry tot_ (<[idx := c]> (stored m (src, seq_)))]> m.
Proof.
  rewrite add_frag_eq. cbv zeta.
  destruct (_ =? _); [|done].
  destruct (ordered _ _) eqn:Hord; [done|]. intros [= <- <-].
  apply ordered_KeyError in Hord as (k & -> & Hk & _).
  exists k. split; [done|]. split; [|done].
  unfold range in Hk. apply elem_of_seqZ in Hk. lia.
Qed.

Lemma add_chunk_raises fname idx tot_ c st st' e :
  add_chunk fname idx tot_ c st = (st', Raise e) →
  ∃ k, e = KeyError k ∧ 0 ≤ k < tot_.
Proof.
  rewrite add_chunk_eq. cbv zeta.
  destruct (_ =? _); [|done].
  destruct (ordered _ _) eqn:Hord.
  - destruct (Base64.b64decode _); [|done]. by destruct (startswith _ _).
  - intros [= <- <-]. apply ordered_KeyError in Hord as (k & -> & Hk & _).
    exists k. split; [done|]. unfold range in Hk. apply elem_of_seqZ in Hk. lia.
Qed.

Lemma handle_full_payload_raises p st st' e :
  handle_full_payload p st = (st', Raise e) →
  startswith p "FILECHUNK:" = true ∧ ∃ k, e = KeyError k ∧ 0 ≤ k.
Proof.
  unfold handle_full_payload.
  destruct (startswith p "FILECHUNK:").
  - destruct (split ":" 4 p) as [|f1 [|f2 [|f3 [|f4 [|f5 [|? ?]]]]]]; try done.
    destruct (int f3), (int f4); try done.
    intros (k & -> & Hk)%add_chunk_raises. split; [done|]. exists k. split; [done|lia].
  - destruct (startswith p "FILE:"); [|done].
    destruct (split ":" 2 p) as [|f1 [|f2 [|f3 [|? ?]]]]; try done.
    by destruct (Base64.b64decode f3).
Qed.

End raise_facts.

Lemma handle_rx_line_raises
    (cfg : LoraTransceiver.config) (line : string)
    (st : LoraTransceiver.rx_state) (e : Py.exn) :
  (LoraTransceiver._handle_rx_line cfg line st).2 = Py.Raise e →
  (∃ k, e = Py.KeyError k ∧ 0 ≤ k)
  ∧ (Py.startswith line "MSG," = true ∨ Py.startswith line "FRAG," = true)
  ∧ (RxReceiveFile.handle_line line st).2 = Py.Raise e.
Proof.
  intros Hrun.
  assert ((RxReceiveFile.handle_line line st).2 = Py.Raise e) as Hrx.
  { destruct (handle_rx_line_agree cfg line st st eq_refl) as [_ Hr].
    by rewrite Hrun in Hr. }
  split; [|split; [|done]].
  - unfold LoraTransceiver._handle_rx_line in Hrun.
    destruct (Py.startswith line "MSG,").
    { destruct (Py.split "," 5 line) as [|f1 [|f2 [|f3 [|f4 [|f5 [|f6 [|? ?]]]]]]];
        try done.
      destruct (LoraTransceiver.handle_full_payload _ _) as [st' r] eqn:Hp.
      cbn [snd] in Hrun. subst r.
      by apply handle_full_payload_raises in Hp as [_ Hk]. }
    destruct (Py.startswith line "FRAG,"); [|done].
    destruct (Py.split "," 7 line)
      as [|f1 [|f2 [|f3 [|f4 [|f5 [|f6 [|f7 [|f8 [|? ?]]]]]]]]]; try done.
    destruct (Py.int f3), (Py.int f4), (Py.int f5); try done.
    destruct (LoraTransceiver.add_frag _ _ _ _ _ _) as [m [[full|]|e']] eqn:Hadd.
    + destruct (LoraTransceiver.handle_full_payload _ _) as [st' r] eqn:Hp.
      cbn [snd] in Hrun. subst r.
      by apply handle_full_payload_raises in Hp as [_ Hk].
    + done.
    + injection Hrun as <-.
      apply add_frag_raises in Hadd as (k & -> & Hk & _).
      exists k. split; [done|lia].
  - unfold LoraTransceiver._handle_rx_line in Hrun.
    destruct (Py.startswith line "MSG,"); [by left|].
    destruct (Py.startswith line "FRAG,"); [by right|done].
Qed.

(** X8.  When [_handle_rx_line] raises [KeyError], the key is an index
    that is missing from a reassembly and is not negative, the line is a
    [MSG] or [FRAG] line, and the loop body of [rx_receive_file.py]
    raises the same [KeyError] from the same dictionaries.  (The
    exception of a file write that fails is another matter: [write_bytes]
    is taken to succeed.) *)
Theorem X8_key_error_raised
    (cfg : LoraTransceiver.config) (line : string)
    (st : LoraTransceiver.rx_state) (k : Z) :
  (LoraTransceiver._handle_rx_line cfg line st).2 = Py.Raise (Py.KeyError k) →
  0 ≤ k
  ∧ (Py.startswith line "MSG," = true ∨ Py.startswith line "FRAG," = true)
  ∧ (RxReceiveFile.handle_line line st).2 = Py.Raise (Py.KeyError k).
Proof.
  intros Hrun.
  destruct (handle_rx_line_raises cfg line st _ Hrun)
    as ((k' & [= ->] & Hk) & Hline & Hrx).
  done.
Qed.

(** X8 on a fragment with index 5 of a total of 1. *)
Lemma X8_key_error_raised_witness :
  let st := LoraTransceiver.RxState ∅ ∅ ∅ [] in
  let line := "FRAG,n1,7,5,1,-50,3,x" in
  0 ≤ 0
  ∧ (Py.startswith line "MSG," = true ∨ Py.startswith line "FRAG," = true)
  ∧ (RxReceiveFile.handle_line line st).2 = Py.Raise (Py.KeyError 0).
Proof.
  apply (X8_key_error_raised (LoraTransceiver.Config false false)
           "FRAG,n1,7,5,1,-50,3,x" (LoraTransceiver.RxState ∅ ∅ ∅ []) 0).
  vm_compute. reflexivity.
Defined.

Section interference_facts.
Import Py LoraTransceiver.

(** A stored index outside the total stays, and keeps the message from
    completing: with it the chunks cannot be exactly the indices below the
    total. *)
Lemma out_of_range_step m src seq_ idx tot_ c j :
  is_Some (stored m (src, seq_) !! j) →
  ¬ (0 ≤ j < tot_) →
  let r := add_frag m src seq_ idx tot_ c in
  (r.2 = Ret None ∨ ∃ k, r.2 = Raise (KeyError k) ∧ 0 ≤ k < tot_)
  ∧ is_Some (stored r.1 (src, seq_) !! j).
Proof.
  intros Hj Hout r. unfold r. rewrite add_frag_eq. cbv zeta.
  set (ch := <[idx := c]> (stored m (src, seq_))).
  assert (is_Some (ch !! j)) as Hchj.
  { unfold ch. destruct (decide (idx = j)) as [->|Hne].
    - rewrite lookup_insert_eq. by eexists.
    - by rewrite lookup_insert_ne. }
  destruct (Z.eqb_spec (Z.of_nat (size ch)) tot_) as [Hsz|Hsz].
  - destruct (ordered ch (range tot_)) as [l|e] eqn:Hord.
    + exfalso. apply ordered_Ret in Hord.
      assert (∀ i, 0 ≤ i < tot_ → is_Some (ch !! i)) as Hall.
      { intros i Hi.
        assert (i ∈ seqZ 0 tot_) as Hin by (apply elem_of_seqZ; lia).
        apply list_elem_of_lookup in Hin as [n Hn].
        destruct (Forall2_lookup_l _ _ _ _ _ Hord Hn) as (x & _ & Hx).
        by eexists. }
      assert (list_to_set (seqZ 0 tot_) ∪ {[j]} ⊆ dom ch) as Hsub.
      { intros i [Hi | Hi]%elem_of_union.
        - apply elem_of_list_to_set, elem_of_seqZ in Hi.
          apply elem_of_dom, Hall. lia.
        - apply elem_of_singleton in Hi as ->. by apply elem_of_dom. }
      apply subseteq_size in Hsub.
      rewrite size_union in Hsub.
      2:{ intros i Hi1 Hi2. apply elem_of_list_to_set, elem_of_seqZ in Hi1.
          apply elem_of_singleton in Hi2 as ->. lia. }
      rewrite size_singleton, size_list_to_set in Hsub by apply NoDup_seqZ.
      rewrite length_seqZ, size_dom in Hsub. lia.
    + cbn [fst snd]. split.
      * right. apply ordered_KeyError in Hord as (k & -> & Hk & _).
        exists k. split; [done|]. unfold range in Hk.
        apply elem_of_seqZ in Hk. lia.
      * by rewrite stored_insert.
  - cbn [fst snd]. split; [by left|]. by rewrite stored_insert.
Qed.

End interference_facts.

(** X9.  [add_frag] touches the entry of its own key only, and its result
    depends on what is stored for that key only: messages of different
    sources or sequence numbers do not interfere. *)
Theorem X9_other_keys_untouched
    (m1 m2 : gmap (string * Z) LoraTransceiver.entry) (src : string)
    (seq_ idx tot_ : Z) (c : string) (key' : string * Z) :
  (src, seq_) ≠ key' →
  stored m1 (src, seq_) = stored m2 (src, seq_) →
  (LoraTransceiver.add_frag m1 src seq_ idx tot_ c).1 !! key' = m1 !! key'
  ∧ (LoraTransceiver.add_frag m1 src seq_ idx tot_ c).2
    = (LoraTransceiver.add_frag m2 src seq_ idx tot_ c).2.
Proof.
  intros Hne Hst. rewrite !add_frag_eq. cbv zeta. rewrite Hst.
  destruct (_ =? _).
  - destruct (LoraTransceiver.ordered _ _); cbn [fst snd].
    + by rewrite lookup_delete_ne.
    + by rewrite lookup_insert_ne.
  - cbn [fst snd]. by rewrite lookup_insert_ne.
Qed.

(** X10.  Once a key holds an index outside [[0, tot)], no fragment
    delivered with the total [tot] completes it: every call returns [None]
    or raises [KeyError] for a missing index below [tot], and the index
    stays. *)
Theorem X10_out_of_range_blocks
    (m : gmap (string * Z) LoraTransceiver.entry) (src : string)
    (seq_ tot_ j : Z) (x : string) (frags : list (Z * string)) :
  stored m (src, seq_) !! j = Some x →
  ¬ (0 ≤ j < tot_) →
  Forall (λ r, r = Py.Ret None ∨ ∃ k, r = Py.Raise (Py.KeyError k) ∧ 0 ≤ k < tot_)
    (deliver_frags src seq_ tot_ frags m).2
  ∧ is_Some (stored (deliver_frags src seq_ tot_ frags m).1 (src, seq_) !! j).
Proof.
  intros Hj Hout.
  assert (is_Some (stored m (src, seq_) !! j)) as Hs by (by eexists).
  clear Hj. revert m Hs.
  induction frags as [|[idx c] frags IH]; intros m Hs; [by split|].
  cbn [deliver_frags].
  destruct (out_of_range_step m src seq_ idx tot_ c j Hs Hout) as [Hr Hs'].
  destruct (LoraTransceiver.add_frag m src seq_ idx tot_ c) as [m1 r].
  cbn [fst snd] in Hr, Hs'.
  destruct (IH m1 Hs') as [Hall Hfin].
  destruct (deliver_frags src seq_ tot_ frags m1) as [m2 rs].
  cbn [fst snd] in *. split; [by constructor|done].
Qed.

(** X9 on a fragment of [n1] while a message of [n2] is pending. *)
Lemma X9_other_keys_untouched_witness :
  let m1 := (LoraTransceiver.add_frag ∅ "n2" 3 0 2 "zz").1 in
  (LoraTransceiver.add_frag m1 "n1" 7 0 1 "ab").1 !! ("n2", 3) = m1 !! ("n2", 3)
  ∧ (LoraTransceiver.add_frag m1 "n1" 7 0 1 "ab").2
    = (LoraTransceiver.add_frag ∅ "n1" 7 0 1 "ab").2.
Proof.
  apply (X9_other_keys_untouched
           (LoraTransceiver.add_frag ∅ "n2" 3 0 2 "zz").1 ∅ "n1" 7 0 1 "ab"
           ("n2", 3)).
  - discriminate.
  - reflexivity.
Defined.

(** X10 on a message of two fragments that holds the index 5. *)
Lemma X10_out_of_range_blocks_witness :
  let m := (LoraTransceiver.add_frag ∅ "n1" 7 5 2 "x").1 in
  Forall (λ r, r = Py.Ret None ∨ ∃ k, r = Py.Raise (Py.KeyError k) ∧ 0 ≤ k < 2)
    (deliver_frags "n1" 7 2 [(0, "a"); (1, "b")] m).2
  ∧ is_Some (stored (deliver_frags "n1" 7 2 [(0, "a"); (1, "b")] m).1 ("n1", 7)
               !! 5).
Proof.
  apply (X10_out_of_range_blocks (LoraTransceiver.add_frag ∅ "n1" 7 5 2 "x").1
           "n1" 7 2 5 "x" [(0, "a"); (1, "b")]).
  - reflexivity.
  - lia.
Defined.

(** X11.  When a line makes the reassembly raise, [_reader_loop] of
    [lora_transceiver.py] ends with that exception and reads no further
    line, while the loop of [main] of [rx_receive_file.py] prints the
    exception and goes on with the next line, from the same dictionaries
    and files. *)
Theorem X11_key_error_in_the_loops
    (cfg : LoraTransceiver.config) (line : string) (rest : list string)
    (s : LoraTransceiver.session) (st : LoraTransceiver.rx_state) (e : Py.exn) :
  Py.contains "[TX DONE]" line = false →
  Py.contains "[ABORT]" line = false →
  Py.contains "TX FAILED" line = false →
  (LoraTransceiver._handle_rx_line cfg line (LoraTransceiver.rx s)).2
  = Py.Raise e →
  kept st = kept (LoraTransceiver.rx s) →
  (LoraTransceiver._reader_loop cfg (line :: rest) s
   = LoraTransceiver._reader_loop cfg [line] s
   ∧ (LoraTransceiver._reader_loop cfg [line] s).2 = Py.Raise e)
  ∧ ∃ st1,
      RxReceiveFile.main_step line st
      = LoraTransceiver.print ("[ERROR] " +:+ RxReceiveFile.exn_text e) st1
      ∧ kept st1
        = kept (LoraTransceiver._handle_rx_line cfg line (LoraTransceiver.rx s)).1
      ∧ RxReceiveFile.main_loop (line :: rest) st
        = RxReceiveFile.main_loop rest
            (LoraTransceiver.print ("[ERROR] " +:+ RxReceiveFile.exn_text e) st1).
Proof.
  intros Hdone Habort Hfailed Hraise Hkept.
  destruct (handle_rx_line_raises cfg line _ e Hraise) as (_ & Hstart & _).
  assert (String.eqb line "" = false) as Hne.
  { destruct line; [|done]. by destruct Hstart. }
  assert (Py.startswith line "MSG," || Py.startswith line "FRAG," = true) as Hor.
  { destruct Hstart as [-> | ->]; [done|]. apply orb_true_r. }
  split.
  - assert (LoraTransceiver.reader_step cfg line s
            = (LoraTransceiver.Session
                 (LoraTransceiver._handle_rx_line cfg line (LoraTransceiver.rx s)).1
                 (LoraTransceiver.tx_last s) (LoraTransceiver.tx_event s),
               Py.Raise e)) as Hstep.
    { unfold LoraTransceiver.reader_step.
      rewrite Hne, Hor, andb_false_r, Hdone, Habort, Hfailed. cbn [orb].
      destruct (LoraTransceiver._handle_rx_line cfg line (LoraTransceiver.rx s))
        as [r res]. cbn [fst snd] in *. by subst res. }
    cbn [LoraTransceiver._reader_loop]. by rewrite Hstep.
  - destruct (handle_rx_line_agree cfg line (LoraTransceiver.rx s) st
                (eq_sym Hkept)) as [Hk Hr].
    rewrite Hraise in Hr.
    destruct (RxReceiveFile.handle_line line st) as [st1 res] eqn:Hrx.
    cbn [fst snd] in Hk, Hr. subst res.
    assert (RxReceiveFile.main_step line st
            = LoraTransceiver.print ("[ERROR] " +:+ RxReceiveFile.exn_text e) st1)
      as Hstep.
    { unfold RxReceiveFile.main_step. by rewrite Hne, Hrx. }
    exists st1. split; [done|]. split; [done|].
    unfold RxReceiveFile.main_loop. simpl. by rewrite Hstep.
Qed.

(** X11 on a fragment with index 5 of a total of 1, followed by a [MSG]
    line. *)
Lemma X11_key_error_in_the_loops_witness :
  let cfg := LoraTransceiver.Config false false in
  let st := LoraTransceiver.RxState ∅ ∅ ∅ [] in
  let s := LoraTransceiver.Session st None false in
  let line := "FRAG,n1,7,5,1,-50,3,x" in
  let rest := ["MSG,n1,8,-50,3,hello"] in
  let e := Py.KeyError 0 in
  (LoraTransceiver._reader_loop cfg (line :: rest) s
   = LoraTransceiver._reader_loop cfg [line] s
   ∧ (LoraTransceiver._reader_loop cfg [line] s).2 = Py.Raise e)
  ∧ ∃ st1,
      RxReceiveFile.main_step line st
      = LoraTransceiver.print ("[ERROR] " +:+ RxReceiveFile.exn_text e) st1
      ∧ kept st1
        = kept (LoraTransceiver._handle_rx_line cfg line (LoraTransceiver.rx s)).1
      ∧ RxReceiveFile.main_loop (line :: rest) st
        = RxReceiveFile.main_loop rest
            (LoraTransceiver.print ("[ERROR] " +:+ RxReceiveFile.exn_text e) st1).
Proof.
  apply (X11_key_error_in_the_loops (LoraTransceiver.Config false false)
           "FRAG,n1,7,5,1,-50,3,x" ["MSG,n1,8,-50,3,hello"]
           (LoraTransceiver.Session (LoraTransceiver.RxState ∅ ∅ ∅ []) None false)
           (LoraTransceiver.RxState ∅ ∅ ∅ []) (Py.KeyError 0)).
  - reflexivity.
  - reflexivity.
  - reflexivity.
  - vm_compute. reflexivity.
  - reflexivity.
Defined.

(* ===================================================================== *)
(** ** The mesh receiver *)
(* ===================================================================== *)

Section mesh_receive_facts.
Import Py MeshReceiver.

Lemma split_frag idx total chunk :
  split ":" 3 (frag_payload idx total chunk)
  = ["FRAG"; str idx; str total; chunk].
Proof.
  change (frag_payload idx total chunk)
    with ("FRAG" +:+ String ":" (str idx +:+ String ":" (str total
            +:+ String ":" chunk))).
  rewrite split_field by reflexivity.
  rewrite split_field by (by apply no_char_str).
  rewrite split_field by (by apply no_char_str).
  done.
Qed.

Lemma startswith_frag idx total chunk :
  startswith (frag_payload idx total chunk) "FRAG:" = true.
Proof. apply startswith_app. Qed.

Lemma process_payload_frag clk src idx total chunk r :
  process_payload clk src (frag_payload idx total chunk) r
  = handle_fragment clk src (frag_payload idx total chunk) r.
Proof. unfold process_payload. by rewrite startswith_frag. Qed.

(** The loop of [get_reassembled] collects what [ordered] lists. *)
Lemma collect_ordered (ch : gmap Z string) (indices : list Z) :
  ∀ acc,
    collect ch indices acc
    = match LoraTransceiver.ordered ch indices with
      | Ret l => Some (acc +:+ join l)
      | Raise _ => None
      end.
Proof.
  induction indices as [|i rest IH]; intros acc; cbn [collect LoraTransceiver.ordered].
  - by rewrite app_empty_r.
  - destruct (ch !! i) as [c|]; [|done]. rewrite IH.
    destruct (LoraTransceiver.ordered ch rest); [|done].
    cbn [join fold_right]. by rewrite app_assoc_s.
Qed.

(** [handle_fragment] on a fragment whose index is not stored yet. *)
Lemma handle_fragment_new clk src idx total chunk r :
  let key := (src, total) in
  let ch := <[idx := chunk]> (received r key) in
  received r key !! idx = None →
  (∀ m, fragments r !! key = Some m → total_chunks m = total) →
  ∃ r1 msg,
    fragments r1 = <[key := msg]> (fragments r)
    ∧ received_chunks msg = ch
    ∧ total_chunks msg = total
    ∧ last_update msg = now clk
    ∧ disk r1 = disk r
    ∧ stats r1 = MkReceptionStats (messages_received (stats r))
                   (fragments_received (stats r) + 1) (files_received (stats r))
                   (total_bytes (stats r)) (start_time (stats r))
    ∧ handle_fragment clk src (frag_payload idx total chunk) r
      = if Z.of_nat (size ch) =? total then
          let r2 := print ("[FRAG] All chunks received from " +:+ src
                             +:+ ", reassembling...") r1 in
          match collect ch (range total) "" with
          | Some (String c s as full_data) =>
              complete_payload clk src full_data
                (set_fragments (delete key (fragments r2)) r2)
          | _ => print ("[ERROR] Failed to reassemble message from "
                          +:+ src) r2
          end
        else r1.
Proof.
  intros key ch Hnew Htot.
  unfold handle_fragment. rewrite split_frag, !int_str. cbv zeta. fold key.
  unfold received in Hnew, ch.
  set (st' := MkReceptionStats (messages_received (stats r))
                (fragments_received (stats r) + 1) (files_received (stats r))
                (total_bytes (stats r)) (start_time (stats r))).
  set (line := "[FRAG] Chunk " +:+ str (idx + 1) +:+ "/" +:+ str total
                 +:+ " from " +:+ src).
  destruct (fragments r !! key) as [m|] eqn:Hm.
  - rewrite Hm. cbn [default from_option id]. rewrite Hnew.
    set (msg := MkFragmentedMessage (total_chunks m)
                  (<[idx := chunk]> (received_chunks m)) (first_seen m)
                  (now clk) (MeshReceiver.source m)).
    exists (print line (set_stats st' (set_fragments (<[key := msg]> (fragments r)) r))),
      msg.
    split; [reflexivity|]. split; [reflexivity|].
    split; [exact (Htot m eq_refl)|].
    repeat (split; [reflexivity|]).
    unfold is_complete, get_reassembled, is_complete.
    cbn [received_chunks total_chunks msg]. rewrite (Htot m eq_refl).
    destruct (_ =? _); [|done]. cbn [negb]. unfold complete_payload.
    destruct (collect _ _ _) as [[|]|]; done.
  - cbn [fragments print set_fragments]. rewrite lookup_insert_eq.
    cbn [default from_option id received_chunks]. rewrite lookup_empty.
    cbn [total_chunks first_seen source].
    set (msg := MkFragmentedMessage total (<[idx := chunk]> ∅) (now clk)
                  (now clk) src).
    set (r0 := Receiver (<[key := MkFragmentedMessage total ∅ (now clk) (now clk)
                                    src]> (fragments r)) (stats r) (disk r)
                 (out r ++ [nl +:+ "[FRAG] New fragmented message from "
                              +:+ src +:+ " (" +:+ str total +:+ " chunks)"])).
    exists (print line (set_stats st' (set_fragments (<[key := msg]> (fragments r0)) r0))),
      msg.
    split.
    { cbn [fragments print set_fragments stats disk out set_stats r0].
      by rewrite insert_insert_eq. }
    repeat (split; [reflexivity|]).
    unfold is_complete, get_reassembled, is_complete.
    cbn [received_chunks total_chunks msg].
    destruct (_ =? _); [|done]. cbn [negb]. unfold complete_payload.
    destruct (collect _ _ _) as [[|]|]; done.
Qed.


Lemma received_insert r r1 key msg :
  fragments r1 = <[key := msg]> (fragments r) →
  received r1 key = received_chunks msg.
Proof. intros Hf. unfold received. by rewrite Hf, lookup_insert_eq. Qed.

(** Delivering the missing fragments of a message, each once, in any
    order: the last one completes it, and the complete payload is handled
    in a state that has lost the pending entry and counted the
    fragments. *)
Lemma mesh_deliver_missing src (cs : list string) (todo : list (clock * nat)) :
  let key := (src, Z.of_nat (length cs)) in
  ∀ r clk_last,
    NoDup (todo.*2) →
    (∀ i, i ∈ todo.*2 →
          (i < length cs)%nat ∧ received r key !! Z.of_nat i = None) →
    (∀ j c, received r key !! j = Some c →
            ∃ i : nat, j = Z.of_nat i ∧ cs !! i = Some c) →
    (size (received r key) + length todo = length cs)%nat →
    (∀ m, fragments r !! key = Some m → total_chunks m = Z.of_nat (length cs)) →
    join cs ≠ "" →
    todo ≠ [] →
    ∃ r_mid,
      deliver_mesh src (mesh_frags cs todo) r
      = complete_payload (List.last (todo.*1) clk_last) src (join cs) r_mid
      ∧ fragments r_mid = delete key (fragments r)
      ∧ disk r_mid = disk r
      ∧ stats r_mid
        = MkReceptionStats (messages_received (stats r))
            (fragments_received (stats r) + Z.of_nat (length todo))
            (files_received (stats r)) (total_bytes (stats r))
            (start_time (stats r)).
Proof.
  intros key.
  induction todo as [|[clk i] todo IH];
    intros r clk_last Hnd Hin Hcs Hsz Htot Hfull Hne; [done|].
  clear Hne. cbn [fmap list_fmap fst snd] in Hnd, Hin.
  apply NoDup_cons in Hnd as [Hi Hnd].
  destruct (Hin i ltac:(left)) as [Hlt Hnone].
  destruct (cs !! i) as [c|] eqn:Hci;
    [|apply lookup_ge_None in Hci; lia].
  cbn [mesh_frags fmap list_fmap deliver_mesh fst snd]. rewrite Hci.
  cbn [default from_option id].
  fold (mesh_frags cs todo).
  unfold process_payload at 1. rewrite startswith_frag.
  destruct (handle_fragment_new clk src (Z.of_nat i) (Z.of_nat (length cs)) c r
              Hnone Htot)
    as (r1 & msg & Hf1 & Hrc & Htc & _ & Hd1 & Hs1 & Hrun).
  fold key in Hf1, Hrun. rewrite Hrun. clear Hrun.
  set (ch := <[Z.of_nat i := c]> (received r key)) in *.
  assert (size ch = S (size (received r key))) as Hch
    by (by apply map_size_insert_None).
  assert (∀ j c', ch !! j = Some c' →
                  ∃ i' : nat, j = Z.of_nat i' ∧ cs !! i' = Some c') as Hcs'.
  { intros j c'. unfold ch. rewrite lookup_insert.
    case_decide as Hj; [|by apply Hcs].
    intros [= <-]. by exists i. }
  destruct todo as [|[clk2 i2] todo].
  - (* the last fragment *)
    simpl in Hsz.
    replace (Z.of_nat (size ch) =? Z.of_nat (length cs)) with true
      by (symmetry; apply Z.eqb_eq; lia).
    cbv zeta. rewrite collect_ordered.
    rewrite (ordered_complete ch cs Hcs') by lia.
    cbn [String.app]. change ("" +:+ join cs) with (join cs).
    destruct (join cs) as [|a full] eqn:Hj; [done|].
    cbn [deliver_mesh fmap list_fmap List.last fst].
    eexists. split; [reflexivity|].
    cbn [fragments disk stats set_fragments print].
    rewrite Hf1, Hd1, Hs1. rewrite delete_insert_eq.
    split; [done|]. split; [done|]. cbn [length]. done.
  - (* more to come *)
    cbn [length] in Hsz.
    replace (Z.of_nat (size ch) =? Z.of_nat (length cs)) with false
      by (symmetry; apply Z.eqb_neq; lia).
    assert (received r1 key = ch) as Hr1
      by (by rewrite (received_insert r r1 key msg Hf1)).
    destruct (IH r1 clk_last) as (r_mid & Hrun & Hfm & Hdm & Hsm).
    + done.
    + intros i' Hi'. rewrite Hr1.
      destruct (Hin i' ltac:(by right)) as [? ?]. split; [done|].
      unfold ch. rewrite lookup_insert_ne; [done|].
      intros Heq. apply Nat2Z.inj in Heq. subst. done.
    + by rewrite Hr1.
    + rewrite Hr1. cbn [length]. lia.
    + intros m. rewrite Hf1, lookup_insert_eq. by intros [= <-].
    + done.
    + done.
    + exists r_mid. split; [exact Hrun|].
      rewrite Hfm, Hdm, Hsm, Hf1, Hd1, Hs1, delete_insert_eq.
      cbn [messages_received fragments_received files_received total_bytes
           start_time length].
      split; [done|]. split; [done|]. f_equal. lia.
Qed.

End mesh_receive_facts.

Section mesh_file_facts.
Import Py MeshReceiver.

Lemma file_payload_fields name raw :
  file_payload name raw
  = "FILE" +:+ String ":" (name +:+ String ":" (str (Z.of_nat (length raw))
      +:+ String ":" (Base64.b64encode raw))).
Proof.
  unfold file_payload. rewrite !app_assoc_s. reflexivity.
Qed.

Lemma startswith_file_payload name raw :
  startswith (file_payload name raw) "FILE:" = true.
Proof. unfold file_payload. rewrite !app_assoc_s. apply startswith_app. Qed.

(** [handle_file] on the payload the sender builds, for a name without
    colon that names an entry of the directory, free and accepted by the
    file system. *)
Lemma handle_file_payload src name raw r :
  no_char ":" name = true →
  resolve name = Entry name →
  accepted name = true →
  disk r !! name = None →
  let r' := handle_file src (file_payload name raw) r in
  disk r' = <[name := raw]> (disk r)
  ∧ fragments r' = fragments r
  ∧ stats r' = MkReceptionStats (messages_received (stats r))
                 (fragments_received (stats r)) (files_received (stats r) + 1)
                 (total_bytes (stats r) + Z.of_nat (length raw))
                 (start_time (stats r))
  ∧ List.last (out r') "" = "[FILE] ✓ Size matches expected".
Proof.
  intros Hname Hres Hacc Hfree r'. unfold r', handle_file.
  rewrite file_payload_fields.
  rewrite split_field by reflexivity.
  rewrite split_field by done.
  rewrite split_field by (by apply no_char_str).
  cbn [split]. rewrite int_str, b64decode_b64encode.
  cbn [disk print]. rewrite (chosen_path_free_entry _ _ _ Hres Hfree Hacc).
  rewrite Z.eqb_refl.
  cbn [disk fragments stats out print set_disk set_stats].
  repeat split; try reflexivity.
  by rewrite last_last.
Qed.

End mesh_file_facts.

(** X12.  The fragments of a message that is not empty, delivered to
    [process_payload] of [mesh_receiver.py] each once and in any order
    while no entry is pending for the source and that number of
    fragments, are reassembled by the last one: the joined pieces are
    handled as one complete payload, with the clock of that last
    delivery, in a state that has no pending entry for the message any
    more and has counted every fragment.  A text is appended to
    [messages.log] as one line in UTF-8. *)
Theorem X12_mesh_any_order
    (src : string) (cs : list string)
    (order : list (MeshReceiver.clock * nat)) (r : MeshReceiver.receiver)
    (clk0 : MeshReceiver.clock) :
  order.*2 ≡ₚ seq 0 (length cs) →
  MeshReceiver.fragments r !! (src, Z.of_nat (length cs)) = None →
  Py.join cs ≠ "" →
  let r' := deliver_mesh src (mesh_frags cs order) r in
  let clk := List.last (order.*1) clk0 in
  (∃ r_mid,
     r' = complete_payload clk src (Py.join cs) r_mid
     ∧ MeshReceiver.fragments r_mid = MeshReceiver.fragments r
     ∧ MeshReceiver.disk r_mid = MeshReceiver.disk r
     ∧ MeshReceiver.stats r_mid
       = MeshReceiver.MkReceptionStats
           (MeshReceiver.messages_received (MeshReceiver.stats r))
           (MeshReceiver.fragments_received (MeshReceiver.stats r)
            + Z.of_nat (length cs))
           (MeshReceiver.files_received (MeshReceiver.stats r))
           (MeshReceiver.total_bytes (MeshReceiver.stats r))
           (MeshReceiver.start_time (MeshReceiver.stats r)))
  ∧ (Py.startswith (Py.join cs) "FILE:" = false →
     MeshReceiver.fragments r' = MeshReceiver.fragments r
     ∧ MeshReceiver.disk r'
       = <["messages.log" :=
             default [] (MeshReceiver.disk r !! "messages.log")
             ++ Py.encode ("[" +:+ MeshReceiver.stamp clk +:+ "] " +:+ src
                             +:+ ": " +:+ Py.join cs +:+ Py.nl)]>
           (MeshReceiver.disk r)
     ∧ MeshReceiver.messages_received (MeshReceiver.stats r')
       = MeshReceiver.messages_received (MeshReceiver.stats r) + 1).
Proof.
  intros Hperm Hkey Hfull r' clk.
  assert (length order = length cs) as Hlen.
  { rewrite <- (length_fmap snd order), Hperm. apply length_seq. }
  assert (order ≠ []) as Hne.
  { intros ->. destruct cs; [done|]. simpl in Hlen. lia. }
  assert (received r (src, Z.of_nat (length cs)) = ∅) as Hrec.
  { unfold received. by rewrite Hkey. }
  destruct (mesh_deliver_missing src cs order r clk0) as (r_mid & Hrun & Hf & Hd & Hs).
  - rewrite Hperm. apply NoDup_seq.
  - intros i Hi. rewrite Hperm in Hi. apply elem_of_seq in Hi.
    split; [lia|]. by rewrite Hrec.
  - intros j c. by rewrite Hrec.
  - rewrite Hrec, map_size_empty. lia.
  - intros m. by rewrite Hkey.
  - done.
  - done.
  - rewrite delete_id in Hf by done. rewrite Hlen in Hs.
    split; [by exists r_mid|].
    intros Htext. unfold r'. rewrite Hrun. unfold complete_payload.
    rewrite Htext. unfold MeshReceiver.handle_text_message.
    cbn [MeshReceiver.fragments MeshReceiver.disk MeshReceiver.stats
         MeshReceiver.print MeshReceiver.set_stats MeshReceiver.set_disk
         MeshReceiver.messages_received].
    rewrite Hf, Hd, Hs. done.
Qed.

(** X12 on the text [hello] in two pieces, the second delivered first. *)
Lemma X12_mesh_any_order_witness :
  let src := "Node_1" in
  let cs := ["he"; "llo"] in
  let order := [(MeshReceiver.Clock 6 "t2", 1%nat); (MeshReceiver.Clock 5 "t1", 0%nat)] in
  let r := MeshReceiver.Receiver ∅ (MeshReceiver.MkReceptionStats 0 0 0 0 0) ∅ [] in
  let clk0 := MeshReceiver.Clock 0 "" in
  let r' := deliver_mesh src (mesh_frags cs order) r in
  let clk := List.last (order.*1) clk0 in
  (∃ r_mid,
     r' = complete_payload clk src (Py.join cs) r_mid
     ∧ MeshReceiver.fragments r_mid = MeshReceiver.fragments r
     ∧ MeshReceiver.disk r_mid = MeshReceiver.disk r
     ∧ MeshReceiver.stats r_mid
       = MeshReceiver.MkReceptionStats
           (MeshReceiver.messages_received (MeshReceiver.stats r))
           (MeshReceiver.fragments_received (MeshReceiver.stats r)
            + Z.of_nat (length cs))
           (MeshReceiver.files_received (MeshReceiver.stats r))
           (MeshReceiver.total_bytes (MeshReceiver.stats r))
           (MeshReceiver.start_time (MeshReceiver.stats r)))
  ∧ (Py.startswith (Py.join cs) "FILE:" = false →
     MeshReceiver.fragments r' = MeshReceiver.fragments r
     ∧ MeshReceiver.disk r'
       = <["messages.log" :=
             default [] (MeshReceiver.disk r !! "messages.log")
             ++ Py.encode ("[" +:+ MeshReceiver.stamp clk +:+ "] " +:+ src
                             +:+ ": " +:+ Py.join cs +:+ Py.nl)]>
           (MeshReceiver.disk r)
     ∧ MeshReceiver.messages_received (MeshReceiver.stats r')
       = MeshReceiver.messages_received (MeshReceiver.stats r) + 1).
Proof.
  apply (X12_mesh_any_order "Node_1" ["he"; "llo"]
           [(MeshReceiver.Clock 6 "t2", 1%nat); (MeshReceiver.Clock 5 "t1", 0%nat)]
           (MeshReceiver.Receiver ∅ (MeshReceiver.MkReceptionStats 0 0 0 0 0) ∅ [])
           (MeshReceiver.Clock 0 "")).
  - simpl. apply (bool_decide_unpack _). reflexivity.
  - reflexivity.
  - simpl. discriminate.
Defined.

(** X13.  A file framed as [MeshNetworkInterface.send_file] frames it and
    cut as [send_fragmented_data] cuts it arrives whole: when the fragments
    are delivered each once, in any order, while no entry is pending for
    the source and that number of fragments, the receiver writes the bytes
    sent under the transmitted name, reports that the size matches and
    keeps no pending entry.  The name has no colon, names an entry of the
    output directory (one path component other than [..]), is accepted by
    the file system (no NUL, at most 255 bytes) and is free in the
    directory. *)
Theorem X13_mesh_file_round_trip
    (src name : string) (raw : list byte)
    (order : list (MeshReceiver.clock * nat)) (r : MeshReceiver.receiver) :
  let cs := MeshInterface.split_data (file_payload name raw) in
  no_char ":" name = true →
  MeshReceiver.resolve name = MeshReceiver.Entry name →
  MeshReceiver.accepted name = true →
  order.*2 ≡ₚ seq 0 (length cs) →
  MeshReceiver.fragments r !! (src, Z.of_nat (length cs)) = None →
  MeshReceiver.disk r !! name = None →
  let r' := deliver_mesh src (mesh_frags cs order) r in
  MeshReceiver.disk r' = <[name := raw]> (MeshReceiver.disk r)
  ∧ MeshReceiver.fragments r' = MeshReceiver.fragments r
  ∧ MeshReceiver.stats r'
    = MeshReceiver.MkReceptionStats
        (MeshReceiver.messages_received (MeshReceiver.stats r))
        (MeshReceiver.fragments_received (MeshReceiver.stats r)
         + Z.of_nat (length cs))
        (MeshReceiver.files_received (MeshReceiver.stats r) + 1)
        (MeshReceiver.total_bytes (MeshReceiver.stats r)
         + Z.of_nat (length raw))
        (MeshReceiver.start_time (MeshReceiver.stats r))
  ∧ List.last (MeshReceiver.out r') "" = "[FILE] ✓ Size matches expected".
Proof.
  intros cs Hname Hres Hacc Hperm Hkey Hfree r'.
  assert (Py.join cs = file_payload name raw) as Hjoin.
  { unfold cs, MeshInterface.split_data. apply join_range_step.
    unfold MeshInterface.CHUNK_SIZE. lia. }
  assert (Py.join cs ≠ "") as Hfull.
  { rewrite Hjoin, file_payload_fields. done. }
  assert (length order = length cs) as Hlen.
  { rewrite <- (length_fmap snd order), Hperm. apply length_seq. }
  assert (order ≠ []) as Hne.
  { intros ->. destruct cs; [done|]. simpl in Hlen. lia. }
  assert (received r (src, Z.of_nat (length cs)) = ∅) as Hrec.
  { unfold received. by rewrite Hkey. }
  destruct (mesh_deliver_missing src cs order r (MeshReceiver.Clock 0 ""))
    as (r_mid & Hrun & Hf & Hd & Hs).
  - rewrite Hperm. apply NoDup_seq.
  - intros i Hi. rewrite Hperm in Hi. apply elem_of_seq in Hi.
    split; [lia|]. by rewrite Hrec.
  - intros j c. by rewrite Hrec.
  - rewrite Hrec, map_size_empty. lia.
  - intros m. by rewrite Hkey.
  - done.
  - done.
  - rewrite delete_id in Hf by done. rewrite Hlen in Hs.
    unfold r'. rewrite Hrun, Hjoin. unfold complete_payload.
    rewrite startswith_file_payload.
    destruct (handle_file_payload src name raw r_mid Hname Hres Hacc)
      as (Hd' & Hf' & Hs' & Hout).
    { by rewrite Hd. }
    rewrite Hd', Hf', Hs', Hout, Hd, Hf, Hs. done.
Qed.

(** X13 on a file of 120 bytes, which takes two fragments, the second
    delivered first. *)
Lemma X13_mesh_file_round_trip_witness :
  let r := MeshReceiver.Receiver ∅ (MeshReceiver.MkReceptionStats 0 0 0 0 0) ∅ [] in
  let raw := Py.encode (filler 120) in
  let cs := MeshInterface.split_data (file_payload "a.txt" raw) in
  let order := [(MeshReceiver.Clock 6 "t2", 1%nat);
                (MeshReceiver.Clock 5 "t1", 0%nat)] in
  let r' := deliver_mesh "Node_1" (mesh_frags cs order) r in
  MeshReceiver.disk r' = <["a.txt" := raw]> (MeshReceiver.disk r)
  ∧ MeshReceiver.fragments r' = MeshReceiver.fragments r
  ∧ MeshReceiver.stats r'
    = MeshReceiver.MkReceptionStats
        (MeshReceiver.messages_received (MeshReceiver.stats r))
        (MeshReceiver.fragments_received (MeshReceiver.stats r)
         + Z.of_nat (length cs))
        (MeshReceiver.files_received (MeshReceiver.stats r) + 1)
        (MeshReceiver.total_bytes (MeshReceiver.stats r)
         + Z.of_nat (length raw))
        (MeshReceiver.start_time (MeshReceiver.stats r))
  ∧ List.last (MeshReceiver.out r') "" = "[FILE] ✓ Size matches expected".
Proof.
  apply (X13_mesh_file_round_trip "Node_1" "a.txt" (Py.encode (filler 120))
           [(MeshReceiver.Clock 6 "t2", 1%nat); (MeshReceiver.Clock 5 "t1", 0%nat)]
           (MeshReceiver.Receiver ∅ (MeshReceiver.MkReceptionStats 0 0 0 0 0) ∅ [])).
  - reflexivity.
  - reflexivity.
  - reflexivity.
  - apply (bool_decide_unpack _). vm_compute. reflexivity.
  - reflexivity.
  - reflexivity.
Defined.

Section mesh_blocked_facts.
Import Py MeshReceiver.

(** With an index outside [[0, tot)] among them, [tot] chunks cannot
    hold every index below [tot]. *)
Lemma ordered_out_of_range (ch : gmap Z string) (tot_ j : Z) :
  is_Some (ch !! j) →
  ¬ (0 ≤ j < tot_) →
  Z.of_nat (size ch) = tot_ →
  ∃ e, LoraTransceiver.ordered ch (range tot_) = Raise e.
Proof.
  intros Hj Hout Hsz.
  destruct (LoraTransceiver.ordered ch (range tot_)) as [l|e] eqn:Hord;
    [|by eexists].
  exfalso. apply ordered_Ret in Hord.
  assert (∀ i, 0 ≤ i < tot_ → is_Some (ch !! i)) as Hall.
  { intros i Hi.
    assert (i ∈ seqZ 0 tot_) as Hin by (apply elem_of_seqZ; lia).
    apply list_elem_of_lookup in Hin as [n Hn].
    destruct (Forall2_lookup_l _ _ _ _ _ Hord Hn) as (x & _ & Hx).
    by eexists. }
  assert (list_to_set (seqZ 0 tot_) ∪ {[j]} ⊆ dom ch) as Hsub.
  { intros i [Hi | Hi]%elem_of_union.
    - apply elem_of_list_to_set, elem_of_seqZ in Hi.
      apply elem_of_dom, Hall. lia.
    - apply elem_of_singleton in Hi as ->. by apply elem_of_dom. }
  apply subseteq_size in Hsub.
  rewrite size_union in Hsub.
  2:{ intros i Hi1 Hi2. apply elem_of_list_to_set, elem_of_seqZ in Hi1.
      apply elem_of_singleton in Hi2 as ->. lia. }
  rewrite size_singleton, size_list_to_set in Hsub by apply NoDup_seqZ.
  rewrite length_seqZ, size_dom in Hsub. lia.
Qed.

(** [handle_fragment] on a fragment whose index is stored already. *)
Lemma handle_fragment_dup clk src idx total chunk r m old :
  let key := (src, total) in
  fragments r !! key = Some m →
  received_chunks m !! idx = Some old →
  handle_fragment clk src (frag_payload idx total chunk) r
  = if is_complete m then
      let r2 := print ("[FRAG] All chunks received from " +:+ src
                         +:+ ", reassembling...") r in
      match get_reassembled m with
      | Some (String c s as full_data) =>
          complete_payload clk src full_data
            (set_fragments (delete key (fragments r2)) r2)
      | _ => print ("[ERROR] Failed to reassemble message from " +:+ src) r2
      end
    else r.
Proof.
  intros key Hm Hold.
  unfold handle_fragment. rewrite split_frag, !int_str. cbv zeta. fold key.
  rewrite Hm. cbn [default from_option id fragments]. rewrite Hm.
  cbn [default from_option id]. rewrite Hold.
  destruct (is_complete m); [|done]. unfold complete_payload.
  destruct (get_reassembled m) as [[|]|]; done.
Qed.

(** One more fragment for a key that holds an index outside its total:
    nothing is delivered, and the index stays. *)
Lemma mesh_out_of_range_step clk src idx total chunk r j :
  let key := (src, total) in
  is_Some (received r key !! j) →
  ¬ (0 ≤ j < total) →
  (∀ m, fragments r !! key = Some m → total_chunks m = total) →
  let r' := handle_fragment clk src (frag_payload idx total chunk) r in
  is_Some (received r' key !! j)
  ∧ (∀ m, fragments r' !! key = Some m → total_chunks m = total)
  ∧ disk r' = disk r
  ∧ messages_received (stats r') = messages_received (stats r)
  ∧ files_received (stats r') = files_received (stats r).
Proof.
  intros key Hj Hout Htot r'. unfold r'.
  destruct (received r key !! idx) as [old|] eqn:Hidx.
  - (* a repeated index *)
    unfold received in Hj, Hidx.
    destruct (fragments r !! key) as [m|] eqn:Hm; [|by rewrite lookup_empty in Hidx].
    rewrite (handle_fragment_dup clk src idx total chunk r m old Hm Hidx).
    destruct (is_complete m) eqn:Hc.
    + unfold get_reassembled. rewrite Hc. cbn [negb].
      unfold is_complete in Hc. apply Z.eqb_eq in Hc.
      rewrite (Htot m eq_refl) in Hc |- *.
      destruct (ordered_out_of_range _ _ _ Hj Hout Hc) as [e He].
      rewrite collect_ordered, He.
      unfold received. cbn [fragments disk stats print]. rewrite Hm.
      split; [done|]. split; [|done]. intros m' [= <-]. by apply Htot.
    + unfold received. rewrite Hm. split; [done|]. split; [|done].
      intros m' [= <-]. by apply Htot.
  - (* a new index *)
    destruct (handle_fragment_new clk src idx total chunk r Hidx Htot)
      as (r1 & msg & Hf1 & Hrc & Htc & _ & Hd1 & Hs1 & Hrun).
    fold key in Hf1, Hrc, Hrun. rewrite Hrun. clear Hrun.
    set (ch := <[idx := chunk]> (received r key)) in *.
    assert (is_Some (ch !! j)) as Hchj.
    { unfold ch. rewrite lookup_insert_ne; [done|].
      intros ->. rewrite Hidx in Hj. by destruct Hj. }
    assert (received r1 key = ch) as Hr1
      by (by rewrite (received_insert r r1 key msg Hf1)).
    assert (∀ m, fragments r1 !! key = Some m → total_chunks m = total) as Ht1.
    { intros m. rewrite Hf1, lookup_insert_eq. by intros [= <-]. }
    destruct (Z.eqb_spec (Z.of_nat (size ch)) total) as [Hsz|Hsz].
    + destruct (ordered_out_of_range _ _ _ Hchj Hout Hsz) as [e He].
      cbv zeta. rewrite collect_ordered, He.
      unfold received. cbn [fragments disk stats print].
      fold (received r1 key). rewrite Hr1, Hd1, Hs1. done.
    + rewrite Hr1, Hd1, Hs1. done.
Qed.

End mesh_blocked_facts.

(** X14.  Once a pending message of the mesh receiver holds an index
    outside [[0, total)], no further fragment with that total delivers it:
    no file is written and no message counted, and the index stays. *)
Theorem X14_mesh_out_of_range_blocks
    (src : string) (total j : Z) (x : string)
    (ds : list (MeshReceiver.clock * (Z * string)))
    (r : MeshReceiver.receiver) :
  received r (src, total) !! j = Some x →
  ¬ (0 ≤ j < total) →
  MeshReceiver.total_chunks <$> MeshReceiver.fragments r !! (src, total)
  = Some total →
  let r' := deliver_mesh src
              ((λ d, (d.1, frag_payload d.2.1 total d.2.2)) <$> ds) r in
  is_Some (received r' (src, total) !! j)
  ∧ MeshReceiver.disk r' = MeshReceiver.disk r
  ∧ MeshReceiver.messages_received (MeshReceiver.stats r')
    = MeshReceiver.messages_received (MeshReceiver.stats r)
  ∧ MeshReceiver.files_received (MeshReceiver.stats r')
    = MeshReceiver.files_received (MeshReceiver.stats r).
Proof.
  intros Hj Hout Hrec.
  assert (is_Some (received r (src, total) !! j)) as Hs by (by eexists).
  assert (∀ m, MeshReceiver.fragments r !! (src, total) = Some m →
               MeshReceiver.total_chunks m = total) as Htot.
  { intros m Hm. rewrite Hm in Hrec. by injection Hrec. }
  clear Hj Hrec. revert r Hs Htot.
  induction ds as [|[clk [idx c]] ds IH]; intros r Hs Htot r'; [done|].
  unfold r'. cbn [fmap list_fmap deliver_mesh fst snd].
  rewrite !process_payload_frag.
  destruct (mesh_out_of_range_step clk src idx total c r j Hs Hout Htot)
    as (Hs1 & Ht1 & Hd1 & Hm1 & Hf1).
  destruct (IH _ Hs1 Ht1) as (Hs2 & Hd2 & Hm2 & Hf2).
  split; [exact Hs2|].
  split; [exact (eq_trans Hd2 Hd1)|].
  split; [exact (eq_trans Hm2 Hm1) | exact (eq_trans Hf2 Hf1)].
Qed.

(** X14 on a message of two fragments that holds the index 5. *)
Lemma X14_mesh_out_of_range_blocks_witness :
  let clk := MeshReceiver.Clock 5 "t" in
  let r := MeshReceiver.handle_fragment clk "Node_1" "FRAG:5:2:x"
             (MeshReceiver.Receiver ∅ (MeshReceiver.MkReceptionStats 0 0 0 0 0)
                ∅ []) in
  let r' := deliver_mesh "Node_1"
              ((λ d, (d.1, frag_payload d.2.1 2 d.2.2))
                 <$> [(clk, (0, "a")); (clk, (1, "b"))]) r in
  is_Some (received r' ("Node_1", 2) !! 5)
  ∧ MeshReceiver.disk r' = MeshReceiver.disk r
  ∧ MeshReceiver.messages_received (MeshReceiver.stats r')
    = MeshReceiver.messages_received (MeshReceiver.stats r)
  ∧ MeshReceiver.files_received (MeshReceiver.stats r')
    = MeshReceiver.files_received (MeshReceiver.stats r).
Proof.
  apply (X14_mesh_out_of_range_blocks "Node_1" 2 5 "x"
           [(MeshReceiver.Clock 5 "t", (0, "a")); (MeshReceiver.Clock 5 "t", (1, "b"))]
           (MeshReceiver.handle_fragment (MeshReceiver.Clock 5 "t") "Node_1"
              "FRAG:5:2:x"
              (MeshReceiver.Receiver ∅ (MeshReceiver.MkReceptionStats 0 0 0 0 0)
                 ∅ []))).
  - reflexivity.
  - lia.
  - reflexivity.
Defined.

Section cleanup_facts.
Import Py MeshReceiver.

Lemma cleanup_lookup now_ r key :
  fragments (cleanup_old_fragments now_ r) !! key
  = match fragments r !! key with
    | Some m => if timed_out now_ m then None else Some m
    | None => None
    end.
Proof.
  unfold cleanup_old_fragments. cbn [fragments set_fragments].
  destruct (fragments r !! key) as [m|] eqn:Hm.
  - destruct (timed_out now_ m) eqn:Ht.
    + apply map_lookup_filter_None. right. intros m' Hm'. cbn.
      rewrite Hm in Hm'. injection Hm' as <-. by rewrite Ht.
    + apply map_lookup_filter_Some. split; [done|]. cbn. done.
  - apply map_lookup_filter_None. by left.
Qed.

End cleanup_facts.

(** X15.  A fragment that is stored and leaves its message incomplete
    sets the time of the last update to the reading [now] of the clock.
    [cleanup_old_fragments], run at the reading [t], removes the entry
    when the difference [t - now], rounded as a double, is greater than
    the 300.0 of [fragment_timeout], and keeps it otherwise.  The cleanup
    only removes entries, and touches neither the files nor the
    statistics. *)
Theorem X15_cleanup_after_fragment
    (clk : MeshReceiver.clock) (src : string) (idx total : Z) (chunk : string)
    (r : MeshReceiver.receiver) (t : Q) :
  let key := (src, total) in
  received r key !! idx = None →
  default total (MeshReceiver.total_chunks <$> MeshReceiver.fragments r !! key)
  = total →
  Z.of_nat (size (<[idx := chunk]> (received r key))) ≠ total →
  let r1 := MeshReceiver.handle_fragment clk src (frag_payload idx total chunk) r in
  let r2 := MeshReceiver.cleanup_old_fragments t r1 in
  let late :=
    Float.ltb (Float.of_ratio 300 1)
      (Float.sub (Float.of_Q t) (Float.of_Q (MeshReceiver.now clk))) in
  received r1 key = <[idx := chunk]> (received r key)
  ∧ is_Some (MeshReceiver.fragments r1 !! key)
  ∧ MeshReceiver.fragments r2 !! key
    = (if late then None else MeshReceiver.fragments r1 !! key)
  ∧ (∀ key' m, MeshReceiver.fragments r2 !! key' = Some m →
               MeshReceiver.fragments r1 !! key' = Some m)
  ∧ MeshReceiver.disk r2 = MeshReceiver.disk r1
  ∧ MeshReceiver.stats r2 = MeshReceiver.stats r1.
Proof.
  intros key Hnew Htot Hpart r1 r2 late.
  assert (∀ m, MeshReceiver.fragments r !! key = Some m →
               MeshReceiver.total_chunks m = total) as Htot'.
  { intros m Hm. by rewrite Hm in Htot. }
  destruct (handle_fragment_new clk src idx total chunk r Hnew Htot')
    as (r1' & msg & Hf1 & Hrc & _ & Hlu & _ & _ & Hrun).
  fold key in Hf1, Hrc, Hrun. apply Z.eqb_neq in Hpart.
  rewrite Hpart in Hrun. fold r1 in Hrun. subst r1'.
  assert (MeshReceiver.fragments r1 !! key = Some msg) as Hmsg
    by (by rewrite Hf1, lookup_insert_eq).
  split; [by rewrite (received_insert r r1 key msg Hf1)|].
  split; [by rewrite Hmsg|].
  unfold r2. rewrite cleanup_lookup, Hmsg.
  split; [|split; [|done]].
  - unfold MeshReceiver.timed_out, MeshReceiver.fragment_timeout.
    rewrite Hlu. done.
  - intros key' m. rewrite cleanup_lookup.
    destruct (MeshReceiver.fragments r1 !! key') as [m'|]; [|done].
    by destruct (MeshReceiver.timed_out t m').
Qed.

(** X15 on a fragment stored at the reading 0.1 and a cleanup at the
    reading 300.1: the difference of the two doubles rounds to 300.0,
    which is not greater than the timeout, and the entry is kept. *)
Lemma X15_cleanup_after_fragment_witness :
  let clk := MeshReceiver.Clock (1 # 10) "t" in
  let r := MeshReceiver.Receiver ∅ (MeshReceiver.MkReceptionStats 0 0 0 0 0) ∅ [] in
  let key := ("Node_1", 2) in
  let r1 := MeshReceiver.handle_fragment clk "Node_1" (frag_payload 0 2 "ab") r in
  let r2 := MeshReceiver.cleanup_old_fragments (3001 # 10) r1 in
  received r1 key = <[0 := "ab"]> (received r key)
  ∧ is_Some (MeshReceiver.fragments r1 !! key)
  ∧ MeshReceiver.fragments r2 !! key = MeshReceiver.fragments r1 !! key
  ∧ (∀ key' m, MeshReceiver.fragments r2 !! key' = Some m →
               MeshReceiver.fragments r1 !! key' = Some m)
  ∧ MeshReceiver.disk r2 = MeshReceiver.disk r1
  ∧ MeshReceiver.stats r2 = MeshReceiver.stats r1.
Proof.
  apply (X15_cleanup_after_fragment (MeshReceiver.Clock (1 # 10) "t") "Node_1"
           0 2 "ab"
           (MeshReceiver.Receiver ∅ (MeshReceiver.MkReceptionStats 0 0 0 0 0) ∅ [])
           (3001 # 10)).
  - reflexivity.
  - reflexivity.
  - vm_compute. discriminate.
Defined.

Section mesh_names_facts.
Import Py MeshReceiver.

(** What [handle_file] does with the names that are not plain: a path
    below an entry is not written, and the empty name, which names the
    output directory itself, gives a numbered name made from the name of
    that directory. *)
Lemma handle_file_other_names :
  let r := Receiver ∅ (MkReceptionStats 0 0 0 0 0) ∅ [] in
  let r1 := handle_file "Node_1" "FILE:sub/a.txt:5:V29ybGQ=" r in
  let r2 := handle_file "Node_1" "FILE::5:V29ybGQ=" r in
  let r3 := handle_file "Node_1" "FILE:./a.txt:5:V29ybGQ=" r in
  map_to_list (disk r1) = []
  ∧ List.last (out r1) "" = "[ERROR] File handling error"
  ∧ length (out r1) = 4%nat
  ∧ files_received (stats r1) = 0
  ∧ map_to_list (disk r2) = [("received_files_1", encode "World")]
  ∧ map_to_list (disk r3) = [("a.txt", encode "World")].
Proof. vm_compute. repeat split; reflexivity. Qed.

End mesh_names_facts.



(** X17.  [handle_file], for a name that does not lead out of the output
    directory, has two outcomes.  Either the payload has four fields, an
    integer size and a base64 text that decodes, and the decoded bytes
    are written to a path that did not exist and that the file system
    accepts, whatever the declared size is; or neither the files nor the
    statistics change and the call only prints, one line or four.  The
    pending fragments are never touched. *)
Theorem X17_handle_file_outcomes
    (src payload : string) (r : MeshReceiver.receiver) :
  stays_inside payload = true →
  let r' := MeshReceiver.handle_file src payload r in
  MeshReceiver.fragments r' = MeshReceiver.fragments r
  ∧ ((∃ tag filename s_size b64 size_ data q,
        Py.split ":" 3 payload = [tag; filename; s_size; b64]
        ∧ Py.int s_size = Some size_
        ∧ Base64.b64decode b64 = Some data
        ∧ MeshReceiver.disk r !! q = None
        ∧ MeshReceiver.accepted q = true
        ∧ MeshReceiver.disk r' = <[q := data]> (MeshReceiver.disk r)
        ∧ MeshReceiver.stats r'
          = MeshReceiver.MkReceptionStats
              (MeshReceiver.messages_received (MeshReceiver.stats r))
              (MeshReceiver.fragments_received (MeshReceiver.stats r))
              (MeshReceiver.files_received (MeshReceiver.stats r) + 1)
              (MeshReceiver.total_bytes (MeshReceiver.stats r)
               + Z.of_nat (length data))
              (MeshReceiver.start_time (MeshReceiver.stats r)))
     ∨ (MeshReceiver.disk r' = MeshReceiver.disk r
        ∧ MeshReceiver.stats r' = MeshReceiver.stats r
        ∧ ∃ line, MeshReceiver.out r' = MeshReceiver.out r ++ [line]
                  ∨ ∃ l1 l2 l3, MeshReceiver.out r'
                               = MeshReceiver.out r ++ [l1; l2; l3; line])).
Proof.
  intros _ r'. unfold r', MeshReceiver.handle_file.
  destruct (Py.split ":" 3 payload) as [|tag [|filename [|s_size [|b64 [|? ?]]]]]
    eqn:Hsplit;
    try (split; [done|]; right; split; [done|]; split; [done|];
         eexists; left; reflexivity).
  destruct (Py.int s_size) as [size_|] eqn:Hint;
    [|split; [done|]; right; split; [done|]; split; [done|];
      eexists; left; reflexivity].
  destruct (Base64.b64decode b64) as [data|] eqn:Hdec.
  - cbn [MeshReceiver.disk MeshReceiver.print].
    destruct (MeshReceiver.chosen_path (MeshReceiver.disk r) filename)
      as [q|] eqn:Hq.
    + pose proof (chosen_path_free _ _ _ Hq) as [Hnone Hacc].
      split; [by destruct (_ =? _)|].
      left. exists tag, filename, s_size, b64, size_, data, q.
      repeat (split; [done|]). by destruct (_ =? _).
    + split; [done|]. right. split; [done|]. split; [done|].
      eexists. right. eexists _, _, _.
      cbn [MeshReceiver.out MeshReceiver.print]. rewrite <- !app_assoc.
      reflexivity.
  - split; [done|]. right. split; [done|]. split; [done|].
    eexists. right. eexists _, _, _.
    cbn [MeshReceiver.out MeshReceiver.print]. rewrite <- !app_assoc. reflexivity.
Qed.

(** X17 on a file sent under [sub/a.txt]: the base64 text decodes, but
    the path lies below an entry of the directory, and the call prints its
    three lines and the error. *)
Lemma X17_handle_file_outcomes_witness :
  let r := MeshReceiver.Receiver ∅ (MeshReceiver.MkReceptionStats 0 0 0 0 0) ∅ [] in
  let payload := "FILE:sub/a.txt:5:V29ybGQ=" in
  let r' := MeshReceiver.handle_file "Node_1" payload r in
  MeshReceiver.fragments r' = MeshReceiver.fragments r
  ∧ ((∃ tag filename s_size b64 size_ data q,
        Py.split ":" 3 payload = [tag; filename; s_size; b64]
        ∧ Py.int s_size = Some size_
        ∧ Base64.b64decode b64 = Some data
        ∧ MeshReceiver.disk r !! q = None
        ∧ MeshReceiver.accepted q = true
        ∧ MeshReceiver.disk r' = <[q := data]> (MeshReceiver.disk r)
        ∧ MeshReceiver.stats r'
          = MeshReceiver.MkReceptionStats
              (MeshReceiver.messages_received (MeshReceiver.stats r))
              (MeshReceiver.fragments_received (MeshReceiver.stats r))
              (MeshReceiver.files_received (MeshReceiver.stats r) + 1)
              (MeshReceiver.total_bytes (MeshReceiver.stats r)
               + Z.of_nat (length data))
              (MeshReceiver.start_time (MeshReceiver.stats r)))
     ∨ (MeshReceiver.disk r' = MeshReceiver.disk r
        ∧ MeshReceiver.stats r' = MeshReceiver.stats r
        ∧ ∃ line, MeshReceiver.out r' = MeshReceiver.out r ++ [line]
                  ∨ ∃ l1 l2 l3, MeshReceiver.out r'
                               = MeshReceiver.out r ++ [l1; l2; l3; line])).
Proof.
  apply (X17_handle_file_outcomes "Node_1" "FILE:sub/a.txt:5:V29ybGQ="
           (MeshReceiver.Receiver ∅ (MeshReceiver.MkReceptionStats 0 0 0 0 0) ∅ [])).
  reflexivity.
Defined.

(* ===================================================================== *)
(** ** Mesh sender, file names and the sending script *)
(* ===================================================================== *)

Section mesh_sender_facts.
Import Py MeshInterface.

Lemma undeciding_inv line :
  undeciding line = true →
  contains "[CMD] Send completed" line = false
  ∧ contains "[CMD] Send failed" line || contains "[TX] Failed" line = false.
Proof.
  unfold undeciding. rewrite !andb_true_iff, !negb_true_iff.
  intros [[-> ->] ->]. done.
Qed.

(** The wait on lines that confirm the chunk. *)
Lemma wait_chunk_confirmed idx total (lines : list string) :
  ∀ i, confirmed lines = true →
    ∃ i', wait_chunk idx total lines i = (i', true)
          ∧ stats i' = MkStats (total_chunks (stats i)) (sent_chunks (stats i) + 1)
                         (failed_chunks (stats i)) (start_time (stats i))
                         (end_time (stats i)) (total_bytes (stats i))
          ∧ commands i' = commands i
          ∧ pending i' = [].
Proof.
  induction lines as [|line rest IH]; intros i Hc; [done|].
  cbn [confirmed] in Hc. cbn [wait_chunk].
  destruct rest as [|line2 rest].
  - assert (String.eqb line "" = false) as -> by (by destruct line).
    rewrite Hc. eexists. split; [reflexivity|]. done.
  - apply andb_true_iff in Hc as [Hu Hc].
    apply undeciding_inv in Hu as [Hu1 Hu2].
    destruct (String.eqb line ""); [by apply IH|].
    rewrite Hu1, Hu2.
    destruct (IH (print ("[NODE] " +:+ line) i) Hc) as (i' & Hrun & Hs & Hcm & Hp).
    exists i'. done.
Qed.

(** The wait on lines that refuse the chunk. *)
Lemma wait_chunk_refused idx total (lines : list string) :
  ∀ i, refused lines = true →
    ∃ i', wait_chunk idx total lines i = (i', false)
          ∧ stats i' = MkStats (total_chunks (stats i)) (sent_chunks (stats i))
                         (failed_chunks (stats i) + 1) (start_time (stats i))
                         (end_time (stats i)) (total_bytes (stats i))
          ∧ commands i' = commands i
          ∧ pending i' = [].
Proof.
  induction lines as [|line rest IH]; intros i Hc; [done|].
  cbn [refused] in Hc. cbn [wait_chunk].
  destruct rest as [|line2 rest].
  - apply andb_true_iff in Hc as [Hn Hf]. apply negb_true_iff in Hn.
    assert (String.eqb line "" = false) as -> by (by destruct line).
    rewrite Hn, Hf. eexists. split; [reflexivity|]. done.
  - apply andb_true_iff in Hc as [Hu Hc].
    apply undeciding_inv in Hu as [Hu1 Hu2].
    destruct (String.eqb line ""); [by apply IH|].
    rewrite Hu1, Hu2.
    destruct (IH (print ("[NODE] " +:+ line) i) Hc) as (i' & Hrun & Hs & Hcm & Hp).
    exists i'. done.
Qed.

(** [failed > total * 0.3] on integers. *)
Lemma too_many_failures_spec failed total :
  too_many_failures failed total = true ↔ 3 * total < 10 * failed.
Proof.
  unfold too_many_failures. rewrite negb_true_iff.
  destruct (Qle_bool _ _) eqn:Hle.
  - apply Qle_bool_iff in Hle. unfold Qle in Hle. simpl in Hle.
    split; [done|]. lia.
  - split; [|done]. intros _.
    destruct (decide (3 * total < 10 * failed)) as [|Hn]; [done|].
    exfalso. assert (Qle_bool (inject_Z failed) (inject_Z total * (3 # 10)) = true);
      [|congruence].
    apply Qle_bool_iff. unfold Qle. simpl. lia.
Qed.

Lemma commands_from_length dest reliability total (cs : list string) :
  ∀ idx, length (commands_from dest reliability total idx cs) = length cs.
Proof. induction cs as [|c cs IH]; intros idx; simpl; [done|by rewrite IH]. Qed.

(** The loop of [send_fragmented_data] when every chunk is confirmed. *)
Lemma send_loop_confirmed dest reliability total t_end (chunks : list string) :
  ∀ (idx : Z) (env : list chunk_env) (i : iface),
    pending i = [] →
    failed_chunks (stats i) = 0 →
    0 ≤ total →
    (length chunks ≤ length env)%nat →
    Forall (λ e, confirming e = true) (firstn (length chunks) env) →
    ∃ i', send_loop dest reliability total idx chunks env t_end i = (i', None)
          ∧ stats i' = MkStats (total_chunks (stats i))
                         (sent_chunks (stats i) + Z.of_nat (length chunks))
                         0 (start_time (stats i)) (end_time (stats i))
                         (total_bytes (stats i))
          ∧ commands i'
            = commands i
              ++ ((λ c, (c, true))
                    <$> commands_from dest reliability total idx chunks)
          ∧ pending i' = [].
Proof.
  induction chunks as [|chunk chunks IH]; intros idx env i Hp Hf Htot Hlen Hall.
  - exists i. cbn [send_loop length commands_from fmap list_fmap].
    rewrite app_nil_r, Z.add_0_r, <- Hf. split; [done|].
    split; [by destruct i as [[]]|]. done.
  - destruct env as [|e env]; [simpl in Hlen; lia|].
    cbn [length firstn] in Hall. apply Forall_cons in Hall as [He Hall].
    unfold confirming in He. apply andb_true_iff in He as [Hw Hc].
    cbn [send_loop hd tl]. unfold send_command. rewrite Hw.
    cbn [pending print]. rewrite Hp. cbn [app].
    match goal with
    | |- context [wait_chunk ?a ?b ?c ?d] =>
        destruct (wait_chunk_confirmed a b c d Hc) as (i3 & Hrun & Hs3 & Hc3 & Hp3)
    end.
    rewrite Hrun. cbn [negb andb].
    cbn [stats commands print] in Hs3, Hc3.
    assert (failed_chunks (stats i3) = 0) as Hf3 by (by rewrite Hs3).
    cbn [stats print]. rewrite Hf3.
    replace (too_many_failures 0 total) with false.
    2:{ symmetry. apply not_true_is_false. rewrite too_many_failures_spec. lia. }
    match goal with
    | |- context [send_loop _ _ _ _ _ _ _ ?j] =>
        destruct (IH (idx + 1) env j) as (i' & Hrun' & Hs' & Hc' & Hp')
    end.
    + done.
    + done.
    + done.
    + simpl in Hlen. lia.
    + done.
    + exists i'. split; [exact Hrun'|].
      cbn [stats commands print] in Hs', Hc'.
      rewrite Hs', Hc', Hs3, Hc3.
      cbn [total_chunks sent_chunks failed_chunks start_time end_time
           total_bytes length commands_from fmap list_fmap].
      split; [f_equal; lia|]. split; [by rewrite <- app_assoc|done].
Qed.

End mesh_sender_facts.

Section mesh_command_facts.
Import Py MeshInterface.

Lemma commands_from_lookup dest reliability total (cs : list string) :
  ∀ (a : Z) (k : nat),
    commands_from dest reliability total a cs !! k
    = (λ c, send_command_text dest reliability
              (frag_payload (a + Z.of_nat k) total c)) <$> cs !! k.
Proof.
  induction cs as [|c cs IH]; intros a [|k]; cbn [commands_from]; try done.
  - simpl. by rewrite Z.add_0_r.
  - simpl. rewrite IH. destruct (cs !! k); [|done]. simpl.
    do 3 f_equal. lia.
Qed.

Lemma commands_from_indexed dest reliability total (cs : list string) :
  commands_from dest reliability total 0 cs
  = (λ ic, send_command_text dest reliability (frag_payload ic.1 total ic.2))
      <$> indexed cs.
Proof.
  apply list_eq. intros k.
  rewrite commands_from_lookup, list_lookup_fmap, indexed_lookup.
  by destruct (cs !! k).
Qed.

End mesh_command_facts.

(** X18.  [MeshNetworkInterface.send_file] on a readable file whose
    chunks are all confirmed returns [True]: every chunk is counted as
    sent, none as failed, and the commands written are, in order, the
    [SEND] commands of the fragments of [FILE:<name>:<size>:<base64>], with
    the given reliability or the one inferred from the suffix. *)
Theorem X18_mesh_send_file_confirmed
    (dest filepath : string) (st_size : Z) (raw : list byte)
    (reliability : option Z) (env : list MeshInterface.chunk_env)
    (t_start t_end : Q) (i : MeshInterface.iface) :
  let data := file_payload (PathLib.name filepath) raw in
  let chunks := MeshInterface.split_data data in
  let total := Z.of_nat (length chunks) in
  let rel := match reliability with
             | Some r => r
             | None => default MeshInterface.REL_MEDIUM
                         (MeshInterface.FILE_RELIABILITY_MAP
                            !! Py.lower (PathLib.suffix filepath))
             end in
  MeshInterface.pending i = [] →
  (length chunks ≤ length env)%nat →
  Forall (λ e, confirming e = true) (take (length chunks) env) →
  let r := MeshInterface.send_file dest filepath (Some (st_size, Py.Ret raw))
             reliability env t_start t_end i in
  r.2 = true
  ∧ MeshInterface.stats r.1
    = MeshInterface.MkStats total total 0 t_start t_end (Py.len data)
  ∧ MeshInterface.commands r.1
    = MeshInterface.commands i
      ++ ((λ ic, (send_command_text dest rel (frag_payload ic.1 total ic.2), true))
            <$> indexed chunks).
Proof.
  intros data chunks total rel Hp Hlen Hall r.
  unfold r, MeshInterface.send_file. fold rel.
  change ((("FILE:" +:+ PathLib.name filepath +:+ ":"
              +:+ Py.str (Z.of_nat (length raw)) +:+ ":")
             +:+ Base64.b64encode raw)) with data.
  unfold MeshInterface.send_fragmented_data. fold chunks. fold total.
  match goal with
  | |- context [MeshInterface.send_loop _ _ _ _ _ _ _ ?j] =>
      destruct (send_loop_confirmed dest rel total t_end chunks 0 env j)
        as (i' & Hrun & Hs & Hc & _)
  end.
  - done.
  - done.
  - unfold total. lia.
  - done.
  - done.
  - rewrite Hrun.
    cbn [MeshInterface.stats MeshInterface.commands MeshInterface.print
         MeshInterface.set_stats] in Hs, Hc.
    cbn [fst snd MeshInterface.stats MeshInterface.commands
         MeshInterface.set_end_time MeshInterface.set_stats].
    rewrite Hs, Hc.
    cbn [MeshInterface.total_chunks MeshInterface.sent_chunks
         MeshInterface.failed_chunks MeshInterface.start_time
         MeshInterface.end_time MeshInterface.total_bytes].
    split; [done|]. split; [by rewrite Z.add_0_l|].
    rewrite commands_from_indexed, <- list_fmap_compose. done.
Qed.

(** X18 on [docs/a.txt], which takes one fragment. *)
Lemma X18_mesh_send_file_confirmed_witness :
  let i := MeshInterface.Iface (MeshInterface.MkStats 0 0 0 0 0 0) [] [] [] in
  let env := [MeshInterface.ChunkEnv true ["[TX] Sending"; "[CMD] Send completed"]] in
  let data := file_payload (PathLib.name "docs/a.txt") (Py.encode "Hello") in
  let chunks := MeshInterface.split_data data in
  let total := Z.of_nat (length chunks) in
  let rel := match None with
             | Some r => r
             | None => default MeshInterface.REL_MEDIUM
                         (MeshInterface.FILE_RELIABILITY_MAP
                            !! Py.lower (PathLib.suffix "docs/a.txt"))
             end in
  let r := MeshInterface.send_file "Node_2" "docs/a.txt"
             (Some (5, Py.Ret (Py.encode "Hello"))) None env 10 20 i in
  r.2 = true
  ∧ MeshInterface.stats r.1
    = MeshInterface.MkStats total total 0 10 20 (Py.len data)
  ∧ MeshInterface.commands r.1
    = MeshInterface.commands i
      ++ ((λ ic, (send_command_text "Node_2" rel (frag_payload ic.1 total ic.2), true))
            <$> indexed chunks).
Proof.
  apply (X18_mesh_send_file_confirmed "Node_2" "docs/a.txt" 5 (Py.encode "Hello")
           None
           [MeshInterface.ChunkEnv true ["[TX] Sending"; "[CMD] Send completed"]]
           10 20
           (MeshInterface.Iface (MeshInterface.MkStats 0 0 0 0 0 0) [] [] [])).
  - reflexivity.
  - vm_compute. lia.
  - vm_compute. repeat constructor.
Defined.

Section mesh_refused_facts.
Import Py MeshInterface.

(** The loop of [send_fragmented_data] when every chunk is refused: it
    returns as soon as the failures exceed three tenths of the total. *)
Lemma send_loop_refused dest reliability total t_end (chunks : list string) :
  ∀ (idx : Z) (env : list chunk_env) (i : iface),
    pending i = [] →
    0 ≤ failed_chunks (stats i) ≤ 3 * total / 10 →
    3 * total / 10 - failed_chunks (stats i) < Z.of_nat (length chunks) →
    (length chunks ≤ length env)%nat →
    Forall (λ e, refusing e = true) (firstn (length chunks) env) →
    ∃ i', send_loop dest reliability total idx chunks env t_end i
          = (i', Some false)
          ∧ stats i' = MkStats (total_chunks (stats i)) (sent_chunks (stats i))
                         (3 * total / 10 + 1) (start_time (stats i)) t_end
                         (total_bytes (stats i))
          ∧ commands i'
            = commands i
              ++ ((λ c, (c, true))
                    <$> firstn (Z.to_nat (3 * total / 10 + 1
                                          - failed_chunks (stats i)))
                          (commands_from dest reliability total idx chunks)).
Proof.
  set (k := 3 * total / 10).
  assert (10 * k ≤ 3 * total < 10 * k + 10) as Hk.
  { unfold k. pose proof (Z.div_mod (3 * total) 10 ltac:(lia)).
    pose proof (Z.mod_pos_bound (3 * total) 10 ltac:(lia)). lia. }
  induction chunks as [|chunk chunks IH]; intros idx env i Hp Hf Hrem Hlen Hall.
  - simpl in Hrem. lia.
  - destruct env as [|e env]; [simpl in Hlen; lia|].
    cbn [length firstn] in Hall. apply Forall_cons in Hall as [He Hall].
    unfold refusing in He. apply andb_true_iff in He as [Hw Hc].
    cbn [send_loop hd tl]. unfold send_command. rewrite Hw.
    cbn [pending print]. rewrite Hp. cbn [app].
    match goal with
    | |- context [wait_chunk ?a ?b ?c ?d] =>
        destruct (wait_chunk_refused a b c d Hc) as (i3 & Hrun & Hs3 & Hc3 & Hp3)
    end.
    rewrite Hrun. cbn [negb andb].
    cbn [stats commands print] in Hs3, Hc3.
    assert (failed_chunks (stats i3) = failed_chunks (stats i) + 1) as Hf3
      by (by rewrite Hs3).
    replace (failed_chunks (stats i3) =? 0) with false
      by (symmetry; apply Z.eqb_neq; lia).
    cbn [stats print]. rewrite Hf3.
    destruct (too_many_failures (failed_chunks (stats i) + 1) total) eqn:Hmany.
    + apply too_many_failures_spec in Hmany.
      assert (failed_chunks (stats i) = k) as Hfk by lia.
      eexists. split; [reflexivity|].
      cbn [stats commands set_end_time set_stats print].
      rewrite Hs3, Hc3.
      cbn [total_chunks sent_chunks failed_chunks start_time end_time total_bytes].
      rewrite Hfk. split; [done|].
      replace (Z.to_nat (k + 1 - k)) with 1%nat by lia.
      cbn [commands_from firstn fmap list_fmap]. done.
    + apply not_true_iff_false in Hmany. rewrite too_many_failures_spec in Hmany.
      match goal with
      | |- context [send_loop _ _ _ _ _ _ _ ?j] =>
          destruct (IH (idx + 1) env j) as (i' & Hrun' & Hs' & Hc')
      end.
      * done.
      * cbn [stats print]. rewrite Hf3. lia.
      * cbn [stats print]. rewrite Hf3. cbn [length] in Hrem. lia.
      * simpl in Hlen. lia.
      * done.
      * exists i'. split; [exact Hrun'|].
        cbn [stats commands print] in Hs', Hc'.
        rewrite Hs', Hc', Hs3, Hc3.
        cbn [total_chunks sent_chunks failed_chunks start_time end_time
             total_bytes].
        split; [done|].
        replace (Z.to_nat (k + 1 - failed_chunks (stats i)))
          with (S (Z.to_nat (k + 1 - (failed_chunks (stats i) + 1)))) by lia.
        cbn [commands_from firstn fmap list_fmap].
        by rewrite <- app_assoc.
Qed.

End mesh_refused_facts.

(** X19.  When the node refuses every chunk with a failure marker,
    [send_fragmented_data] stops after [3 * total / 10 + 1] chunks: that
    many commands are written and that many failures counted, none sent,
    and the transfer returns [False]. *)
Theorem X19_refused_chunks_stop
    (dest data : string) (reliability : Z) (env : list MeshInterface.chunk_env)
    (t_start t_end : Q) (i : MeshInterface.iface) :
  let chunks := MeshInterface.split_data data in
  let total := Z.of_nat (length chunks) in
  let k := 3 * total / 10 in
  data ≠ "" →
  MeshInterface.pending i = [] →
  (length chunks ≤ length env)%nat →
  Forall (λ e, refusing e = true) (take (length chunks) env) →
  let r := MeshInterface.send_fragmented_data dest data reliability env
             t_start t_end i in
  r.2 = false
  ∧ MeshInterface.stats r.1
    = MeshInterface.MkStats total 0 (k + 1) t_start t_end (Py.len data)
  ∧ MeshInterface.commands r.1
    = MeshInterface.commands i
      ++ ((λ c, (c, true))
            <$> take (Z.to_nat (k + 1))
                  (commands_from dest reliability total 0 chunks))
  ∧ k + 1 ≤ total.
Proof.
  intros chunks total k Hdata Hp Hlen Hall r.
  assert (1 ≤ total) as Htot.
  { assert (chunks ≠ []) as Hne.
    { intros Hc. apply Hdata.
      apply (join_nil_chunks data (Z.to_nat MeshInterface.CHUNK_SIZE));
        [unfold MeshInterface.CHUNK_SIZE; lia | exact Hc]. }
    unfold total. destruct chunks; [done|simpl; lia]. }
  assert (10 * k ≤ 3 * total < 10 * k + 10) as Hk.
  { unfold k. pose proof (Z.div_mod (3 * total) 10 ltac:(lia)).
    pose proof (Z.mod_pos_bound (3 * total) 10 ltac:(lia)). lia. }
  unfold r, MeshInterface.send_fragmented_data. fold chunks. fold total.
  match goal with
  | |- context [MeshInterface.send_loop _ _ _ _ _ _ _ ?j] =>
      destruct (send_loop_refused dest reliability total t_end chunks 0 env j)
        as (i' & Hrun & Hs & Hc)
  end.
  - done.
  - cbn. fold k. lia.
  - cbn. fold k. fold total. lia.
  - done.
  - done.
  - rewrite Hrun.
    cbn [MeshInterface.stats MeshInterface.commands MeshInterface.print
         MeshInterface.set_stats MeshInterface.failed_chunks
         MeshInterface.total_chunks MeshInterface.sent_chunks
         MeshInterface.start_time MeshInterface.end_time
         MeshInterface.total_bytes] in Hs, Hc.
    fold k in Hs, Hc. rewrite Z.sub_0_r in Hc.
    cbn [fst snd]. rewrite Hs, Hc. split; [done|]. split; [done|].
    split; [done|]. lia.
Qed.

(** X19 on ten chunks, all refused: the transfer stops after the fourth. *)
Lemma X19_refused_chunks_stop_witness :
  let i := MeshInterface.Iface (MeshInterface.MkStats 0 0 0 0 0 0) [] [] [] in
  let env := replicate 10 (MeshInterface.ChunkEnv true ["[CMD] Send failed"]) in
  let chunks := MeshInterface.split_data (filler 1500) in
  let total := Z.of_nat (length chunks) in
  let k := 3 * total / 10 in
  let r := MeshInterface.send_fragmented_data "Node_2" (filler 1500) 1 env
             10 20 i in
  r.2 = false
  ∧ MeshInterface.stats r.1
    = MeshInterface.MkStats total 0 (k + 1) 10 20 (Py.len (filler 1500))
  ∧ MeshInterface.commands r.1
    = MeshInterface.commands i
      ++ ((λ c, (c, true))
            <$> take (Z.to_nat (k + 1))
                  (commands_from "Node_2" 1 total 0 chunks))
  ∧ k + 1 ≤ total.
Proof.
  apply (X19_refused_chunks_stop "Node_2" (filler 1500) 1
           (replicate 10 (MeshInterface.ChunkEnv true ["[CMD] Send failed"]))
           10 20
           (MeshInterface.Iface (MeshInterface.MkStats 0 0 0 0 0 0) [] [] [])).
  - discriminate.
  - reflexivity.
  - vm_compute. lia.
  - vm_compute. repeat constructor.
Defined.

Section send_text_facts.
Import Py MeshInterface.

(** [wait_for_response] touches neither the statistics nor the commands,
    and answers [True] only on a line that holds the expected text. *)
Lemma wait_for_response_spec expected (lines : list string) :
  ∀ i i' b,
    wait_for_response expected lines i = (i', b) →
    stats i' = stats i
    ∧ commands i' = commands i
    ∧ (b = true → ∃ line, line ∈ lines ∧ contains expected line = true).
Proof.
  induction lines as [|line rest IH]; intros i i' b; cbn [wait_for_response].
  - intros [= <- <-]. done.
  - destruct (String.eqb line "").
    { intros Hw. apply IH in Hw as (Hs & Hc & Hb). split; [done|]. split; [done|].
      intros Ht. destruct (Hb Ht) as (l & Hl & Hexp). exists l. split; [by right|done]. }
    destruct (contains expected line) eqn:Hexp.
    { intros [= <- <-]. split; [done|]. split; [done|].
      intros _. exists line. split; [by left|done]. }
    destruct (_ || _).
    { intros [= <- <-]. done. }
    intros Hw. apply IH in Hw as (Hs & Hc & Hb). split; [done|]. split; [done|].
    intros Ht. destruct (Hb Ht) as (l & Hl & Hexp'). exists l. split; [by right|done].
Qed.

End send_text_facts.

(** X20.  [send_text] sends a text of at most 150 characters as one
    command, unfragmented, and leaves the statistics alone; it returns
    [True] only if the command was written and a line with
    [[CMD] Send completed] was read. *)
Theorem X20_send_text_short
    (dest text : string) (reliability : Z) (env : list MeshInterface.chunk_env)
    (t_start t_end : Q) (i : MeshInterface.iface) :
  Py.len text ≤ 150 →
  let e := hd (MeshInterface.ChunkEnv true []) env in
  let r := MeshInterface.send_text dest text reliability env t_start t_end i in
  MeshInterface.commands r.1
  = MeshInterface.commands i
    ++ [(send_command_text dest reliability text, MeshInterface.write_ok e)]
  ∧ MeshInterface.stats r.1 = MeshInterface.stats i
  ∧ (r.2 = true →
     MeshInterface.write_ok e = true
     ∧ ∃ line, line ∈ MeshInterface.pending i ++ MeshInterface.arriving e
               ∧ Py.contains "[CMD] Send completed" line = true).
Proof.
  intros Hlen e r. unfold r, MeshInterface.send_text.
  replace (Py.len text <=? 150) with true by (symmetry; apply Z.leb_le; lia).
  fold e. unfold MeshInterface.send_command.
  destruct (MeshInterface.write_ok e) eqn:Hw; [|done].
  cbn [MeshInterface.pending MeshInterface.print].
  match goal with
  | |- context [MeshInterface.wait_for_response ?a ?b ?c] =>
      destruct (MeshInterface.wait_for_response a b c) as [i' b'] eqn:Hwait
  end.
  apply wait_for_response_spec in Hwait as (Hs & Hc & Hb).
  cbn [MeshInterface.stats MeshInterface.commands MeshInterface.print] in Hs, Hc.
  destruct b'; cbn [fst snd MeshInterface.stats MeshInterface.commands
                    MeshInterface.print]; rewrite Hs, Hc.
  - split; [done|]. split; [done|]. intros _. split; [done|]. by apply Hb.
  - done.
Qed.

(** X20 on the text [hello]. *)
Lemma X20_send_text_short_witness :
  let i := MeshInterface.Iface (MeshInterface.MkStats 0 0 0 0 0 0) [] [] [] in
  let env := [MeshInterface.ChunkEnv true ["[CMD] Send completed"]] in
  let e := hd (MeshInterface.ChunkEnv true []) env in
  let r := MeshInterface.send_text "Node_2" "hello" 1 env 10 20 i in
  MeshInterface.commands r.1
  = MeshInterface.commands i
    ++ [(send_command_text "Node_2" 1 "hello", MeshInterface.write_ok e)]
  ∧ MeshInterface.stats r.1 = MeshInterface.stats i
  ∧ (r.2 = true →
     MeshInterface.write_ok e = true
     ∧ ∃ line, line ∈ MeshInterface.pending i ++ MeshInterface.arriving e
               ∧ Py.contains "[CMD] Send completed" line = true).
Proof.
  apply (X20_send_text_short "Node_2" "hello" 1
           [MeshInterface.ChunkEnv true ["[CMD] Send completed"]] 10 20
           (MeshInterface.Iface (MeshInterface.MkStats 0 0 0 0 0 0) [] [] [])).
  vm_compute. discriminate.
Defined.

(** X21.  The reliability [send_file] infers from a suffix through
    [FILE_RELIABILITY_MAP], with [REL_MEDIUM] for an unknown suffix, lies
    between [REL_LOW] and [REL_CRITICAL]: it is never [REL_NONE]. *)
Theorem X21_inferred_reliability (ext : string) :
  let rel := default MeshInterface.REL_MEDIUM
               (MeshInterface.FILE_RELIABILITY_MAP !! ext) in
  MeshInterface.REL_LOW ≤ rel ≤ MeshInterface.REL_CRITICAL
  ∧ rel ≠ MeshInterface.REL_NONE.
Proof.
  intros rel.
  assert (MeshInterface.REL_LOW ≤ rel ≤ MeshInterface.REL_CRITICAL) as Hr.
  { unfold rel.
    destruct (MeshInterface.FILE_RELIABILITY_MAP !! ext) as [v|] eqn:Hv;
      [|by cbn].
    cbn [default from_option id].
    apply elem_of_list_to_map_2 in Hv.
    repeat (apply elem_of_cons in Hv as [Hv|Hv];
            [injection Hv as _ ->; by cbn|]).
    by apply elem_of_nil in Hv. }
  split; [done|]. unfold MeshInterface.REL_NONE, MeshInterface.REL_LOW in *. lia.
Qed.

Section path_facts.
Import Py.

Lemma cut_Some_no_char c s a b :
  cut c s = Some (a, b) →
  no_char c a = true ∧ (String.length b < String.length s)%nat.
Proof.
  revert a b; induction s as [|x s IH]; intros a b; [done|]. cbn [cut].
  destruct (Ascii.eqb x c) eqn:Hx.
  - intros [= <- <-]. split; [done|]. simpl. lia.
  - destruct (cut c s) as [[a' b']|]; [|done]. intros [= <- <-].
    destruct (IH a' b' eq_refl) as [Ha Hb]. split.
    + unfold no_char. cbn [all_chars]. by rewrite Hx.
    + simpl. lia.
Qed.

Lemma cut_None_no_char c s : cut c s = None → no_char c s = true.
Proof.
  induction s as [|x s IH]; [done|]. cbn [cut].
  destruct (Ascii.eqb x c) eqn:Hx; [done|].
  destruct (cut c s) as [[a' b']|]; [done|]. intros _.
  unfold no_char. cbn [all_chars]. rewrite Hx. by apply IH.
Qed.

Lemma components_no_sep fuel :
  ∀ s, (String.length s ≤ fuel)%nat →
       Forall (λ c, no_char "/" c = true) (PathLib.components fuel s).
Proof.
  induction fuel as [|fuel IH]; intros s Hlen.
  - destruct s; [|simpl in Hlen; lia]. by repeat constructor.
  - cbn [PathLib.components].
    destruct (cut "/" s) as [[a b]|] eqn:Hcut.
    + apply cut_Some_no_char in Hcut as [Ha Hb].
      constructor; [done|]. apply IH. lia.
    + apply cut_None_no_char in Hcut. by repeat constructor.
Qed.

Lemma last_Forall {A} (P : A → Prop) (l : list A) d :
  P d → Forall P l → P (List.last l d).
Proof.
  intros Hd. induction 1 as [|x l Hx Hl IH]; [done|].
  destruct l; [done|]. exact IH.
Qed.

Lemma name_no_sep s : no_char "/" (PathLib.name s) = true.
Proof.
  unfold PathLib.name, PathLib.parts.
  apply (last_Forall (λ c, no_char "/" c = true)); [done|].
  apply Forall_forall. intros x [_ Hx]%list_elem_of_filter.
  pose proof (components_no_sep (String.length s) s ltac:(lia)) as Hall.
  rewrite Forall_forall in Hall. by apply Hall.
Qed.

Lemma all_chars_take P n s : all_chars P s = true → all_chars P (take n s) = true.
Proof.
  revert s; induction n as [|n IH]; intros [|c s]; simpl; try done.
  rewrite !andb_true_iff. intros [-> Hs]. by rewrite IH.
Qed.

Lemma all_chars_drop P n s : all_chars P s = true → all_chars P (drop n s) = true.
Proof.
  revert s; induction n as [|n IH]; intros [|c s]; simpl; try done.
  rewrite !andb_true_iff. intros [_ Hs]. by apply IH.
Qed.

(** The name a receiver writes to holds no path separator. *)
Lemma stamped_no_sep fname : no_char "/" (LoraTransceiver.stamped fname) = true.
Proof.
  unfold LoraTransceiver.stamped, no_char.
  rewrite !all_chars_app. 
  pose proof (name_no_sep fname) as Hn. unfold no_char in Hn.
  assert (all_chars (λ x, negb (Ascii.eqb x "/")) (PathLib.stem fname) = true) as ->.
  { unfold PathLib.stem. destruct (PathLib.rfind_dot _ _ _); [|done].
    destruct (_ && _); [by apply all_chars_take|done]. }
  assert (all_chars (λ x, negb (Ascii.eqb x "/")) (PathLib.suffix fname) = true) as ->.
  { unfold PathLib.suffix. destruct (PathLib.rfind_dot _ _ _); [|done].
    destruct (_ && _); [by apply all_chars_drop|done]. }
  done.
Qed.

Lemma stamped_length fname :
  (3 ≤ String.length (LoraTransceiver.stamped fname))%nat.
Proof.
  unfold LoraTransceiver.stamped. rewrite !length_app_s. simpl. lia.
Qed.

End path_facts.

Section disk_facts.
Import Py LoraTransceiver.

Lemma disk_log cfg l st : disk (_log cfg l st) = disk st.
Proof. unfold _log. by destruct (_ || _). Qed.

Lemma add_chunk_disk fname idx tot_ c st :
  (disk (add_chunk fname idx tot_ c st).1 = disk st
   ∨ ∃ raw, disk (add_chunk fname idx tot_ c st).1
            = <[stamped fname := raw]> (disk st))
  ∧ (disk (RxReceiveFile.add_chunk fname idx tot_ c st).1 = disk st
     ∨ ∃ raw, disk (RxReceiveFile.add_chunk fname idx tot_ c st).1
              = <[stamped fname := raw]> (disk st)).
Proof.
  rewrite add_chunk_eq, rx_add_chunk_eq. cbv zeta.
  destruct (_ =? _); [|by split; left].
  destruct (ordered _ _); [|by split; left].
  destruct (Base64.b64decode _) as [raw|]; [|by split; left].
  split; right; exists raw; [by destruct (startswith _ _)|done].
Qed.

Lemma handle_full_payload_disk p st :
  (disk (handle_full_payload p st).1 = disk st
   ∨ ∃ fname raw, disk (handle_full_payload p st).1
                  = <[stamped fname := raw]> (disk st))
  ∧ (disk (RxReceiveFile.handle_full_payload p st).1 = disk st
     ∨ ∃ fname raw, disk (RxReceiveFile.handle_full_payload p st).1
                    = <[stamped fname := raw]> (disk st)).
Proof.
  unfold handle_full_payload, RxReceiveFile.handle_full_payload.
  destruct (startswith p "FILECHUNK:").
  { destruct (split ":" 4 p) as [|f1 [|f2 [|f3 [|f4 [|f5 [|? ?]]]]]];
      try (by split; left).
    destruct (int f3), (int f4); try (by split; left).
    destruct (add_chunk_disk f2 z z0 f5 st) as [[H1|[raw1 H1]] [H2|[raw2 H2]]];
      split; eauto. }
  destruct (startswith p "FILE:"); [|by split; left].
  destruct (split ":" 2 p) as [|f1 [|f2 [|f3 [|? ?]]]]; try (by split; left).
  destruct (Base64.b64decode f3) as [raw|]; [|by split; left].
  split; right; by exists f2, raw.
Qed.

End disk_facts.

(** X22.  Whatever line is received, a file that [_handle_rx_line] of
    [lora_transceiver.py] or the loop body of [rx_receive_file.py] creates
    or changes has a name [stem_rx.suffix] without path separator, which is
    neither empty nor [.] nor [..]: the directories of a transmitted name
    are dropped. *)
Theorem X22_written_names_have_no_separator
    (cfg : LoraTransceiver.config) (line : string)
    (st : LoraTransceiver.rx_state) (q : string) :
  let st1 := (LoraTransceiver._handle_rx_line cfg line st).1 in
  let st2 := (RxReceiveFile.handle_line line st).1 in
  LoraTransceiver.disk st1 !! q ≠ LoraTransceiver.disk st !! q
  ∨ LoraTransceiver.disk st2 !! q ≠ LoraTransceiver.disk st !! q →
  no_char "/" q = true ∧ q ≠ "." ∧ q ≠ ".." ∧ q ≠ ""
  ∧ ∃ fname, q = LoraTransceiver.stamped fname.
Proof.
  intros st1 st2 Hdiff.
  assert (∃ fname, q = LoraTransceiver.stamped fname) as [fname ->].
  { assert (∀ st', (LoraTransceiver.disk st' = LoraTransceiver.disk st
                    ∨ ∃ fname raw, LoraTransceiver.disk st'
                        = <[LoraTransceiver.stamped fname := raw]>
                            (LoraTransceiver.disk st)) →
                   LoraTransceiver.disk st' !! q ≠ LoraTransceiver.disk st !! q →
                   ∃ fname, q = LoraTransceiver.stamped fname) as Hcase.
    { intros st' [Heq | (fname & raw & Heq)] Hne; rewrite Heq in Hne; [done|].
      exists fname. destruct (decide (LoraTransceiver.stamped fname = q)); [done|].
      by rewrite lookup_insert_ne in Hne. }
    assert (LoraTransceiver.disk st1 = LoraTransceiver.disk st
            ∨ ∃ fname raw, LoraTransceiver.disk st1
                = <[LoraTransceiver.stamped fname := raw]>
                    (LoraTransceiver.disk st)) as H1.
    { unfold st1, LoraTransceiver._handle_rx_line.
      destruct (Py.startswith line "MSG,").
      { destruct (Py.split "," 5 line)
          as [|f1 [|f2 [|f3 [|f4 [|f5 [|f6 [|? ?]]]]]]]; try (by left).
        match goal with
        | |- context [LoraTransceiver.handle_full_payload ?p ?s] =>
            destruct (handle_full_payload_disk p s) as [H _]
        end.
        rewrite !disk_log in H. exact H. }
      destruct (Py.startswith line "FRAG,"); [|by left].
      destruct (Py.split "," 7 line)
        as [|f1 [|f2 [|f3 [|f4 [|f5 [|f6 [|f7 [|f8 [|? ?]]]]]]]]]; try (by left).
      destruct (Py.int f3), (Py.int f4), (Py.int f5);
        try (left; cbn [fst]; by rewrite disk_log).
      destruct (LoraTransceiver.add_frag _ _ _ _ _ _) as [m [[full|]|e]];
        try (by left).
      match goal with
      | |- context [LoraTransceiver.handle_full_payload ?p ?s] =>
          destruct (handle_full_payload_disk p s) as [H _]
      end.
      rewrite !disk_log in H. exact H. }
    destruct Hdiff as [Hd | Hd]; [by apply (Hcase st1)|].
    apply (Hcase st2); [|done].
    destruct (handle_rx_line_agree cfg line st st eq_refl) as [Hk _].
    fold st1 st2 in Hk. apply (f_equal snd) in Hk. cbn in Hk.
    by rewrite <- Hk. }
  split; [apply stamped_no_sep|].
  pose proof (stamped_length fname) as Hl.
  split; [|split; [|split; [|by exists fname]]];
    intros Heq; rewrite Heq in Hl; simpl in Hl; lia.
Qed.

(** X22 on a one-shot [FILE] payload named [../../etc/x.txt]. *)
Lemma X22_written_names_have_no_separator_witness :
  let cfg := LoraTransceiver.Config false false in
  let st := LoraTransceiver.RxState ∅ ∅ ∅ [] in
  let line := "MSG,n1,1,-50,3,FILE:../../etc/x.txt:SGVsbG8=" in
  let q := "x_rx.txt" in
  no_char "/" q = true ∧ q ≠ "." ∧ q ≠ ".." ∧ q ≠ ""
  ∧ ∃ fname, q = LoraTransceiver.stamped fname.
Proof.
  apply (X22_written_names_have_no_separator (LoraTransceiver.Config false false)
           "MSG,n1,1,-50,3,FILE:../../etc/x.txt:SGVsbG8="
           (LoraTransceiver.RxState ∅ ∅ ∅ []) "x_rx.txt").
  left. vm_compute. discriminate.
Defined.

Section tx_script_facts.
Import Py.

Lemma tx_wait_loop_spec (lines : list string) :
  ∀ idx tot idx' tot' t t',
    TxSendFile.written (TxSendFile.wait_loop idx tot lines t).1
    = TxSendFile.written t
    ∧ (TxSendFile.wait_loop idx tot lines t).2
      = (TxSendFile.wait_loop idx' tot' lines t').2.
Proof.
  induction lines as [|line rest IH]; intros idx tot idx' tot' t t'; [done|].
  cbn [TxSendFile.wait_loop].
  destruct (String.eqb line ""); [apply IH|].
  destruct (contains "[TX DONE]" line); [done|].
  destruct (_ || _); [done|].
  destruct (IH idx tot idx' tot' (TxSendFile.print ("[MCU] " +:+ line) t)
              (TxSendFile.print ("[MCU] " +:+ line) t')) as [Hw Hr].
  split; [exact Hw | exact Hr].
Qed.

Lemma tx_wait_for_chunk_done_spec idx tot (lines : list string) t :
  TxSendFile.written (TxSendFile.wait_for_chunk_done idx tot lines t).1
  = TxSendFile.written t
  ∧ (TxSendFile.wait_for_chunk_done idx tot lines t).2 = reply_ok lines.
Proof.
  unfold reply_ok, TxSendFile.wait_for_chunk_done.
  destruct (tx_wait_loop_spec lines idx tot 0 0 t (TxSendFile.Tx [] [])) as [Hw Hr].
  destruct (TxSendFile.wait_loop idx tot lines t) as [t' [ok warned]].
  destruct (TxSendFile.wait_loop 0 0 lines (TxSendFile.Tx [] []))
    as [t0 [ok0 warned0]].
  cbn [fst snd] in Hw, Hr. injection Hr as <- <-.
  destruct (negb ok && negb warned); done.
Qed.

(** The two senders write the same lines when the waits end the same
    way. *)
Lemma tx_send_loop_written cfg tx_name tot_ (chunks : list string) :
  ∀ (idx : Z) (replies : list (list string)) (t : TxSendFile.tx)
    (lt : LoraTransceiver.tx_state),
    TxSendFile.written t = LoraTransceiver.written lt →
    TxSendFile.written (TxSendFile.send_loop tx_name tot_ idx chunks replies t)
    = LoraTransceiver.written
        (LoraTransceiver.send_chunks cfg tx_name tot_ idx chunks
           (wait_of_reply <$> replies) lt).1.
Proof.
  induction chunks as [|chunk chunks IH]; intros idx replies t lt Hw.
  - cbn [TxSendFile.send_loop LoraTransceiver.send_chunks fst].
    by rewrite written_tx_log.
  - cbn [TxSendFile.send_loop LoraTransceiver.send_chunks].
    match goal with
    | |- context [TxSendFile.wait_for_chunk_done ?a ?b ?c ?d] =>
        destruct (tx_wait_for_chunk_done_spec a b c d) as [Hww Hr];
        destruct (TxSendFile.wait_for_chunk_done a b c d) as [t1 ok1]
    end.
    cbn [fst snd TxSendFile.written TxSendFile.print] in Hww, Hr.
    assert (LoraTransceiver.ok
              (LoraTransceiver._consume_tx_result
                 (hd LoraTransceiver.TimedOut (wait_of_reply <$> replies)))
            = ok1) as Hok.
    { rewrite Hr. destruct replies as [|l replies]; [done|].
      cbn [fmap list_fmap hd]. unfold wait_of_reply.
      by destruct (reply_ok l). }
    rewrite Hok. destruct ok1; cbn [negb].
    + destruct replies as [|l replies]; cbn [tl fmap list_fmap];
        apply IH; rewrite Hww; unfold LoraTransceiver._write;
        cbn [LoraTransceiver.written]; by rewrite written_tx_log, Hw.
    + cbn [fst TxSendFile.written TxSendFile.print].
      rewrite Hww, written_tx_log. unfold LoraTransceiver._write.
      cbn [LoraTransceiver.written]. by rewrite written_tx_log, Hw.
Qed.

Lemma tx_boot_written (boot : list string) :
  ∀ t, TxSendFile.written
         (fold_left (λ t line,
            if String.eqb line "" then t
            else TxSendFile.print ("[MCU-BOOT] " +:+ line) t) boot t)
       = TxSendFile.written t.
Proof.
  induction boot as [|l boot IH]; intros t; [done|]. simpl. rewrite IH.
  by destruct (String.eqb l "").
Qed.

End tx_script_facts.

(** X23.  [send_file] of [tx_send_file.py] writes the very lines
    [LoRaSerialSession.send_file] writes when the waits end the same way,
    and raises the same exception for a chunk size of zero.  Its last
    printed line says that all lines were sent, also when it has stopped at
    a failed chunk. *)
Theorem X23_senders_write_the_same
    (cfg : LoraTransceiver.config) (serial_port : string) (baud : Z)
    (raw : list byte) (tx_name desc : string) (S : Z) (boot : list string)
    (replies : list (list string)) :
  match TxSendFile.send_file serial_port baud true raw tx_name desc S boot
          replies,
        LoraTransceiver.send_file cfg raw tx_name desc S
          (wait_of_reply <$> replies) with
  | Py.Ret t, Py.Ret (lt, b) =>
      TxSendFile.written t = LoraTransceiver.written lt
      ∧ List.last (TxSendFile.out t) ""
        = Py.nl +:+ "[INFO] All FILECHUNK lines sent (TX side finished)."
  | Py.Raise e1, Py.Raise e2 => e1 = e2
  | _, _ => False
  end.
Proof.
  unfold TxSendFile.send_file, LoraTransceiver.send_file. cbn [negb].
  destruct (LoraTransceiver.split_chunks (Base64.b64encode raw) S) as [cs|e];
    [|done].
  match goal with
  | |- context [LoraTransceiver.send_chunks _ _ _ _ _ _ ?s] => set (lt0 := s)
  end.
  match goal with
  | |- context [TxSendFile.send_loop _ _ _ _ _ ?s] => set (t0 := s)
  end.
  pose proof (tx_send_loop_written cfg tx_name (Z.of_nat (length cs)) cs 0
                replies t0 lt0) as Hw.
  destruct (LoraTransceiver.send_chunks cfg tx_name (Z.of_nat (length cs)) 0 cs
              (wait_of_reply <$> replies) lt0) as [lt b].
  split.
  - cbn [TxSendFile.written TxSendFile.print]. apply Hw.
    unfold t0, lt0. rewrite tx_boot_written, !written_tx_log. done.
  - cbn [TxSendFile.out TxSendFile.print]. by rewrite last_last.
Qed.

Section text_transfer_facts.
Import Py LoraTransceiver.

(** Delivering the missing pieces of a typed text: the last line printed
    is the text received. *)
Lemma deliver_chunks_text_out fname (cs : list string) (todo : list nat) raw :
  startswith (PathLib.stem fname) "_tmp_text_to_send" = true →
  Base64.b64decode (join cs) = Some raw →
  ∀ st,
    NoDup todo →
    (∀ i, i ∈ todo →
          (i < length cs)%nat ∧ stored (files st) fname !! Z.of_nat i = None) →
    (∀ j c, stored (files st) fname !! j = Some c →
            ∃ i : nat, j = Z.of_nat i ∧ cs !! i = Some c) →
    (size (stored (files st) fname) + length todo = length cs)%nat →
    todo ≠ [] →
    List.last
      (out (deliver_chunks fname (Z.of_nat (length cs))
              (frags_in_order cs todo) st).1) ""
    = "[RX TEXT] Full received text (" +:+ str (Z.of_nat (length (decode raw)))
        +:+ " chars):" +:+ nl +:+ text (decode raw).
Proof.
  intros Htmp Hdec.
  induction todo as [|i todo IH]; intros st Hnd Hin Hcs Hsz Hne; [done|].
  clear Hne. apply NoDup_cons in Hnd as [Hi Hnd].
  destruct (Hin i ltac:(left)) as [Hlt Hnone].
  destruct (cs !! i) as [c|] eqn:Hci;
    [|apply lookup_ge_None in Hci; lia].
  cbn [frags_in_order fmap list_fmap deliver_chunks]. rewrite Hci.
  cbn [default from_option id]. rewrite add_chunk_eq. cbv zeta.
  set (ch := <[Z.of_nat i := c]> (stored (files st) fname)).
  assert (size ch = S (size (stored (files st) fname))) as Hch
    by (by apply map_size_insert_None).
  assert (∀ j c', ch !! j = Some c' →
                  ∃ i' : nat, j = Z.of_nat i' ∧ cs !! i' = Some c') as Hcs'.
  { intros j c'. unfold ch. rewrite lookup_insert.
    case_decide as Hj; [|by apply Hcs].
    intros [= <-]. by exists i. }
  destruct todo as [|i2 todo].
  - simpl in Hsz.
    replace (Z.of_nat (size ch) =? Z.of_nat (length cs)) with true
      by (symmetry; apply Z.eqb_eq; lia).
    rewrite (ordered_complete ch cs Hcs') by lia.
    rewrite Hdec, Htmp. cbn [deliver_chunks fst out print frags_in_order fmap
                             list_fmap].
    by rewrite last_last.
  - cbn [length] in Hsz.
    replace (Z.of_nat (size ch) =? Z.of_nat (length cs)) with false
      by (symmetry; apply Z.eqb_neq; lia).
    fold (frags_in_order cs (i2 :: todo)).
    match goal with |- context [deliver_chunks _ _ _ ?s] => set (st1 := s) end.
    apply (IH st1); [done | | | | done].
    + intros i' Hi'. unfold st1. cbn [files]. rewrite stored_insert.
      cbn [chunks].
      destruct (Hin i' ltac:(by right)) as [? ?]. split; [done|].
      unfold ch. rewrite lookup_insert_ne; [done|].
      intros Heq. apply Nat2Z.inj in Heq. subst. done.
    + unfold st1. cbn [files]. rewrite stored_insert. exact Hcs'.
    + unfold st1. cbn [files]. rewrite stored_insert. cbn [chunks length]. lia.
Qed.

(** Decoding the bytes of a character gives the character back. *)
Lemma decode_encode_char (c : ascii) (rest : list byte) :
  decode (encode_char c ++ rest) = N_of_ascii c :: decode rest.
Proof. destruct c as [[] [] [] [] [] [] [] []]; reflexivity. Qed.

(** Decoding the UTF-8 bytes of a text gives its code points back. *)
Lemma decode_encode (s : string) : decode (encode s) = points s.
Proof.
  induction s as [|c s IH]; [done|].
  cbn [encode]. rewrite decode_encode_char, IH. done.
Qed.

Lemma text_points (s : string) : text (points s) = s.
Proof.
  induction s as [|c s IH]; [done|].
  unfold points in *. cbn [list_ascii_of_string fmap list_fmap text].
  change (list_fmap ascii N N_of_ascii (list_ascii_of_string s))
    with (N_of_ascii <$> list_ascii_of_string s).
  rewrite IH, ascii_N_embedding.
  assert ((N_of_ascii c <? 256)%N = true) as ->; [|done].
  apply N.ltb_lt, N_ascii_bounded.
Qed.

Lemma length_points (s : string) : length (points s) = String.length s.
Proof.
  induction s as [|c s IH]; [done|].
  unfold points in *. cbn [list_ascii_of_string fmap list_fmap length].
  change (list_fmap ascii N N_of_ascii (list_ascii_of_string s))
    with (N_of_ascii <$> list_ascii_of_string s).
  by rewrite IH.
Qed.

Lemma encode_nil (s : string) : encode s = [] → s = "".
Proof.
  destruct s as [|c s]; [done|]. cbn [encode]. unfold encode_char.
  by destruct (N_of_ascii c <? 128)%N.
Qed.

End text_transfer_facts.

(** X24.  A text that is not empty, sent with [send_text_as_file] with a
    positive chunk size and every wait succeeding, is shown by a receiving
    session that has no entry pending for [_tmp_text_to_send.txt]: the
    payloads of the lines written leave the UTF-8 bytes of the text in
    [_tmp_text_to_send_rx.txt], and the last line printed is [[RX TEXT]]
    with the number of characters and the text. *)
Theorem X24_typed_text_is_shown
    (cfg : LoraTransceiver.config) (text : string) (S : Z)
    (waits : list LoraTransceiver.wait_outcome)
    (st : LoraTransceiver.rx_state) :
  let tmp := "_tmp_text_to_send.txt" in
  0 < S →
  text ≠ "" →
  LoraTransceiver.files st !! tmp = None →
  (∀ k : nat,
     Z.of_nat k < pieces (Py.len (Base64.b64encode (Py.encode text))) S →
     succeeded (nth k waits LoraTransceiver.TimedOut) = true) →
  ∃ t st',
    LoraTransceiver.send_text_as_file cfg text S waits = Py.Ret (t, true)
    ∧ deliver_payloads (without_nl <$> LoraTransceiver.written t) st
      = (st', Py.Ret ())
    ∧ kept st'
      = (LoraTransceiver.messages st, LoraTransceiver.files st,
         <["_tmp_text_to_send_rx.txt" := Py.encode text]>
           (LoraTransceiver.disk st))
    ∧ List.last (LoraTransceiver.out st') ""
      = "[RX TEXT] Full received text (" +:+ Py.str (Py.len text)
          +:+ " chars):" +:+ Py.nl +:+ text.
Proof.
  intros tmp HS Htext Hfree Hwaits.
  set (raw := Py.encode text).
  assert (raw ≠ []) as Hraw by (intros H; by apply encode_nil in H).
  destruct (transfer_chunks raw S tmp st HS Hfree)
    as (cs & st' & Hsplit & Hrun & Hkept).
  pose proof (split_chunks_length _ _ _ HS Hsplit) as Hn.
  assert (Py.join cs = Base64.b64encode raw) as Hjoin.
  { rewrite split_chunks_pos in Hsplit by done. injection Hsplit as <-.
    apply join_range_step. lia. }
  assert (cs ≠ []) as Hcs.
  { intros ->. apply Hraw. apply b64encode_empty. by rewrite <- Hjoin. }
  unfold LoraTransceiver.send_text_as_file, LoraTransceiver.send_file.
  fold raw. rewrite Hsplit.
  match goal with
  | |- context [LoraTransceiver.send_chunks _ _ _ _ _ _ ?s] => set (t0 := s)
  end.
  assert (LoraTransceiver.written t0 = []) as Ht0.
  { unfold t0. by rewrite !written_tx_log. }
  destruct (send_chunks_spec cfg tmp (Z.of_nat (length cs)) cs 0 waits t0)
    as (t' & b & n & Hsend & Hb & Hw & Hall).
  assert (b = true) as ->.
  { apply Hb. intros k Hk. apply Hwaits. fold raw. lia. }
  rewrite (Hall eq_refl), Ht0 in Hw. simpl in Hw.
  rewrite <- (lines_from_length tmp (Z.of_nat (length cs)) cs 0) in Hw at 1.
  rewrite firstn_all in Hw.
  fold tmp. rewrite Hsend. eexists _, st'. split; [reflexivity|].
  cbn [LoraTransceiver.written].
  assert (deliver_payloads (without_nl <$> LoraTransceiver.written t') st
          = deliver_chunks tmp (Z.of_nat (length cs)) (indexed cs) st) as Hdel.
  { rewrite Hw, lines_from_indexed. by apply deliver_payloads_lines. }
  rewrite Hdel. split; [exact Hrun|]. split.
  - rewrite Hkept. by destruct raw.
  - replace st' with (deliver_chunks tmp (Z.of_nat (length cs)) (indexed cs) st).1
      by (by rewrite Hrun).
    unfold indexed.
    rewrite (deliver_chunks_text_out tmp cs (seq 0 (length cs)) raw).
    + unfold raw. by rewrite decode_encode, text_points, length_points.
    + reflexivity.
    + rewrite Hjoin. apply b64decode_b64encode.
    + apply NoDup_seq.
    + intros i Hi. apply elem_of_seq in Hi. split; [lia|].
      by rewrite stored_None.
    + intros j c. by rewrite stored_None.
    + rewrite stored_None by done. rewrite map_size_empty, length_seq. lia.
    + destruct cs; [done|]. done.
Qed.

(** X24 on the text [hi]. *)
Lemma X24_typed_text_is_shown_witness :
  let cfg := LoraTransceiver.Config false false in
  let st := LoraTransceiver.RxState ∅ ∅ ∅ [] in
  let done_ := LoraTransceiver.Signalled
                 (Some (LoraTransceiver.MkTxResult true "TX DONE")) in
  ∃ t st',
    LoraTransceiver.send_text_as_file cfg "hi" 4 [done_] = Py.Ret (t, true)
    ∧ deliver_payloads (without_nl <$> LoraTransceiver.written t) st
      = (st', Py.Ret ())
    ∧ kept st'
      = (LoraTransceiver.messages st, LoraTransceiver.files st,
         <["_tmp_text_to_send_rx.txt" := Py.encode "hi"]>
           (LoraTransceiver.disk st))
    ∧ List.last (LoraTransceiver.out st') ""
      = "[RX TEXT] Full received text (" +:+ Py.str (Py.len "hi")
          +:+ " chars):" +:+ Py.nl +:+ "hi".
Proof.
  apply (X24_typed_text_is_shown (LoraTransceiver.Config false false) "hi" 4).
  - lia.
  - discriminate.
  - reflexivity.
  - intros k Hk.
    change (pieces (Py.len (Base64.b64encode (Py.encode "hi"))) 4) with 1 in Hk.
    destruct k as [|k]; [reflexivity | lia].
Defined.

(* ===================================================================== *)
(** ** Markers, route discovery and payload lines *)
(* ===================================================================== *)

(** X25.  A line that holds [[TX DONE]], [[ABORT]] or [TX FAILED] is
    taken by [_reader_loop] as the outcome of the transmission in progress
    and is not handed to the reassembly, also when it is a [MSG] or [FRAG]
    line: the dictionaries and files stay as they are, the event is set,
    and the next wait gets success for [[TX DONE]] and otherwise a failure
    whose reason is the line. *)
Theorem X25_marker_lines_are_not_data
    (cfg : LoraTransceiver.config) (line : string) (s : LoraTransceiver.session) :
  Py.contains "[TX DONE]" line = true
  ∨ Py.contains "[ABORT]" line = true
  ∨ Py.contains "TX FAILED" line = true →
  let s' := (LoraTransceiver.reader_step cfg line s).1 in
  (LoraTransceiver.reader_step cfg line s).2 = Py.Ret ()
  ∧ kept (LoraTransceiver.rx s') = kept (LoraTransceiver.rx s)
  ∧ LoraTransceiver.tx_event s' = true
  ∧ LoraTransceiver._consume_tx_result
      (LoraTransceiver.Signalled (LoraTransceiver.tx_last s'))
    = if Py.contains "[TX DONE]" line
      then LoraTransceiver.MkTxResult true "TX DONE"
      else LoraTransceiver.MkTxResult false line.
Proof.
  intros Hmark s'. unfold s', LoraTransceiver.reader_step.
  assert (String.eqb line "" = false) as ->.
  { destruct line; [|done]. by destruct Hmark as [? | [? | ?]]. }
  set (s1 := if negb (LoraTransceiver.quiet cfg)
                && negb (Py.startswith line "MSG," || Py.startswith line "FRAG,")
             then LoraTransceiver.Session
                    (LoraTransceiver.print ("[MCU] " +:+ line) (LoraTransceiver.rx s))
                    (LoraTransceiver.tx_last s) (LoraTransceiver.tx_event s)
             else s).
  assert (kept (LoraTransceiver.rx s1) = kept (LoraTransceiver.rx s)) as Hk
    by (unfold s1; by destruct (_ && _)).
  destruct (Py.contains "[TX DONE]" line) eqn:Hdone; [done|].
  destruct Hmark as [? | Hmark]; [done|].
  assert (Py.contains "[ABORT]" line || Py.contains "TX FAILED" line = true) as ->.
  { destruct Hmark as [-> | ->]; [done|apply orb_true_r]. }
  done.
Qed.

(** X25 on a [MSG] line whose text holds [[TX DONE]]. *)
Lemma X25_marker_lines_are_not_data_witness :
  let cfg := LoraTransceiver.Config false false in
  let s := LoraTransceiver.Session (LoraTransceiver.RxState ∅ ∅ ∅ []) None false in
  let line := "MSG,n1,1,-50,3,FILE:a.txt:W1RYIERPTkVd [TX DONE]" in
  let s' := (LoraTransceiver.reader_step cfg line s).1 in
  (LoraTransceiver.reader_step cfg line s).2 = Py.Ret ()
  ∧ kept (LoraTransceiver.rx s') = kept (LoraTransceiver.rx s)
  ∧ LoraTransceiver.tx_event s' = true
  ∧ LoraTransceiver._consume_tx_result
      (LoraTransceiver.Signalled (LoraTransceiver.tx_last s'))
    = if Py.contains "[TX DONE]" line
      then LoraTransceiver.MkTxResult true "TX DONE"
      else LoraTransceiver.MkTxResult false line.
Proof.
  apply (X25_marker_lines_are_not_data (LoraTransceiver.Config false false)
           "MSG,n1,1,-50,3,FILE:a.txt:W1RYIERPTkVd [TX DONE]"
           (LoraTransceiver.Session (LoraTransceiver.RxState ∅ ∅ ∅ []) None false)).
  left. reflexivity.
Defined.

Section route_facts.
Import Py MeshInterface.

Lemma route_wait_spec dest (lines : list string) :
  ∀ i i' b,
    route_wait dest lines i = (i', b) →
    stats i' = stats i
    ∧ commands i' = commands i
    ∧ (b = true →
       ∃ line, line ∈ lines ∧ contains "[RREP]" line = true
               ∧ contains dest line = true).
Proof.
  induction lines as [|line rest IH]; intros i i' b; cbn [route_wait].
  - intros [= <- <-]. done.
  - destruct (String.eqb line "").
    { intros Hw. apply IH in Hw as (Hs & Hc & Hb). split; [done|]. split; [done|].
      intros Ht. destruct (Hb Ht) as (l & Hl & Hexp). exists l. split; [by right|done]. }
    destruct (contains "[RREP]" line && contains dest line) eqn:Hexp.
    { intros [= <- <-]. split; [done|]. split; [done|].
      intros _. apply andb_true_iff in Hexp. exists line. split; [by left|done]. }
    destruct (contains "Route discovery failed" line).
    { intros [= <- <-]. done. }
    intros Hw. apply IH in Hw as (Hs & Hc & Hb). split; [done|]. split; [done|].
    intros Ht. destruct (Hb Ht) as (l & Hl & Hexp'). exists l. split; [by right|done].
Qed.

End route_facts.

(** X26.  [discover_route] writes the one command [DISCOVER:<dest>] and
    leaves the statistics alone.  When the write fails it returns [False]
    without reading a line; it returns [True] only if a line that holds
    both [[RREP]] and the destination was read. *)
Theorem X26_discover_route
    (dest : string) (e : MeshInterface.chunk_env) (i : MeshInterface.iface) :
  let r := MeshInterface.discover_route dest e i in
  MeshInterface.commands r.1
  = MeshInterface.commands i ++ [("DISCOVER:" +:+ dest, MeshInterface.write_ok e)]
  ∧ MeshInterface.stats r.1 = MeshInterface.stats i
  ∧ (MeshInterface.write_ok e = false →
     r.2 = false ∧ MeshInterface.pending r.1 = MeshInterface.pending i)
  ∧ (r.2 = true →
     MeshInterface.write_ok e = true
     ∧ ∃ line, line ∈ MeshInterface.pending i ++ MeshInterface.arriving e
               ∧ Py.contains "[RREP]" line = true
               ∧ Py.contains dest line = true).
Proof.
  intros r. unfold r, MeshInterface.discover_route, MeshInterface.send_command.
  destruct (MeshInterface.write_ok e) eqn:Hw; [|done].
  cbn [MeshInterface.pending MeshInterface.print].
  match goal with
  | |- context [MeshInterface.route_wait ?a ?b ?c] =>
      destruct (MeshInterface.route_wait a b c) as [i' b'] eqn:Hwait
  end.
  apply route_wait_spec in Hwait as (Hs & Hc & Hb).
  cbn [MeshInterface.stats MeshInterface.commands MeshInterface.print] in Hs, Hc.
  cbn [fst snd]. rewrite Hs, Hc.
  split; [done|]. split; [done|]. split; [done|].
  intros Ht. split; [done|]. by apply Hb.
Qed.

Section strip_facts.
Import Py.

Lemma rev_app_rev (a b : string) : String.rev_app a b = String.rev a +:+ b.
Proof.
  unfold String.rev. revert b; induction a as [|x a IH]; intros b; [done|].
  simpl. rewrite (IH (String x "")), (IH (String x b)), app_assoc_s.
  reflexivity.
Qed.

Lemma rev_app_s (a b : string) :
  String.rev (a +:+ b) = String.rev b +:+ String.rev a.
Proof.
  induction a as [|x a IH].
  - simpl. by rewrite app_empty_r.
  - rewrite app_cons.
    change (String.rev (String x (a +:+ b)))
      with (String.rev_app (a +:+ b) (String x "")).
    change (String.rev (String x a)) with (String.rev_app a (String x "")).
    rewrite (rev_app_rev (a +:+ b)), (rev_app_rev a), IH, app_assoc_s. done.
Qed.

Lemma lstrip_app u v : lstrip v = v → lstrip (u +:+ v) = lstrip u +:+ v.
Proof.
  intros Hv. induction u as [|x u IH]; [done|].
  rewrite app_cons. simpl. destruct (is_space x); [done|].
  by rewrite app_cons.
Qed.

(** [strip] after a prefix that neither starts nor ends with white
    space. *)
Lemma strip_prefix a (q : string) (b : ascii) c :
  is_space a = false → is_space b = false →
  strip (String a q +:+ String b "" +:+ c)
  = String a q +:+ String b "" +:+ rstrip c.
Proof.
  intros Ha Hb. unfold strip, rstrip.
  assert (lstrip (String a q +:+ String b "" +:+ c)
          = String a q +:+ String b "" +:+ c) as ->.
  { rewrite app_cons. simpl. by rewrite Ha. }
  rewrite <- !app_assoc_s.
  rewrite (rev_app_s (String a q +:+ String b "") c).
  assert (lstrip (String.rev (String a q +:+ String b ""))
          = String.rev (String a q +:+ String b "")) as Hl.
  { rewrite rev_app_s. simpl. by rewrite Hb. }
  rewrite (lstrip_app _ _ Hl), rev_app_s, rev_rev. done.
Qed.

Lemma strip_frag_payload idx total c :
  strip (frag_payload idx total c) = frag_payload idx total (rstrip c).
Proof.
  unfold frag_payload.
  change ("FRAG:" +:+ str idx +:+ ":" +:+ str total +:+ ":" +:+ c)
    with (String "F" ("RAG:" +:+ str idx +:+ ":" +:+ str total +:+ ":" +:+ c)).
  replace (String "F" ("RAG:" +:+ str idx +:+ ":" +:+ str total +:+ ":" +:+ c))
    with (String "F" ("RAG:" +:+ str idx +:+ ":" +:+ str total)
            +:+ String ":" "" +:+ c).
  2:{ rewrite app_cons. f_equal. by rewrite !app_assoc_s. }
  rewrite strip_prefix by done.
  rewrite app_cons. f_equal. by rewrite !app_assoc_s.
Qed.

Lemma rstrip_space c : rstrip (c +:+ " ") = rstrip c.
Proof. unfold rstrip. rewrite rev_app_s. done. Qed.

(** The separator U+001F is white space for [strip]. *)
Lemma rstrip_separator c : rstrip (c +:+ String "031" "") = rstrip c.
Proof. unfold rstrip. rewrite rev_app_s. done. Qed.

Lemma contains_startswith sub s : startswith s sub = true → contains sub s = true.
Proof. intros H. destruct s; cbn [contains]; by rewrite H. Qed.

Lemma index_startswith sub s : startswith s sub = true → index sub s = Some O.
Proof. intros H. destruct s; cbn [index]; by rewrite H. Qed.

End strip_facts.

(** X27.  [parse_payload_line] hands on the text after the marker
    without the white space around it, in the sense of [str.strip] (tab
    to carriage return, U+001C to U+001F, space, next line, no-break
    space): the chunk of a fragment loses its trailing white space, so
    that two chunks that differ in a trailing space, or in a trailing
    U+001F, are received as the same payload. *)
Theorem X27_payload_is_stripped (idx total : Z) (c : string) :
  MeshReceiver.parse_payload_line ("[RX] Payload: " +:+ frag_payload idx total c)
  = Some (frag_payload idx total (rstrip c))
  ∧ MeshReceiver.parse_payload_line
      ("[RX] Payload: " +:+ frag_payload idx total (c +:+ " "))
    = MeshReceiver.parse_payload_line
        ("[RX] Payload: " +:+ frag_payload idx total c)
  ∧ MeshReceiver.parse_payload_line
      ("[RX] Payload: " +:+ frag_payload idx total (c +:+ String "031" ""))
    = MeshReceiver.parse_payload_line
        ("[RX] Payload: " +:+ frag_payload idx total c).
Proof.
  assert (∀ c', MeshReceiver.parse_payload_line
                  ("[RX] Payload: " +:+ frag_payload idx total c')
                = Some (frag_payload idx total (rstrip c'))) as Hparse.
  { intros c'. unfold MeshReceiver.parse_payload_line.
    change ("[RX] Payload: " +:+ frag_payload idx total c')
      with ("[RX] Payload:" +:+ String " " (frag_payload idx total c')).
    rewrite contains_startswith by apply startswith_app.
    rewrite index_startswith by apply startswith_app.
    change (0 + String.length "[RX] Payload:")%nat
      with (String.length "[RX] Payload:").
    change (Py.drop (String.length "[RX] Payload:")
              ("[RX] Payload:" +:+ String " " (frag_payload idx total c')))
      with (String " " (frag_payload idx total c')).
    change (Py.strip (String " " (frag_payload idx total c')))
      with (Py.strip (frag_payload idx total c')).
    by rewrite strip_frag_payload. }
  split; [apply Hparse|]. split.
  - by rewrite !Hparse, rstrip_space.
  - by rewrite !Hparse, rstrip_separator.
Qed.

(* ===================================================================== *)
(** ** Base64 pieces *)
(* ===================================================================== *)

Section inert_facts.
Import Py.

Lemma get_all_chars P (s : string) :
  all_chars P s = true → ∀ k c, String.get k s = Some c → P c = true.
Proof.
  induction s as [|x s IH]; intros Hall k c; [by destruct k|].
  simpl in Hall. apply andb_true_iff in Hall as [Hx Hs].
  destruct k as [|k]; simpl; [by intros [= <-]|]. by apply IH.
Qed.

Lemma table_b2a_char n : b64_char (Base64.table_b2a n) = true.
Proof.
  unfold Base64.table_b2a.
  destruct (String.get (Z.to_nat n) Base64.alphabet) as [c|] eqn:Hget; [|done].
  by apply (get_all_chars b64_char Base64.alphabet eq_refl _ _ Hget).
Qed.

Lemma b64encode_chars n :
  ∀ bs, (length bs ≤ n)%nat → all_chars b64_char (Base64.b64encode bs) = true.
Proof.
  induction n as [n IH] using lt_wf_ind. intros bs Hlen.
  destruct bs as [|b1 [|b2 [|b3 rest]]]; cbn [Base64.b64encode all_chars].
  - done.
  - by rewrite !table_b2a_char.
  - by rewrite !table_b2a_char.
  - rewrite !table_b2a_char. cbn [andb].
    apply (IH (length rest)); simpl in Hlen; lia.
Qed.

Lemma startswith_all_chars P (sub : string) :
  ∀ s, all_chars P s = true → startswith s sub = true → all_chars P sub = true.
Proof.
  induction sub as [|a sub IH]; intros s Hs Hst; [done|].
  destruct s as [|x s]; [done|]. cbn [startswith] in Hst.
  apply andb_true_iff in Hst as [Hax Hst]. apply Ascii.eqb_eq in Hax as ->.
  simpl in Hs. apply andb_true_iff in Hs as [Hx Hs].
  simpl. rewrite Hx. by apply (IH s).
Qed.

(** A text contains only texts made of its own characters. *)
Lemma contains_all_chars P (sub s : string) :
  all_chars P s = true → contains sub s = true → all_chars P sub = true.
Proof.
  induction s as [|x s IH]; intros Hs; cbn [contains].
  - rewrite orb_false_r. by apply startswith_all_chars.
  - intros [Hst | Hc]%orb_true_iff; [by apply (startswith_all_chars P sub _ Hs)|].
    simpl in Hs. apply andb_true_iff in Hs as [_ Hs]. by apply IH.
Qed.

Lemma not_contained P (sub s : string) :
  all_chars P s = true → all_chars P sub = false → contains sub s = false.
Proof.
  intros Hs Hsub. destruct (contains sub s) eqn:Hc; [|done].
  by rewrite (contains_all_chars P sub s Hs Hc) in Hsub.
Qed.

Lemma b64_char_not_space c : b64_char c = true → negb (is_space c) = true.
Proof. destruct c as [[] [] [] [] [] [] [] []]; vm_compute; congruence. Qed.

Lemma b64_char_not c x :
  b64_char x = false → b64_char c = true → negb (Ascii.eqb c x) = true.
Proof.
  intros Hx Hc. apply negb_true_iff. destruct (Ascii.eqb c x) eqn:He; [|done].
  apply Ascii.eqb_eq in He. congruence.
Qed.

End inert_facts.

(** X28.  Every piece [send_file] cuts from the base64 text of a file is
    made of base64 characters only: it holds no colon and no comma, is left
    as it is by [strip], and holds none of the markers [[TX DONE]],
    [[ABORT]] and [TX FAILED], so that the framing and the readers cannot
    mistake the data for a separator or a marker. *)
Theorem X28_base64_pieces_are_inert
    (raw : list byte) (S : Z) (cs : list string) (c : string) :
  LoraTransceiver.split_chunks (Base64.b64encode raw) S = Py.Ret cs →
  c ∈ cs →
  all_chars b64_char c = true
  ∧ no_char ":" c = true
  ∧ no_char "," c = true
  ∧ Py.strip c = c
  ∧ Py.contains "[TX DONE]" c = false
  ∧ Py.contains "[ABORT]" c = false
  ∧ Py.contains "TX FAILED" c = false.
Proof.
  intros Hsplit Hc.
  assert (all_chars b64_char c = true) as Hall.
  { unfold LoraTransceiver.split_chunks in Hsplit.
    destruct (S =? 0); [done|].
    destruct (S <? 0); [injection Hsplit as <-; by apply elem_of_nil in Hc|].
    injection Hsplit as <-.
    apply list_elem_of_fmap in Hc as (i & -> & _).
    unfold Py.slice. apply all_chars_take, all_chars_drop.
    by apply (b64encode_chars (length raw)). }
  split; [done|].
  split.
  { apply (all_chars_impl b64_char); [|done].
    intros y Hy. by apply (b64_char_not y ":"%char). }
  split.
  { apply (all_chars_impl b64_char); [|done].
    intros y Hy. by apply (b64_char_not y ","%char). }
  split.
  { apply strip_no_space. apply (all_chars_impl b64_char); [|done].
    apply b64_char_not_space. }
  split; [by apply (not_contained b64_char)|].
  split; by apply (not_contained b64_char).
Qed.

(** X28 on the second piece of [Hello]. *)
Lemma X28_base64_pieces_are_inert_witness :
  all_chars b64_char "bG8=" = true
  ∧ no_char ":" "bG8=" = true
  ∧ no_char "," "bG8=" = true
  ∧ Py.strip "bG8=" = "bG8="
  ∧ Py.contains "[TX DONE]" "bG8=" = false
  ∧ Py.contains "[ABORT]" "bG8=" = false
  ∧ Py.contains "TX FAILED" "bG8=" = false.
Proof.
  apply (X28_base64_pieces_are_inert (Py.encode "Hello") 4 ["SGVs"; "bG8="] "bG8=").
  - reflexivity.
  - apply (bool_decide_unpack _). reflexivity.
Defined.
